(** * Submission lifecycle, balance ledger and access policy of victoryweb

    A shallow embedding of the Express/Prisma back end: the relational
    store is a record of finite maps and lists, every Prisma call is a
    step of a small state-and-exception monad, and every route handler is
    a function from a request and a store to a response and a store.

    Conventions of the embedding.
    - [DOUBLE PRECISION] columns and Joi numbers are exact rationals [Q];
      Prisma's [increment] is [Qplus].
    - [new Date()] reads the field [now] of the request.
    - Identifiers produced by the store or by uuid ([cuid()], [uuidv4()])
      are read from the request ([fresh_id], [filename] of the upload).
    - The columns [created_at] and [updated_at] are left out.
    - Request bodies are well typed: a key is absent ([None]) or holds a
      value of the type its schema asks for, and there are no extra keys.
    - Foreign keys are not checked on insertion; updating or deleting a
      row that does not exist throws, as Prisma's P2025 does.
    - A response carries the rows it reports whole; which of their fields
      a handler copies into the JSON is left out. *)

From Stdlib Require Import String Ascii ZArith QArith List Lia Lqa.
From stdpp Require Import gmap strings list fin_maps pretty.

Local Open Scope string_scope.

(** ** Data model (prisma migration) *)

Inductive UserRole := USER | MODERATOR | ADMIN.
Inductive SubmissionStatus := PENDING | APPROVED | REJECTED.
Inductive FileType := IMAGE | VIDEO.
Inductive PayoutStatus := PAYOUT_PENDING | COMPLETED | CANCELLED.

#[global] Instance UserRole_eq_dec : EqDecision UserRole.
Proof. solve_decision. Defined.
#[global] Instance SubmissionStatus_eq_dec : EqDecision SubmissionStatus.
Proof. solve_decision. Defined.
#[global] Instance FileType_eq_dec : EqDecision FileType.
Proof. solve_decision. Defined.
#[global] Instance PayoutStatus_eq_dec : EqDecision PayoutStatus.
Proof. solve_decision. Defined.

Record User := mkUser {
  id : string;
  epicId : string;
  nickname : string;
  balance : Q;
  role : UserRole;
  isBanned : bool;
  lastSubmission : option nat;
  refreshToken : option string
}.

Record Submission := mkSubmission {
  sub_id : string;
  userId : string;
  fileUrl : string;
  fileName : string;
  fileType : FileType;
  fileSize : Z;
  category : string;
  description : option string;
  status : SubmissionStatus;
  rejectReason : option string;
  reviewedBy : option string;
  reviewedAt : option nat
}.

Record Payout := mkPayout {
  payout_userId : string;
  amount : Q;
  reason : string;
  payout_status : PayoutStatus;
  adminId : string;
  completedAt : option nat
}.

#[global] Instance Q_eq_dec : EqDecision Q.
Proof. solve_decision. Defined.
#[global] Instance User_eq_dec : EqDecision User.
Proof. solve_decision. Defined.
#[global] Instance Submission_eq_dec : EqDecision Submission.
Proof. solve_decision. Defined.
#[global] Instance Payout_eq_dec : EqDecision Payout.
Proof. solve_decision. Defined.

(** The [details] column of an admin log is a template string; the
    embedding keeps the template's arguments. *)
Inductive LogDetails :=
| ReviewDetails (st : SubmissionStatus) (sid nick : string) (bonus : option Q)
| BulkReviewDetails (st : SubmissionStatus) (count : nat)
| UpdateUserDetails (nick : string) (new_role : option UserRole)
    (new_ban : option bool) (new_balance : option Q)
| AddBalanceDetails (amt : Q) (nick : string) (why : string).

Record AdminLog := mkAdminLog {
  log_adminId : string;
  action : string;
  details : LogDetails;
  ipAddress : option string;
  userAgent : option string
}.

(** The store: the four relations the handlers touch, and the upload
    directory (a blob is named by the URL path it is served under). *)
Record world := mkWorld {
  users : gmap string User;
  submissions : gmap string Submission;
  payouts : list Payout;
  adminLogs : list AdminLog;
  uploads : gset string
}.

Definition set_users (f : gmap string User → gmap string User) (w : world) : world :=
  mkWorld (f (users w)) (submissions w) (payouts w) (adminLogs w) (uploads w).
Definition set_submissions (f : gmap string Submission → gmap string Submission)
    (w : world) : world :=
  mkWorld (users w) (f (submissions w)) (payouts w) (adminLogs w) (uploads w).
Definition set_payouts (f : list Payout → list Payout) (w : world) : world :=
  mkWorld (users w) (submissions w) (f (payouts w)) (adminLogs w) (uploads w).
Definition set_adminLogs (f : list AdminLog → list AdminLog) (w : world) : world :=
  mkWorld (users w) (submissions w) (payouts w) (f (adminLogs w)) (uploads w).
Definition set_uploads (f : gset string → gset string) (w : world) : world :=
  mkWorld (users w) (submissions w) (payouts w) (adminLogs w) (f (uploads w)).

(** ** Exceptions, fault plans and the store monad *)

Inductive exn :=
| P2025                 (* record to update or delete not found *)
| P2002                 (* unique constraint *)
| StoreUnavailable      (* the store failed to answer *)
| LIMIT_FILE_SIZE
| PlainError (msg : string).

Inductive outcome (A : Type) :=
| Done (a : A)
| Thrown (e : exn).
Arguments Done {A} a.
Arguments Thrown {A} e.

(** A fault plan says, for each store call in the order they are issued,
    whether the store fails on it; past its end no call fails. *)
Definition plan := list bool.
Definition no_faults : plan := [].

Definition M (A : Type) : Type := plan → world → outcome A * world * plan.

Definition ret {A} (a : A) : M A := fun p w => (Done a, w, p).
Definition throw {A} (e : exn) : M A := fun p w => (Thrown e, w, p).
Definition bind {A B} (m : M A) (k : A → M B) : M B :=
  fun p w =>
    match m p w with
    | (Done a, w', p') => k a p' w'
    | (Thrown e, w', p') => (Thrown e, w', p')
    end.
Definition catch {A} (m : M A) (h : exn → M A) : M A :=
  fun p w =>
    match m p w with
    | (Done a, w', p') => (Done a, w', p')
    | (Thrown e, w', p') => h e p' w'
    end.

#[global] Instance M_ret : MRet M := @ret.
#[global] Instance M_bind : MBind M := fun A B k m => bind m k.

(** One store call: fails if the plan says so, runs otherwise. *)
Definition call {A} (op : world → outcome A * world) : M A :=
  fun p w =>
    match p with
    | true :: p' => (Thrown StoreUnavailable, w, p')
    | false :: p' => (op w, p')
    | [] => (op w, [])
    end.

(** [Promise.all([a, b])]: both calls are issued; the result is rejected
    if either is, and the effect of the other one stays. *)
Definition promise_all {A B} (a : M A) (b : M B) : M (A * B) :=
  fun p w =>
    match a p w with
    | (ra, w1, p1) =>
        match b p1 w1 with
        | (rb, w2, p2) =>
            match ra, rb with
            | Done x, Done y => (Done (x, y), w2, p2)
            | Thrown e, _ => (Thrown e, w2, p2)
            | _, Thrown e => (Thrown e, w2, p2)
            end
        end
    end.

(** [fs.unlink], whose error is only logged. *)
Definition unlink (path : string) : M unit :=
  fun p w => (Done tt, set_uploads (fun s => s ∖ {[path]}) w, p).

(** ** Prisma calls *)

Module prisma.

Definition submission_findUnique (i : string) : M (option Submission) :=
  call (fun w => (Done (submissions w !! i), w)).

(** [findUnique] with [include: { user: true }]: the row and its owner. *)
Definition submission_findUnique_include_user (i : string)
  : M (option (Submission * option User)) :=
  call (fun w =>
    (Done match submissions w !! i with
          | Some s => Some (s, users w !! userId s)
          | None => None
          end, w)).

(** [findFirst] with [where: { id, ... }]: at most the row of that id. *)
Definition submission_findFirst (i : string) (P : Submission → bool)
  : M (option Submission) :=
  call (fun w =>
    (Done match submissions w !! i with
          | Some s => if P s then Some s else None
          | None => None
          end, w)).

Definition submission_create (s : Submission) : M Submission :=
  call (fun w =>
    match submissions w !! sub_id s with
    | Some _ => (Thrown P2002, w)
    | None => (Done s, set_submissions <[sub_id s := s]> w)
    end).

Definition submission_update (i : string) (f : Submission → Submission)
  : M Submission :=
  call (fun w =>
    match submissions w !! i with
    | Some s => (Done (f s), set_submissions <[i := f s]> w)
    | None => (Thrown P2025, w)
    end).

(** [updateMany]: every row matching [where] is rewritten; the result
    carries the number of rows matched. *)
Definition submission_updateMany (P : string → Submission → bool)
    (f : Submission → Submission) : M nat :=
  call (fun w =>
    let hit := filter (fun kv => P kv.1 kv.2 = true) (submissions w) in
    (Done (size hit), set_submissions (fun m => (f <$> hit) ∪ m) w)).

Definition submission_delete (i : string) : M Submission :=
  call (fun w =>
    match submissions w !! i with
    | Some s => (Done s, set_submissions (delete i) w)
    | None => (Thrown P2025, w)
    end).

Definition user_findUnique (i : string) : M (option User) :=
  call (fun w => (Done (users w !! i), w)).

(** [findUnique] on the unique column [epic_id]. *)
Definition user_findUnique_epicId (e : string) : M (option User) :=
  call (fun w =>
    (Done (snd <$> head (map_to_list
             (filter (fun kv => epicId kv.2 = e) (users w)))), w)).

Definition user_create (u : User) : M User :=
  call (fun w =>
    match users w !! id u with
    | Some _ => (Thrown P2002, w)
    | None =>
        if decide (filter (fun kv => epicId kv.2 = epicId u) (users w) = ∅)
        then (Done u, set_users <[id u := u]> w)
        else (Thrown P2002, w)
    end).

Definition user_update (i : string) (f : User → User) : M User :=
  call (fun w =>
    match users w !! i with
    | Some u => (Done (f u), set_users <[i := f u]> w)
    | None => (Thrown P2025, w)
    end).

Definition payout_create (p : Payout) : M Payout :=
  call (fun w => (Done p, set_payouts (fun l => (l ++ [p])%list) w)).

Definition adminLog_create (l : AdminLog) : M AdminLog :=
  call (fun w => (Done l, set_adminLogs (fun ls => (ls ++ [l])%list) w)).

End prisma.

(** ** Requests and responses *)

Record request := mkRequest {
  user : option User;          (* req.user, set by the session layer *)
  params_id : string;          (* req.params.id *)
  xhr : bool;
  accept : option string;      (* req.headers.accept *)
  ip : option string;          (* req.ip || req.connection.remoteAddress *)
  user_agent : option string;
  clock : nat;                 (* what new Date() returns *)
  fresh_id : string;           (* the id the store gives a row created now *)
  within_limit : string → bool (* does the named rate limiter admit it *)
}.

Definition with_user (u : option User) (req : request) : request :=
  mkRequest u (params_id req) (xhr req) (accept req) (ip req)
    (user_agent req) (clock req) (fresh_id req) (within_limit req).

(** The text of a response: a literal, or the first detail of a Joi
    error (the key it is about and Joi's error type). *)
Inductive message :=
| Text (s : string)
| JoiDetail (key type : string).

Inductive payload :=
| NoData
| Count (n : nat)
| SubmissionData (s : Submission)
| UserData (u : User)
| NewBalance (b : Q) (p : Payout)
| Unspecified.

Inductive response :=
| Json (code : nat) (m : message) (d : payload)
| Redirect (to : string)
| SendFile (file : string).

(** ** middleware/auth.js *)

Inductive verdict :=
| Next
| Respond (r : response).

(** [req.xhr || req.headers.accept?.indexOf('json') > -1] *)
Definition wants_json (req : request) : bool :=
  xhr req ||
  match accept req with
  | Some a => bool_decide (is_Some (String.index 0 "json" a))
  | None => false
  end.

(** What a guard does when it does not call [next]. *)
Definition refuse (code : nat) (error : string) (req : request) : verdict :=
  Respond (if wants_json req then Json code (Text error) NoData
           else Redirect "/").

(** [req.isAuthenticated() && !req.user.isBanned] *)
Definition isAuthenticated (req : request) : verdict :=
  if match user req with
     | Some u => negb (isBanned u)
     | None => false
     end
  then Next
  else refuse 401 "Authentication required" req.

Definition isAdmin (req : request) : verdict :=
  if match user req with
     | Some u => bool_decide (role u = ADMIN) || bool_decide (role u = MODERATOR)
     | None => false
     end
  then Next
  else refuse 403 "Admin access required" req.

Definition isSuperAdmin (req : request) : verdict :=
  if match user req with
     | Some u => bool_decide (role u = ADMIN)
     | None => false
     end
  then Next
  else refuse 403 "Super admin access required" req.

(** The insertion is wrapped in its own try/catch: a failure is logged
    to the console and swallowed. *)
Definition logAdminAction (adminId action : string) (details : LogDetails)
    (req : request) : M unit :=
  catch
    (prisma.adminLog_create
       (mkAdminLog adminId action details (ip req) (user_agent req));;
     mret tt)
    (fun _ => mret tt).

Definition canModifyUser (adminUser : User) (targetUserId : string) : bool :=
  if decide (id adminUser = targetUserId) then false
  else if decide (role adminUser = MODERATOR) then true
  else true.

(** ** Joi schemas *)

Inductive validated (A : Type) :=
| Valid (value : A)
| Invalid (key type : string).
Arguments Valid {A} value.
Arguments Invalid {A} key type.

Definition Qlt_bool (a b : Q) : bool := negb (Qle_bool b a).

Definition parse_role (s : string) : option UserRole :=
  if decide (s = "USER") then Some USER
  else if decide (s = "MODERATOR") then Some MODERATOR
  else if decide (s = "ADMIN") then Some ADMIN
  else None.

Definition status_toLowerCase (st : SubmissionStatus) : string :=
  match st with
  | PENDING => "pending"
  | APPROVED => "approved"
  | REJECTED => "rejected"
  end.

(** Body of PATCH /submissions/:id/review as it arrives, and as Joi
    hands it back. *)
Record ReviewBody := mkReviewBody {
  rb_status : option string;
  rb_rejectReason : option string;
  rb_bonusAmount : option Q
}.

Record ReviewValue := mkReviewValue {
  v_status : SubmissionStatus;
  v_rejectReason : option string;
  v_bonusAmount : option Q
}.

(** [Joi.number().min(0).max(1000).optional()] *)
Definition bonusAmount_rule (n : option Q) : validated (option Q) :=
  match n with
  | None => Valid None
  | Some q =>
      if Qlt_bool q 0 then Invalid "bonusAmount" "number.min"
      else if Qlt_bool (1000 # 1) q then Invalid "bonusAmount" "number.max"
      else Valid (Some q)
  end.

(** [Joi.string()] refuses the empty string unless told otherwise; the
    key is required when [status] is REJECTED and optional otherwise. *)
Definition rejectReason_rule (st : SubmissionStatus) (r : option string)
  : validated (option string) :=
  match r with
  | None =>
      if decide (st = REJECTED) then Invalid "rejectReason" "any.required"
      else Valid None
  | Some t =>
      if decide (t = "") then Invalid "rejectReason" "string.empty"
      else Valid (Some t)
  end.

Definition status_rule (s : option string) : validated SubmissionStatus :=
  match s with
  | None => Invalid "status" "any.required"
  | Some t =>
      if decide (t = "APPROVED") then Valid APPROVED
      else if decide (t = "REJECTED") then Valid REJECTED
      else Invalid "status" "any.only"
  end.

Definition reviewSubmissionSchema (b : ReviewBody) : validated ReviewValue :=
  match status_rule (rb_status b) with
  | Invalid k t => Invalid k t
  | Valid st =>
      match rejectReason_rule st (rb_rejectReason b) with
      | Invalid k t => Invalid k t
      | Valid r =>
          match bonusAmount_rule (rb_bonusAmount b) with
          | Invalid k t => Invalid k t
          | Valid n => Valid (mkReviewValue st r n)
          end
      end
  end.

Record AddBalanceBody := mkAddBalanceBody {
  ab_amount : option Q;
  ab_reason : option string
}.

Record AddBalanceValue := mkAddBalanceValue {
  v_amount : Q;
  v_reason : string
}.

Definition addBalanceSchema (b : AddBalanceBody) : validated AddBalanceValue :=
  match ab_amount b with
  | None => Invalid "amount" "any.required"
  | Some a =>
      if Qlt_bool a (1 # 100) then Invalid "amount" "number.min"
      else if Qlt_bool (10000 # 1) a then Invalid "amount" "number.max"
      else
        match ab_reason b with
        | None => Invalid "reason" "any.required"
        | Some r =>
            if decide (r = "") then Invalid "reason" "string.empty"
            else if Nat.ltb (String.length r) 3 then Invalid "reason" "string.min"
            else if Nat.ltb 200 (String.length r) then Invalid "reason" "string.max"
            else Valid (mkAddBalanceValue a r)
        end
  end.

Record UpdateUserBody := mkUpdateUserBody {
  ub_role : option string;
  ub_isBanned : option bool;
  ub_balance : option Q
}.

Record UpdateUserValue := mkUpdateUserValue {
  v_role : option UserRole;
  v_isBanned : option bool;
  v_balance : option Q
}.

Definition updateUserSchema (b : UpdateUserBody) : validated UpdateUserValue :=
  match
    match ub_role b with
    | None => Some None
    | Some s => Some <$> parse_role s
    end
  with
  | None => Invalid "role" "any.only"
  | Some r =>
      match ub_balance b with
      | None => Valid (mkUpdateUserValue r (ub_isBanned b) None)
      | Some n =>
          if Qlt_bool n 0 then Invalid "balance" "number.min"
          else if Qlt_bool (100000 # 1) n then Invalid "balance" "number.max"
          else Valid (mkUpdateUserValue r (ub_isBanned b) (Some n))
      end
  end.

(** JavaScript's [s || null] and [!s] on an optional string. *)
Definition truthy (s : option string) : bool :=
  match s with
  | Some r => negb (bool_decide (r = ""))
  | None => false
  end.

Definition or_null (s : option string) : option string :=
  if truthy s then s else None.

(** [n > 0] and the truthiness of an optional number. *)
Definition positive_amount (n : option Q) : bool :=
  match n with
  | Some q => Qlt_bool 0 q
  | None => false
  end.

Definition nonzero_amount (n : option Q) : option Q :=
  match n with
  | Some q => if Qeq_bool q 0 then None else Some q
  | None => None
  end.

(** ** routes/admin.js

    The router runs [isAuthenticated] and [isAdmin] first, so a handler
    is entered with [req.user] set: it is the argument [actor]. *)

Module admin.

(** The [data] of the update in the review handler. *)
Definition review_data (value : ReviewValue) (actor : User) (req : request)
    (s : Submission) : Submission :=
  mkSubmission (sub_id s) (userId s) (fileUrl s) (fileName s) (fileType s)
    (fileSize s) (category s) (description s)
    (v_status value) (or_null (v_rejectReason value))
    (Some (id actor)) (Some (clock req)).

Definition increment_balance (n : Q) (u : User) : User :=
  mkUser (id u) (epicId u) (nickname u) (balance u + n)%Q (role u)
    (isBanned u) (lastSubmission u) (refreshToken u).

(** PATCH /submissions/:id/review *)
Definition patch_submissions_review (actor : User) (req : request)
    (body : ReviewBody) : M response :=
  catch
    (match reviewSubmissionSchema body with
     | Invalid k t => mret (Json 400 (JoiDetail k t) NoData)
     | Valid value =>
         found ← prisma.submission_findUnique_include_user (params_id req);
         match found with
         | None => mret (Json 404 (Text "Submission not found") NoData)
         | Some (submission, owner) =>
             if negb (bool_decide (status submission = PENDING))
             then mret (Json 400 (Text "Submission already reviewed") NoData)
             else
               updatedSubmission ←
                 prisma.submission_update (params_id req)
                   (review_data value actor req);
               match v_bonusAmount value with
               | Some bonus =>
                   if bool_decide (v_status value = APPROVED) && Qlt_bool 0 bonus
                   then
                     prisma.user_update (userId submission)
                       (increment_balance bonus);;
                     prisma.payout_create
                       (mkPayout (userId submission) bonus
                          ("Approved submission: " +:+ category submission)
                          COMPLETED (id actor) (Some (clock req)));;
                     mret tt
                   else mret tt
               | None => mret tt
               end;;
               match owner with
               | None => throw (PlainError "TypeError")
               | Some o =>
                   logAdminAction (id actor) "REVIEW_SUBMISSION"
                     (ReviewDetails (v_status value) (sub_id submission)
                        (nickname o) (nonzero_amount (v_bonusAmount value)))
                     req
               end;;
               mret (Json 200
                       (Text ("Submission " +:+ status_toLowerCase (v_status value)
                              +:+ " successfully"))
                       (SubmissionData updatedSubmission))
         end
     end)
    (fun _ => mret (Json 500 (Text "Failed to review submission") NoData)).

Record BulkReviewBody := mkBulkReviewBody {
  bb_submissionIds : option (list string);   (* None: not an array *)
  bb_status : option string;
  bb_rejectReason : option string
}.

Definition bulk_data (st : SubmissionStatus) (why : option string)
    (actor : User) (req : request) (s : Submission) : Submission :=
  mkSubmission (sub_id s) (userId s) (fileUrl s) (fileName s) (fileType s)
    (fileSize s) (category s) (description s)
    st (if decide (st = REJECTED) then why else None)
    (Some (id actor)) (Some (clock req)).

(** [where: { id: { in: submissionIds }, status: 'PENDING' }] *)
Definition bulk_where (ids : list string) (i : string) (s : Submission) : bool :=
  bool_decide (i ∈ ids) && bool_decide (status s = PENDING).

(** PATCH /submissions/bulk-review *)
Definition patch_submissions_bulk_review (actor : User) (req : request)
    (body : BulkReviewBody) : M response :=
  catch
    (match bb_submissionIds body with
     | None | Some [] => mret (Json 400 (Text "No submissions selected") NoData)
     | Some submissionIds =>
         match status_rule (bb_status body) with
         | Invalid _ _ => mret (Json 400 (Text "Invalid status") NoData)
         | Valid st =>
             if bool_decide (st = REJECTED) && negb (truthy (bb_rejectReason body))
             then mret (Json 400 (Text "Reject reason required") NoData)
             else
               count ←
                 prisma.submission_updateMany (bulk_where submissionIds)
                   (bulk_data st (bb_rejectReason body) actor req);
               logAdminAction (id actor) "BULK_REVIEW_SUBMISSIONS"
                 (BulkReviewDetails st count) req;;
               mret (Json 200
                       (Text (pretty count +:+ " submissions "
                              +:+ status_toLowerCase st +:+ " successfully"))
                       (Count count))
         end
     end)
    (fun _ => mret (Json 500 (Text "Failed to bulk review submissions") NoData)).

(** The [data: value] of the user update: the keys present replace the
    columns. *)
Definition update_user_data (value : UpdateUserValue) (u : User) : User :=
  mkUser (id u) (epicId u) (nickname u)
    (default (balance u) (v_balance value))
    (default (role u) (v_role value))
    (default (isBanned u) (v_isBanned value))
    (lastSubmission u) (refreshToken u).

(** PATCH /users/:id *)
Definition patch_users (actor : User) (req : request) (body : UpdateUserBody)
  : M response :=
  catch
    (match updateUserSchema body with
     | Invalid k t => mret (Json 400 (JoiDetail k t) NoData)
     | Valid value =>
         if negb (canModifyUser actor (params_id req))
         then mret (Json 403 (Text "Cannot modify this user") NoData)
         else
           found ← prisma.user_findUnique (params_id req);
           match found with
           | None => mret (Json 404 (Text "User not found") NoData)
           | Some u =>
               if bool_decide (is_Some (v_role value))
                  && negb (bool_decide (role actor = ADMIN))
               then mret (Json 403
                            (Text "Only super admins can change roles") NoData)
               else
                 updatedUser ←
                   prisma.user_update (params_id req) (update_user_data value);
                 logAdminAction (id actor) "UPDATE_USER"
                   (UpdateUserDetails (nickname u) (v_role value)
                      (v_isBanned value) (v_balance value))
                   req;;
                 mret (Json 200 (Text "User updated successfully")
                         (UserData updatedUser))
           end
     end)
    (fun _ => mret (Json 500 (Text "Failed to update user") NoData)).

(** POST /users/:id/add-balance *)
Definition post_users_add_balance (actor : User) (req : request)
    (body : AddBalanceBody) : M response :=
  catch
    (match addBalanceSchema body with
     | Invalid k t => mret (Json 400 (JoiDetail k t) NoData)
     | Valid value =>
         if negb (canModifyUser actor (params_id req))
         then mret (Json 403 (Text "Cannot modify this user") NoData)
         else
           found ← prisma.user_findUnique (params_id req);
           match found with
           | None => mret (Json 404 (Text "User not found") NoData)
           | Some u =>
               '(updatedUser, payout) ←
                 promise_all
                   (prisma.user_update (params_id req)
                      (increment_balance (v_amount value)))
                   (prisma.payout_create
                      (mkPayout (params_id req) (v_amount value)
                         (v_reason value) COMPLETED (id actor)
                         (Some (clock req))));
               logAdminAction (id actor) "ADD_BALANCE"
                 (AddBalanceDetails (v_amount value) (nickname u)
                    (v_reason value))
                 req;;
               mret (Json 200 (Text "Balance added successfully")
                       (NewBalance (balance updatedUser) payout))
           end
     end)
    (fun _ => mret (Json 500 (Text "Failed to add balance") NoData)).

End admin.

(** ** routes/submissions.js *)

Record config := mkConfig {
  ADMIN_EPIC_IDS : option string;   (* process.env.ADMIN_EPIC_IDS *)
  MAX_FILE_SIZE : option Z          (* parseInt(process.env.MAX_FILE_SIZE), None for NaN *)
}.

Module submissionsRouter.

(** The part named [file] of a multipart request; [filename] is what
    [storage.filename] generates for it. *)
Record Upload := mkUpload {
  originalname : string;
  mimetype : string;
  size : Z;
  filename : string
}.

Definition allowedTypes : list string :=
  [ "image/jpeg"; "image/jpg"; "image/png"; "image/gif"; "image/webp";
    "video/mp4"; "video/avi"; "video/mov"; "video/wmv"; "video/webm" ].

Definition fileFilter (file : Upload) : bool :=
  bool_decide (mimetype file ∈ allowedTypes).

(** [parseInt(process.env.MAX_FILE_SIZE) || 100 * 1024 * 1024] *)
Definition fileSize_limit (cfg : config) : Z :=
  match MAX_FILE_SIZE cfg with
  | Some n => if (n =? 0)%Z then (100 * 1024 * 1024)%Z else n
  | None => (100 * 1024 * 1024)%Z
  end.

Definition blob_url (file : Upload) : string := "/uploads/" +:+ filename file.

(** [upload.single('file')]: multer asks [fileFilter], then writes the
    part to the upload directory; a part over the size limit is removed
    again and reported as LIMIT_FILE_SIZE. The result is [req.file]. The
    embedding covers a size limit that is positive; what multer does
    with a limit that is not is left out. *)
Definition upload_single (cfg : config) (part : option Upload)
  : M (option Upload) :=
  match part with
  | None => mret None
  | Some file =>
      if fileFilter file then
        if (fileSize_limit cfg <? size file)%Z then throw LIMIT_FILE_SIZE
        else fun p w =>
               (Done (Some file), set_uploads (fun s => {[blob_url file]} ∪ s) w, p)
      else throw (PlainError "Invalid file type. Only images and videos are allowed.")
  end.

Record CreateBody := mkCreateBody {
  cb_category : option string;
  cb_description : option string
}.

Record CreateValue := mkCreateValue {
  v_category : string;
  v_description : option string
}.

Definition createSubmissionSchema (b : CreateBody) : validated CreateValue :=
  match cb_category b with
  | None => Invalid "category" "any.required"
  | Some c =>
      if decide (c = "") then Invalid "category" "string.empty"
      else if Nat.ltb (String.length c) 2 then Invalid "category" "string.min"
      else if Nat.ltb 50 (String.length c) then Invalid "category" "string.max"
      else
        match cb_description b with
        | None => Valid (mkCreateValue c None)
        | Some d =>
            if decide (d = "") then Invalid "description" "string.empty"
            else if Nat.ltb 500 (String.length d)
                 then Invalid "description" "string.max"
                 else Valid (mkCreateValue c (Some d))
        end
  end.

Definition touch_lastSubmission (t : nat) (u : User) : User :=
  mkUser (id u) (epicId u) (nickname u) (balance u) (role u) (isBanned u)
    (Some t) (refreshToken u).

(** POST / (after [upload.single('file')] has set [req.file]) *)
Definition post_root (actor : User) (req : request) (body : CreateBody)
    (file : option Upload) : M response :=
  catch
    (if isBanned actor
     then mret (Json 403 (Text "Your account has been banned") NoData)
     else
       match createSubmissionSchema body with
       | Invalid k t => mret (Json 400 (JoiDetail k t) NoData)
       | Valid value =>
           match file with
           | None => mret (Json 400 (Text "File is required") NoData)
           | Some f =>
               let fileType :=
                 if String.prefix "image/" (mimetype f) then IMAGE else VIDEO in
               submission ←
                 prisma.submission_create
                   (mkSubmission (fresh_id req) (id actor) (blob_url f)
                      (originalname f) fileType (size f) (v_category value)
                      (or_null (v_description value))
                      PENDING None None None);
               prisma.user_update (id actor) (touch_lastSubmission (clock req));;
               mret (Json 201 (Text "Submission created successfully")
                       (SubmissionData submission))
           end
       end)
    (fun error =>
       match file with
       | Some f => unlink (blob_url f)
       | None => mret tt
       end;;
       match error with
       | LIMIT_FILE_SIZE => mret (Json 400 (Text "File size too large") NoData)
       | _ => mret (Json 500 (Text "Failed to create submission") NoData)
       end).

(** [where: { id, userId: req.user.id, status: 'PENDING' }] *)
Definition delete_where (actor : User) (s : Submission) : bool :=
  bool_decide (userId s = id actor) && bool_decide (status s = PENDING).

(** DELETE /:id *)
Definition delete_id (actor : User) (req : request) : M response :=
  catch
    (found ← prisma.submission_findFirst (params_id req) (delete_where actor);
     match found with
     | None =>
         mret (Json 404 (Text "Submission not found or cannot be deleted") NoData)
     | Some submission =>
         unlink (fileUrl submission);;
         prisma.submission_delete (params_id req);;
         mret (Json 200 (Text "Submission deleted successfully") NoData)
     end)
    (fun _ => mret (Json 500 (Text "Failed to delete submission") NoData)).

(** GET /:id *)
Definition get_id (actor : User) (req : request) : M response :=
  catch
    (found ← prisma.submission_findFirst (params_id req)
               (fun s => bool_decide (userId s = id actor));
     match found with
     | None => mret (Json 404 (Text "Submission not found") NoData)
     | Some submission => mret (Json 200 (Text "") (SubmissionData submission))
     end)
    (fun _ => mret (Json 500 (Text "Failed to fetch submission") NoData)).

End submissionsRouter.

(** A handler that only reads: it issues [n] queries and answers with
    rows whose content the embedding leaves out. *)
Fixpoint queries (n : nat) : M unit :=
  match n with
  | O => mret tt
  | S k => call (fun w => (Done tt, w));; queries k
  end.

Definition read_only (n : nat) (failure : string) : M response :=
  catch (queries n;; mret (Json 200 (Text "") Unspecified))
        (fun _ => mret (Json 500 (Text failure) NoData)).

(** ** config/passport.js *)

Module passport.

Record EpicUser := mkEpicUser {
  accountId : string;
  displayName : option string
}.

(** What the account endpoint answered: a failure status, or the array
    [userData]. *)
Inductive fetched :=
| NotOk (statusText : string)
| Ok (userData : list EpicUser).

(** [s.slice(-n)] for [n > 0]: the last [n] characters, or all of [s]
    when it is shorter. *)
Definition slice_last (n : nat) (s : string) : string :=
  substring (String.length s - n) n s.

(** [s.split(',')] *)
Fixpoint split_comma (s : string) : list string :=
  match s with
  | EmptyString => [""]
  | String c rest =>
      if Ascii.eqb c ","%char then "" :: split_comma rest
      else
        match split_comma rest with
        | piece :: pieces => String c piece :: pieces
        | [] => [String c ""]
        end
  end.

(** [process.env.ADMIN_EPIC_IDS?.split(',') || []] *)
Definition adminIds (cfg : config) : list string :=
  match ADMIN_EPIC_IDS cfg with
  | Some s => split_comma s
  | None => []
  end.

Definition new_user_role (cfg : config) (epicUser : EpicUser) : UserRole :=
  if bool_decide (accountId epicUser ∈ adminIds cfg) then ADMIN else USER.

(** [epicUser.displayName || `User_${epicUser.accountId.slice(-8)}`] *)
Definition new_user_nickname (epicUser : EpicUser) : string :=
  if truthy (displayName epicUser) then default "" (displayName epicUser)
  else "User_" +:+ slice_last 8 (accountId epicUser).

(** The [data] of the update of a known user. A key whose value is
    [undefined] is not written: without a display name the nickname
    stays, and without a refresh token the stored token stays. *)
Definition refresh (name : option string) (token : option string) (u : User)
  : User :=
  mkUser (id u) (epicId u) (default (nickname u) name) (balance u) (role u)
    (isBanned u) (lastSubmission u)
    (from_option Some (refreshToken u) token).

(** The verify callback of the strategy; [Thrown e] is [done(error, null)]
    and [Done u] is [done(null, user)]. *)
Definition verify (cfg : config) (req : request) (token : option string)
    (account_id : option string) (answer : fetched) : M User :=
  if negb (truthy account_id)
  then throw (PlainError "No accountId received in token response")
  else
    match answer with
    | NotOk statusText =>
        throw (PlainError ("Failed to fetch user data from Epic Games: "
                           +:+ statusText))
    | Ok [] => throw (PlainError "No user data received from Epic Games")
    | Ok (epicUser :: _) =>
        found ← prisma.user_findUnique_epicId (accountId epicUser);
        match found with
        | None =>
            prisma.user_create
              (mkUser (fresh_id req) (accountId epicUser)
                 (new_user_nickname epicUser) 0 (new_user_role cfg epicUser)
                 false None token)
        | Some u =>
            prisma.user_update (id u) (refresh (displayName epicUser) token)
        end
    end.

(** [select] of deserializeUser leaves [lastSubmission] out. *)
Definition selected (u : User) : User :=
  mkUser (id u) (epicId u) (nickname u) (balance u) (role u) (isBanned u)
    None (refreshToken u).

Definition deserializeUser (i : string) : M (option User) :=
  found ← prisma.user_findUnique i;
  mret (selected <$> found).

End passport.

(** ** middleware/rateLimiter.js, middleware/errorHandler.js *)

Definition rateLimit (name message : string) (req : request) : verdict :=
  if within_limit req name then Next
  else Respond (Json 429 (Text message) NoData).

Definition globalLimiter : request → verdict :=
  rateLimit "global" "Too many requests from this IP, please try again later.".

Definition adminLimiter : request → verdict :=
  rateLimit "admin" "Too many admin actions, please slow down.".

(** The submission limiter skips administrators and moderators. *)
Definition submissionLimiter (req : request) : verdict :=
  match user req with
  | Some u =>
      if bool_decide (role u = ADMIN) || bool_decide (role u = MODERATOR)
      then Next
      else rateLimit "submission"
             "Daily submission limit exceeded. Try again tomorrow." req
  | None =>
      rateLimit "submission"
        "Daily submission limit exceeded. Try again tomorrow." req
  end.

Definition errorHandler (err : exn) : response :=
  match err with
  | LIMIT_FILE_SIZE => Json 400 (Text "File too large") NoData
  | P2002 => Json 400 (Text "Duplicate entry") NoData
  | P2025 => Json 404 (Text "Record not found") NoData
  | _ => Json 500 (Text "Internal server error") NoData
  end.

(** ** The application: routes and their middleware chains

    [route] lists the routes the application registers behind
    [isAuthenticated]: the routers mounted on /api/submissions, /api/admin
    and /api/user, and the pages /dashboard and /admin. The landing page,
    /health and the router mounted on /auth are served without the guard
    and never write to the store, except that the OAuth callback runs the
    verify callback of the strategy ([passport.verify]). *)

Inductive route :=
| GET_api_submissions
| GET_api_submissions_id
| POST_api_submissions (body : submissionsRouter.CreateBody)
    (part : option submissionsRouter.Upload)
| DELETE_api_submissions_id
| GET_api_submissions_meta_categories
| GET_api_submissions_meta_limits
| GET_api_admin_stats
| GET_api_admin_submissions
| PATCH_api_admin_submissions_id_review (body : ReviewBody)
| PATCH_api_admin_submissions_bulk_review (body : admin.BulkReviewBody)
| GET_api_admin_users
| PATCH_api_admin_users_id (body : UpdateUserBody)
| POST_api_admin_users_id_add_balance (body : AddBalanceBody)
| GET_api_admin_logs
| GET_api_user_profile
| GET_api_user_stats
| GET_api_user_payouts
| GET_api_user_dashboard
| GET_dashboard
| GET_admin.

(** Run the middleware in order; the first one that answers ends the
    request, and the handler runs only if all of them call [next]. *)
Fixpoint chain (ms : list (request → verdict)) (req : request)
    (handler : M response) : M response :=
  match ms with
  | [] => handler
  | m :: rest =>
      match m req with
      | Next => chain rest req handler
      | Respond r => mret r
      end
  end.

(** A handler reading [req.user]; behind [isAuthenticated] it is set. *)
Definition as_user (req : request) (handler : User → M response) : M response :=
  match user req with
  | Some u => handler u
  | None => throw (PlainError "TypeError")
  end.

Definition submissions_route (req : request) (h : M response) : M response :=
  chain [isAuthenticated] req h.

Definition admin_route (req : request) (h : M response) : M response :=
  chain [isAuthenticated; isAdmin; adminLimiter] req h.

Definition dispatch (cfg : config) (r : route) (req : request) : M response :=
  match r with
  | GET_api_submissions =>
      submissions_route req (read_only 2 "Failed to fetch submissions")
  | GET_api_submissions_id =>
      submissions_route req
        (as_user req (fun u => submissionsRouter.get_id u req))
  | POST_api_submissions body part =>
      chain [isAuthenticated; submissionLimiter] req
        (file ← submissionsRouter.upload_single cfg part;
         as_user req (fun u => submissionsRouter.post_root u req body file))
  | DELETE_api_submissions_id =>
      submissions_route req
        (as_user req (fun u => submissionsRouter.delete_id u req))
  | GET_api_submissions_meta_categories =>
      submissions_route req (read_only 1 "Failed to fetch categories")
  | GET_api_submissions_meta_limits =>
      submissions_route req (mret (Json 200 (Text "") Unspecified))
  | GET_api_admin_stats =>
      admin_route req (read_only 9 "Failed to fetch statistics")
  | GET_api_admin_submissions =>
      admin_route req (read_only 2 "Failed to fetch submissions")
  | PATCH_api_admin_submissions_id_review body =>
      admin_route req
        (as_user req (fun u => admin.patch_submissions_review u req body))
  | PATCH_api_admin_submissions_bulk_review body =>
      admin_route req
        (as_user req (fun u => admin.patch_submissions_bulk_review u req body))
  | GET_api_admin_users =>
      admin_route req (read_only 2 "Failed to fetch users")
  | PATCH_api_admin_users_id body =>
      admin_route req (as_user req (fun u => admin.patch_users u req body))
  | POST_api_admin_users_id_add_balance body =>
      admin_route req
        (as_user req (fun u => admin.post_users_add_balance u req body))
  | GET_api_admin_logs =>
      chain [isAuthenticated; isAdmin; adminLimiter; isSuperAdmin] req
        (read_only 2 "Failed to fetch admin logs")
  | GET_api_user_profile =>
      chain [isAuthenticated] req (read_only 1 "Failed to fetch profile")
  | GET_api_user_stats =>
      chain [isAuthenticated] req (read_only 3 "Failed to fetch statistics")
  | GET_api_user_payouts =>
      chain [isAuthenticated] req (read_only 2 "Failed to fetch payouts")
  | GET_api_user_dashboard =>
      chain [isAuthenticated] req (read_only 4 "Failed to fetch dashboard data")
  | GET_dashboard =>
      chain [isAuthenticated] req (mret (SendFile "public/dashboard.html"))
  | GET_admin =>
      chain [isAuthenticated; isAdmin] req (mret (SendFile "public/admin.html"))
  end.

(** One request through the application: the global limiter, the
    session layer (which loads [req.user] from the store when the session
    names a user), the route, and the error handler for what is thrown
    outside the handlers. *)
Definition serve (cfg : config) (session : option string) (r : route)
    (req : request) : M response :=
  catch
    (match globalLimiter req with
     | Respond answer => mret answer
     | Next =>
         u ← match session with
             | Some i => passport.deserializeUser i
             | None => mret None
             end;
         dispatch cfg r (with_user u req)
     end)
    (fun e => mret (errorHandler e)).

(** Running a handler on a store: the response and the store it leaves. *)
Definition run (h : M response) (p : plan) (w : world) : option response * world :=
  match h p w with
  | (Done r, w', _) => (Some r, w')
  | (Thrown _, w', _) => (None, w')
  end.

(** The routes mounted on /api/admin, and the admin page. *)
Definition admin_area (r : route) : bool :=
  match r with
  | GET_api_admin_stats | GET_api_admin_submissions
  | PATCH_api_admin_submissions_id_review _
  | PATCH_api_admin_submissions_bulk_review _
  | GET_api_admin_users | PATCH_api_admin_users_id _
  | POST_api_admin_users_id_add_balance _ | GET_api_admin_logs
  | GET_admin => true
  | _ => false
  end.

(** ** The error taxonomy read on responses

    The handlers answer with HTTP status codes; the kinds of failure of
    the design are read from them as follows: 404 is NotFound, 403 is
    Forbidden, 401 is the refusal of the authentication guard, 500 is a
    storage failure, and a 400 is InvalidStateError when it reports a
    submission that has already been reviewed and ValidationError
    otherwise. *)

Inductive error_kind :=
| ValidationError
| NotFound
| InvalidStateError
| Forbidden
| Unauthenticated
| StorageError.

Definition classify (r : response) : option error_kind :=
  match r with
  | Json code m _ =>
      if decide (code = 400) then
        match m with
        | Text t =>
            if decide (t = "Submission already reviewed")
            then Some InvalidStateError
            else Some ValidationError
        | JoiDetail _ _ => Some ValidationError
        end
      else if decide (code = 401) then Some Unauthenticated
      else if decide (code = 403) then Some Forbidden
      else if decide (code = 404) then Some NotFound
      else if decide (code = 500) then Some StorageError
      else None
  | _ => None
  end.

Definition succeeded (r : response) : bool :=
  match r with
  | Json code _ _ => bool_decide (code = 200) || bool_decide (code = 201)
  | _ => false
  end.

(** ** How one row of [submissions] may change in one request *)

Definition same_upload (s s' : Submission) : Prop :=
  sub_id s' = sub_id s ∧ userId s' = userId s ∧ fileUrl s' = fileUrl s ∧
  fileName s' = fileName s ∧ fileType s' = fileType s ∧
  fileSize s' = fileSize s ∧ category s' = category s ∧
  description s' = description s.

Inductive row_step : option Submission → option Submission → Prop :=
| row_same o : row_step o o
| row_created s :
    status s = PENDING → rejectReason s = None → reviewedBy s = None →
    reviewedAt s = None → row_step None (Some s)
| row_deleted s :
    status s = PENDING → row_step (Some s) None
| row_reviewed s s' :
    status s = PENDING →
    status s' = APPROVED ∨ status s' = REJECTED →
    is_Some (reviewedBy s') → is_Some (reviewedAt s') →
    (status s' = REJECTED → is_Some (rejectReason s')) →
    same_upload s s' →
    row_step (Some s) (Some s').

Definition subs_step (m m' : gmap string Submission) : Prop :=
  ∀ i, row_step (m !! i) (m' !! i).

(** The rows of [m] that [m'] no longer holds unchanged. *)
Definition changed_rows (m m' : gmap string Submission) : gmap string Submission :=
  filter (fun kv => m' !! kv.1 ≠ Some kv.2) m.

(** What the review fields of a row must look like: none while PENDING,
    a reject reason when REJECTED. *)
Definition review_fields_ok (s : Submission) : Prop :=
  (status s = PENDING →
   rejectReason s = None ∧ reviewedBy s = None ∧ reviewedAt s = None) ∧
  (status s = REJECTED → is_Some (rejectReason s)) ∧
  (status s ≠ PENDING → is_Some (reviewedBy s) ∧ is_Some (reviewedAt s)).

Definition returned_count (r : response) : option nat :=
  match r with
  | Json _ _ (Count n) => Some n
  | _ => None
  end.

(** ** The effects of a balance credit *)

Definition bonus_payout (actor : User) (req : request) (s : Submission)
    (bonus : Q) : Payout :=
  mkPayout (userId s) bonus ("Approved submission: " +:+ category s)
    COMPLETED (id actor) (Some (clock req)).

Definition grant_payout (actor : User) (req : request) (value : AddBalanceValue)
  : Payout :=
  mkPayout (params_id req) (v_amount value) (v_reason value) COMPLETED
    (id actor) (Some (clock req)).

(** The three writes of an approval with a bonus, all applied. *)
Definition bonus_credited (actor : User) (req : request) (value : ReviewValue)
    (bonus : Q) (w w' : world) : Prop :=
  ∃ s u,
    submissions w !! params_id req = Some s ∧ status s = PENDING ∧
    users w !! userId s = Some u ∧
    submissions w'
    = <[params_id req := admin.review_data value actor req s]> (submissions w) ∧
    users w' = <[userId s := admin.increment_balance bonus u]> (users w) ∧
    payouts w' = (payouts w ++ [bonus_payout actor req s bonus])%list.

(** The two writes of an admin grant, both applied. *)
Definition grant_credited (actor : User) (req : request)
    (value : AddBalanceValue) (w w' : world) : Prop :=
  ∃ u,
    users w !! params_id req = Some u ∧
    users w'
    = <[params_id req := admin.increment_balance (v_amount value) u]> (users w) ∧
    payouts w' = (payouts w ++ [grant_payout actor req value])%list.

(** ** The system as a transition relation

    The store moves when the application serves a request, under any
    fault plan, and when the OAuth strategy verifies a login. A request
    is one move here: the handlers give up control at every [await], and
    what two requests in flight at the same time can do between the
    awaits of a handler is treated apart ([two_reviews_in_flight]). *)
Inductive step : world → world → Prop :=
| step_request cfg session r req p w :
    step w (serve cfg session r req p w).1.2
| step_login cfg req token account_id answer p w :
    step w (passport.verify cfg req token account_id answer p w).1.2.

(** ** A small store used in the examples *)

Module sample.

Definition alice : User := mkUser "u1" "epic-alice" "alice" 0 USER false None None.
Definition mallory : User :=
  mkUser "u2" "epic-mallory" "mallory" 0 USER true None None.
Definition maud : User := mkUser "m1" "epic-maud" "maud" 0 MODERATOR false None None.
Definition root : User := mkUser "a1" "epic-root" "root" 0 ADMIN false None None.

Definition clip (i : string) (st : SubmissionStatus) : Submission :=
  mkSubmission i "u1" ("/uploads/" +:+ i +:+ ".png") "clip.png" IMAGE 2048
    "Epic Kill" None st
    (if decide (st = REJECTED) then Some "blurry" else None)
    (if decide (st = PENDING) then None else Some "a1")
    (if decide (st = PENDING) then None else Some 3).

Definition store : world :=
  mkWorld
    (<["u1" := alice]> (<["u2" := mallory]> (<["m1" := maud]> (<["a1" := root]> ∅))))
    (<["s1" := clip "s1" PENDING]>
       (<["s2" := clip "s2" APPROVED]> (<["s3" := clip "s3" PENDING]> ∅)))
    [] []
    {["/uploads/s1.png"; "/uploads/s2.png"; "/uploads/s3.png"]}.

(** A JSON request about the row [i], made at time 7 and admitted by
    every rate limiter. *)
Definition request_for (u : option User) (i : string) : request :=
  mkRequest u i true None (Some "10.0.0.1") (Some "curl") 7 "fresh"
    (fun _ => true).

Definition cfg : config := mkConfig (Some "epic-root,epic-ops") None.

(** A reject reason of 201 characters. *)
Definition long_reason : string := string_of_list_ascii (repeat "x"%char 201).

End sample.

(** ** How the ledger may change in one request

    A row of [users] is edited in one of four ways: a credit (review
    bonus, add-balance), an administrative edit (PATCH /users/:id), the
    time stamp of a new submission, or the refresh of a login. *)
Inductive user_edit (u : User) : User → Prop :=
| edit_credit n : (0 < n)%Q → user_edit u (admin.increment_balance n u)
| edit_admin value :
    (∀ b, v_balance value = Some b → (0 <= b)%Q ∧ (b <= 100000 # 1)%Q) →
    user_edit u (admin.update_user_data value u)
| edit_touch t : user_edit u (submissionsRouter.touch_lastSubmission t u)
| edit_refresh name token : user_edit u (passport.refresh name token u).

Inductive users_change (m : gmap string User) : gmap string User → Prop :=
| users_same : users_change m m
| users_created u :
    m !! id u = None →
    (∀ j v, m !! j = Some v → epicId v ≠ epicId u) →
    balance u = 0%Q → isBanned u = false →
    users_change m (<[id u := u]> m)
| users_edited i u u' :
    m !! i = Some u → user_edit u u' → users_change m (<[i := u']> m).

Definition payout_ok (p : Payout) : Prop :=
  payout_status p = COMPLETED ∧ (0 < amount p)%Q ∧ is_Some (completedAt p).

Definition ledger_step (w w' : world) : Prop :=
  users_change (users w) (users w') ∧
  (∃ ps, payouts w' = (payouts w ++ ps)%list ∧ Forall payout_ok ps) ∧
  (∃ ls, adminLogs w' = (adminLogs w ++ ls)%list).

(** The [users] relation is well formed when every row sits under its
    own id and no external account id occurs twice. *)
Definition users_wf (m : gmap string User) : Prop :=
  (∀ i u, m !! i = Some u → id u = i) ∧
  (∀ i u, m !! i = Some u →
     ∀ j v, m !! j = Some v → epicId u = epicId v → i = j).

Definition balances_nonneg (m : gmap string User) : Prop :=
  ∀ i u, m !! i = Some u → (0 <= balance u)%Q.

#[global] Instance Qle_decision (a b : Q) : Decision (a <= b)%Q.
Proof. unfold Qle. apply _. Defined.

#[global] Instance balances_nonneg_dec m : Decision (balances_nonneg m).
Proof. unfold balances_nonneg. apply (map_Forall_dec _). Defined.

Definition key_is_id (i : string) (u : User) : Prop := id u = i.
Definition same_key_if_same_epicId (i : string) (u : User) (j : string)
    (v : User) : Prop := epicId u = epicId v → i = j.

#[global] Instance key_is_id_dec i u : Decision (key_is_id i u).
Proof. unfold key_is_id. apply _. Defined.
#[global] Instance same_key_if_same_epicId_dec i u j v :
  Decision (same_key_if_same_epicId i u j v).
Proof. unfold same_key_if_same_epicId. apply _. Defined.

#[global] Instance users_wf_dec m : Decision (users_wf m).
Proof.
  change (Decision
    (map_Forall key_is_id m ∧
     map_Forall (fun i u => map_Forall (same_key_if_same_epicId i u) m) m)).
  apply _.
Defined.

(** ** What a request outside the admin area may touch

    [own_rows_only uid m m']: every row of [submissions] that differs
    between [m] and [m'] belongs to [uid], before and after. *)
Definition owned_by (uid : string) (o : option Submission) : Prop :=
  match o with
  | Some s => userId s = uid
  | None => True
  end.

Definition own_rows_only (uid : string) (m m' : gmap string Submission) : Prop :=
  ∀ i, m' !! i = m !! i ∨ (owned_by uid (m !! i) ∧ owned_by uid (m' !! i)).

(** [passport.serializeUser]: the session keeps the id of the user. *)
Definition serializeUser (u : User) : string := id u.

(** ** Paging of the list handlers

    Every list handler reads [page] and [limit] from the query the same
    way; they differ in the default and the cap of [limit]: 10 and 50 for
    GET /api/submissions and GET /api/user/payouts, 20 and 100 for the
    admin lists of submissions and users, 50 and 200 for the audit log.
    The result of [parseInt] is [None] for NaN. *)
Module paging.

(** [parseInt(q) || d] *)
Definition or_default (q : option Z) (d : Z) : Z :=
  match q with
  | Some n => if (n =? 0)%Z then d else n
  | None => d
  end.

Definition page (q : option Z) : Z := or_default q 1.

(** [Math.min(parseInt(req.query.limit) || d, cap)] *)
Definition limit (d cap : Z) (q : option Z) : Z := Z.min (or_default q d) cap.

Definition skip (page limit : Z) : Z := ((page - 1) * limit)%Z.

(** [Math.ceil(total / limit)], for a [limit] that is not 0; the doubles
    of JavaScript agree with the exact quotient on row counts. *)
Definition pages (total limit : Z) : Z := (- ((- total) / limit))%Z.

End paging.

(** ** GET /api/submissions/meta/categories *)
Module categories.

Definition defaultCategories : list string :=
  [ "Victory Royale"; "Epic Kill"; "Funny Moment"; "Clutch Play"; "Bug/Glitch";
    "Creative Build"; "Trick Shot"; "Team Play"; "Solo Win"; "High Kill Game" ].

(** [[...new Set(l)]]: the first occurrence of every element, in order. *)
Fixpoint new_Set (l : list string) : list string :=
  match l with
  | [] => []
  | x :: rest => x :: filter (fun y => y ≠ x) (new_Set rest)
  end.

(** [groups] is what the [groupBy] on [category] finds, most frequent
    first; the query keeps the first 20 ([take: 20]). *)
Definition popular (groups : list (string * nat)) : list (string * nat) :=
  take 20 groups.

Definition all (groups : list (string * nat)) : list string :=
  take 30 (new_Set ((popular groups).*1 ++ defaultCategories)).

End categories.

(** ** GET /api/user/stats and GET /api/user/dashboard *)
Module userRouter.

Record Stats := mkStats {
  total : nat;
  pending : nat;
  approved : nat;
  rejected : nat
}.

(** [stats[stat.status.toLowerCase()]] *)
Definition stat (st : SubmissionStatus) (s : Stats) : nat :=
  match st with
  | PENDING => pending s
  | APPROVED => approved s
  | REJECTED => rejected s
  end.

(** The body of the [forEach]:
    [stats.total += stat._count.status;
     stats[stat.status.toLowerCase()] = stat._count.status] *)
Definition add_stat (s : Stats) (g : SubmissionStatus * nat) : Stats :=
  match g.1 with
  | PENDING => mkStats (total s + g.2) g.2 (approved s) (rejected s)
  | APPROVED => mkStats (total s + g.2) (pending s) g.2 (rejected s)
  | REJECTED => mkStats (total s + g.2) (pending s) (approved s) g.2
  end.

Definition submission_stats (groups : list (SubmissionStatus * nat)) : Stats :=
  fold_left add_stat groups (mkStats 0 0 0 0).

(** The rows of a user with a given status. *)
Definition rows_with (uid : string) (st : SubmissionStatus)
    (m : gmap string Submission) : gmap string Submission :=
  filter (fun kv => userId kv.2 = uid ∧ status kv.2 = st) m.

(** [groupBy({ by: ['status'], where: { userId }, _count })] answers with
    one group for each status that some row of the user has, and its
    count, in an order the store chooses. *)
Definition is_groupBy_status (uid : string) (m : gmap string Submission)
    (groups : list (SubmissionStatus * nat)) : Prop :=
  NoDup groups.*1 ∧
  ∀ st n, (st, n) ∈ groups ↔ n = size (rows_with uid st m) ∧ n ≠ 0%nat.

(** One such answer. *)
Definition groupBy_status (uid : string) (m : gmap string Submission)
  : list (SubmissionStatus * nat) :=
  filter (fun g => g.2 ≠ 0%nat)
    ((fun st => (st, size (rows_with uid st m))) <$> [PENDING; APPROVED; REJECTED]).

End userRouter.

(** ** Two reviews in flight

    A handler runs until its next [await] and then gives control away,
    so another request can run before it goes on. The review handler is
    cut here at its first [await]: [review_until_read] is the handler up
    to the answer of [findUnique], and [review_from_read] is the rest of
    it, which works on the row as it was read. *)
Definition review_after_findUnique (actor : User) (req : request)
    (value : ReviewValue) (found : option (Submission * option User))
  : M response :=
  match found with
  | None => mret (Json 404 (Text "Submission not found") NoData)
  | Some (submission, owner) =>
      if negb (bool_decide (status submission = PENDING))
      then mret (Json 400 (Text "Submission already reviewed") NoData)
      else
        updatedSubmission ←
          prisma.submission_update (params_id req)
            (admin.review_data value actor req);
        match v_bonusAmount value with
        | Some bonus =>
            if bool_decide (v_status value = APPROVED) && Qlt_bool 0 bonus
            then
              prisma.user_update (userId submission)
                (admin.increment_balance bonus);;
              prisma.payout_create
                (mkPayout (userId submission) bonus
                   ("Approved submission: " +:+ category submission)
                   COMPLETED (id actor) (Some (clock req)));;
              mret tt
            else mret tt
        | None => mret tt
        end;;
        match owner with
        | None => throw (PlainError "TypeError")
        | Some o =>
            logAdminAction (id actor) "REVIEW_SUBMISSION"
              (ReviewDetails (v_status value) (sub_id submission)
                 (nickname o) (nonzero_amount (v_bonusAmount value)))
              req
        end;;
        mret (Json 200
                (Text ("Submission " +:+ status_toLowerCase (v_status value)
                       +:+ " successfully"))
                (SubmissionData updatedSubmission))
  end.

(** Where a review stands at its first [await]: answered already, or
    holding the validated body and what [findUnique] found. *)
Definition review_until_read (req : request) (body : ReviewBody)
  : M (response + ReviewValue * option (Submission * option User)) :=
  catch
    (match reviewSubmissionSchema body with
     | Invalid k t => mret (inl (Json 400 (JoiDetail k t) NoData))
     | Valid value =>
         found ← prisma.submission_findUnique_include_user (params_id req);
         mret (inr (value, found))
     end)
    (fun _ => mret (inl (Json 500 (Text "Failed to review submission") NoData))).

Definition review_from_read (actor : User) (req : request)
    (at_await : response + ReviewValue * option (Submission * option User))
  : M response :=
  match at_await with
  | inl answer => mret answer
  | inr (value, found) =>
      catch (review_after_findUnique actor req value found)
        (fun _ => mret (Json 500 (Text "Failed to review submission") NoData))
  end.

(** Two reviews whose [findUnique] calls are both answered before
    either handler goes on. *)
Definition two_reviews_in_flight (actorA : User) (reqA : request)
    (bodyA : ReviewBody) (actorB : User) (reqB : request) (bodyB : ReviewBody)
  : M (response * response) :=
  a ← review_until_read reqA bodyA;
  b ← review_until_read reqB bodyB;
  answerA ← review_from_read actorA reqA a;
  answerB ← review_from_read actorB reqB b;
  mret (answerA, answerB).

(** ** Weakest preconditions for the store monad *)

Definition wp {A} (m : M A) (p : plan) (w : world)
    (Q : outcome A → world → plan → Prop) : Prop :=
  Q (m p w).1.1 (m p w).1.2 (m p w).2.

Section wp_rules.
Context {A B : Type}.
Implicit Types (p : plan) (w : world).

Lemma wp_ret (a : A) p w Q : Q (Done a) w p → wp (mret a) p w Q.
Proof. done. Qed.

Lemma wp_throw (e : exn) p w (Q : outcome A → world → plan → Prop) :
  Q (Thrown e) w p → wp (throw e) p w Q.
Proof. done. Qed.

Lemma wp_bind (m : M A) (k : A → M B) p w Q :
  wp m p w (fun r w' p' =>
    match r with
    | Done a => wp (k a) p' w' Q
    | Thrown e => Q (Thrown e) w' p'
    end) →
  wp (m ≫= k) p w Q.
Proof.
  unfold wp, mbind, M_bind, bind.
  destruct (m p w) as [[[a|e] w'] p']; done.
Qed.

Lemma wp_catch (m : M A) (h : exn → M A) p w Q :
  wp m p w (fun r w' p' =>
    match r with
    | Done a => Q (Done a) w' p'
    | Thrown e => wp (h e) p' w' Q
    end) →
  wp (catch m h) p w Q.
Proof.
  unfold wp, catch.
  destruct (m p w) as [[[a|e] w'] p']; done.
Qed.

(** A store call under an arbitrary plan: it fails, or it runs. *)
Lemma wp_call (op : world → outcome A * world) p w Q :
  (∀ p', Q (Thrown StoreUnavailable) w p') →
  (∀ p', Q (op w).1 (op w).2 p') →
  wp (call op) p w Q.
Proof.
  intros Hfail Hrun. unfold wp, call.
  destruct p as [|[] p']; simpl; auto.
Qed.

Lemma wp_promise_all (a : M A) (b : M B) p w Q :
  wp a p w (fun ra w1 p1 =>
    wp b p1 w1 (fun rb w2 p2 =>
      Q (match ra, rb with
         | Done x, Done y => Done (x, y)
         | Thrown e, _ => Thrown e
         | _, Thrown e => Thrown e
         end) w2 p2)) →
  wp (promise_all a b) p w Q.
Proof.
  unfold wp, promise_all.
  destruct (a p w) as [[ra w1] p1]; simpl.
  destruct (b p1 w1) as [[rb w2] p2]; simpl.
  destruct ra, rb; done.
Qed.

Lemma wp_mono (m : M A) p w (Q Q' : outcome A → world → plan → Prop) :
  (∀ r w' p', Q r w' p' → Q' r w' p') → wp m p w Q → wp m p w Q'.
Proof. unfold wp. auto. Qed.
End wp_rules.

Lemma wp_unlink path p w Q :
  Q (Done tt) (set_uploads (fun s => s ∖ {[path]}) w) p → wp (unlink path) p w Q.
Proof. done. Qed.

(** Symbolic execution of a handler: one rule at a time, splitting on
    what the code branches on. *)
Ltac innermost_match x :=
  match x with
  | context [match ?y with _ => _ end] =>
      lazymatch y with
      | context [match _ with _ => _ end] => fail
      | _ => destruct y eqn:?
      end
  end.

Ltac wp_pure :=
  match goal with
  | H : ?m !! ?i = _ |- context [?m !! ?i] => rewrite H
  | |- wp (match ?x with _ => _ end) _ _ _ =>
      first [innermost_match x | destruct x eqn:?]
  | |- wp (if ?x then _ else _) _ _ _ =>
      first [innermost_match x | destruct x eqn:?]
  | |- match ?x with _ => _ end => innermost_match x
  end.

Ltac wp_rule call_rule :=
  lazymatch goal with
  | |- wp (mret _) _ _ _ => apply wp_ret
  | |- wp (throw _) _ _ _ => apply wp_throw
  | |- wp (_ ≫= _) _ _ _ => apply wp_bind
  | |- wp (catch _ _) _ _ _ => apply wp_catch
  | |- wp (promise_all _ _) _ _ _ => apply wp_promise_all
  | |- wp (unlink _) _ _ _ => apply wp_unlink
  | |- wp (call _) _ _ _ => call_rule
  | _ => wp_pure
  end.

Ltac wp_any :=
  repeat (wp_rule ltac:(apply wp_call; intros ?);
          cbn beta iota zeta delta [fst snd]; try discriminate).

Ltac unfold_calls :=
  unfold logAdminAction;
  unfold prisma.submission_findUnique, prisma.submission_findUnique_include_user,
    prisma.submission_findFirst, prisma.submission_create,
    prisma.submission_update, prisma.submission_updateMany,
    prisma.submission_delete, prisma.user_findUnique,
    prisma.user_findUnique_epicId, prisma.user_create, prisma.user_update,
    prisma.payout_create, prisma.adminLog_create.

(** Boolean tests of the code, turned into propositions. *)
Ltac bool_hyps :=
  repeat match goal with
  | H : _ && _ = true |- _ => apply andb_true_iff in H; destruct H
  | H : _ || _ = false |- _ => apply orb_false_iff in H; destruct H
  | H : negb _ = true |- _ => apply negb_true_iff in H
  | H : negb _ = false |- _ => apply negb_false_iff in H
  | H : bool_decide _ = true |- _ => apply bool_decide_eq_true in H
  | H : bool_decide _ = false |- _ => apply bool_decide_eq_false in H
  | H : _ && _ = false |- _ => apply andb_false_iff in H; destruct H
  | H : _ || _ = true |- _ => apply orb_true_iff in H; destruct H
  end.

(** ** Access policy *)

Lemma canModifyUser_self actor : canModifyUser actor (id actor) = false.
Proof. unfold canModifyUser. by rewrite decide_True. Qed.

Lemma canModifyUser_other actor target :
  id actor ≠ target → canModifyUser actor target = true.
Proof.
  intros Hne. unfold canModifyUser. rewrite decide_False by done.
  by destruct (decide (role actor = MODERATOR)).
Qed.

Lemma patch_users_self actor req body p w :
  params_id req = id actor →
  wp (admin.patch_users actor req body) p w (fun r w' _ =>
    w' = w ∧
    ∃ m, r = Done (Json (if updateUserSchema body is Valid _ then 403 else 400)
                     m NoData)).
Proof.
  intros Hself. unfold admin.patch_users. rewrite Hself, canModifyUser_self.
  simpl. wp_any; eauto.
Qed.

Lemma add_balance_self actor req body p w :
  params_id req = id actor →
  wp (admin.post_users_add_balance actor req body) p w (fun r w' _ =>
    w' = w ∧
    ∃ m, r = Done (Json (if addBalanceSchema body is Valid _ then 403 else 400)
                     m NoData)).
Proof.
  intros Hself. unfold admin.post_users_add_balance.
  rewrite Hself, canModifyUser_self.
  simpl. wp_any; eauto.
Qed.

(** A moderator's (or a plain user's) request to change a role leaves the
    store as it was and is never answered with success. *)
Lemma patch_users_role_needs_admin actor req body p w :
  is_Some (ub_role body) → role actor ≠ ADMIN →
  wp (admin.patch_users actor req body) p w (fun r w' _ =>
    w' = w ∧ ∃ code m, r = Done (Json code m NoData) ∧ (400 ≤ code)%nat).
Proof.
  intros [name Hname] Hrole. unfold admin.patch_users.
  destruct (updateUserSchema body) as [value|k t] eqn:Hv.
  - assert (is_Some (v_role value)) as Hsome.
    { unfold updateUserSchema in Hv. rewrite Hname in Hv.
      destruct (parse_role name); simpl in Hv; [|done].
      destruct (ub_balance body); repeat case_match; simplify_eq; simpl; eauto. }
    unfold_calls. wp_any; try (split; [done|]; eexists _, _; split; [done|lia]).
    all: bool_hyps; done.
  - wp_any. split; [done|]. eexists _, _; split; [done|lia].
Qed.

(** The access policy where [canModifyUser] is asked.
    [canModifyUser actor actor.id] is false for every actor, whatever the
    role, so the two handlers that call it (PATCH /users/:id for role,
    ban and balance, POST /users/:id/add-balance) refuse an actor acting
    on their own row and leave the store as it was; for any other target
    [canModifyUser] is true when the actor is ADMIN or MODERATOR; and a
    request that names a new role is refused, leaving the store as it
    was, unless the actor's role is ADMIN. *)
Theorem access_policy_of_user_endpoints :
  (∀ actor, canModifyUser actor (id actor) = false) ∧
  (∀ actor target,
     id actor ≠ target → role actor = ADMIN ∨ role actor = MODERATOR →
     canModifyUser actor target = true) ∧
  (∀ actor req p w,
     params_id req = id actor →
     (∀ body, ∃ r,
        run (admin.patch_users actor req body) p w = (Some r, w) ∧
        succeeded r = false) ∧
     (∀ body, ∃ r,
        run (admin.post_users_add_balance actor req body) p w = (Some r, w) ∧
        succeeded r = false)) ∧
  (∀ actor req body p w,
     is_Some (ub_role body) → role actor ≠ ADMIN →
     ∃ r, run (admin.patch_users actor req body) p w = (Some r, w) ∧
          succeeded r = false).
Proof.
  split_and!.
  - apply canModifyUser_self.
  - intros actor target Hne _. by apply canModifyUser_other.
  - intros actor req p w Hself. split; intros body.
    + pose proof (patch_users_self actor req body p w Hself) as H.
      unfold wp in H. unfold run.
      destruct (admin.patch_users actor req body p w) as [[r w'] p'].
      simpl in H. destruct H as [-> [m ->]]. eexists; split; [done|].
      by destruct (updateUserSchema body).
    + pose proof (add_balance_self actor req body p w Hself) as H.
      unfold wp in H. unfold run.
      destruct (admin.post_users_add_balance actor req body p w) as [[r w'] p'].
      simpl in H. destruct H as [-> [m ->]]. eexists; split; [done|].
      by destruct (addBalanceSchema body).
  - intros actor req body p w Hsome Hrole.
    pose proof (patch_users_role_needs_admin actor req body p w Hsome Hrole) as H.
    unfold wp in H. unfold run.
    destruct (admin.patch_users actor req body p w) as [[r w'] p'].
    simpl in H. destruct H as [-> (code & m & -> & Hcode)].
    eexists; split; [done|]. simpl.
    apply orb_false_iff. split; apply bool_decide_eq_false; lia.
Qed.

Lemma access_policy_of_user_endpoints_witness :
  canModifyUser sample.maud "u1" = true ∧
  (∃ r, run (admin.post_users_add_balance sample.root
               (sample.request_for (Some sample.root) "a1")
               (mkAddBalanceBody (Some (50 # 1)) (Some "bonus")))
            no_faults sample.store = (Some r, sample.store) ∧
        succeeded r = false) ∧
  (∃ r, run (admin.patch_users sample.maud
               (sample.request_for (Some sample.maud) "u1")
               (mkUpdateUserBody (Some "ADMIN") None None))
            no_faults sample.store = (Some r, sample.store) ∧
        succeeded r = false).
Proof.
  destruct access_policy_of_user_endpoints as (_ & Hother & Hself & Hrole).
  split_and!.
  - apply Hother; [vm_compute; discriminate | right; reflexivity].
  - apply (Hself sample.root); reflexivity.
  - apply Hrole; [simpl; eauto | vm_compute; discriminate].
Defined.

(** ** The authentication guard *)

Lemma isAuthenticated_banned req u :
  user req = Some u → isBanned u = true →
  isAuthenticated req = refuse 401 "Authentication required" req.
Proof. intros Hu Hb. unfold isAuthenticated. by rewrite Hu, Hb. Qed.

Lemma isAuthenticated_anonymous req :
  user req = None →
  isAuthenticated req = refuse 401 "Authentication required" req.
Proof. intros Hu. unfold isAuthenticated. by rewrite Hu. Qed.

(** Every route starts with the guard: when it answers, no handler and
    no later middleware runs. *)
Lemma dispatch_guarded cfg r req answer :
  isAuthenticated req = Respond answer → dispatch cfg r req = mret answer.
Proof.
  intros Hguard.
  destruct r; unfold dispatch, submissions_route, admin_route, chain;
    by rewrite Hguard.
Qed.

Lemma serve_banned cfg w uid u r req p :
  users w !! uid = Some u → isBanned u = true →
  wp (serve cfg (Some uid) r req) p w (fun res w' p' =>
    w' = w ∧
    (p = no_faults →
     res = Done (if within_limit req "global"
                 then if wants_json req
                      then Json 401 (Text "Authentication required") NoData
                      else Redirect "/"
                 else Json 429
                        (Text "Too many requests from this IP, please try again later.")
                        NoData))).
Proof.
  intros Hu Hb. unfold serve, globalLimiter, rateLimit, passport.deserializeUser.
  destruct (within_limit req "global") eqn:Hlim.
  - apply wp_catch, wp_bind, wp_bind. unfold prisma.user_findUnique.
    assert (dispatch cfg r (with_user (Some (passport.selected u)) req)
            = mret (if wants_json req
                    then Json 401 (Text "Authentication required") NoData
                    else Redirect "/")) as Hguard.
    { apply dispatch_guarded.
      by rewrite (isAuthenticated_banned _ (passport.selected u)). }
    unfold wp, call.
    destruct p as [|[] p]; cbn [fst snd]; rewrite ?Hu; simpl; rewrite ?Hguard;
      done.
  - apply wp_catch, wp_ret. done.
Qed.

(** C10. A request whose session names a banned user is stopped by
    [isAuthenticated] on every route of the application behind the guard
    (the submission routes, the profile, statistics, payout and dashboard
    reads, the two pages and all admin routes): whatever the store does,
    the store is left as it was, and once the global rate limiter has let
    the request in, the answer is the guard's refusal (401 "Authentication
    required" for a JSON client, a redirect to the landing page
    otherwise), the very answer a request without a session gets. *)
Theorem C10_banned_user_refused cfg w uid u r req :
  users w !! uid = Some u → isBanned u = true →
  (∀ p, (run (serve cfg (Some uid) r req) p w).2 = w) ∧
  (within_limit req "global" = true →
   run (serve cfg (Some uid) r req) no_faults w
   = (Some (if wants_json req
            then Json 401 (Text "Authentication required") NoData
            else Redirect "/"), w) ∧
   run (serve cfg (Some uid) r req) no_faults w
   = run (serve cfg None r req) no_faults w ∧
   (wants_json req = true →
    classify <$> (run (serve cfg (Some uid) r req) no_faults w).1
    = Some (Some Unauthenticated))).
Proof.
  intros Hu Hb. split.
  - intros p. pose proof (serve_banned cfg w uid u r req p Hu Hb) as H.
    unfold wp in H. unfold run.
    destruct (serve cfg (Some uid) r req p w) as [[[a|e] w'] p']; simpl in *;
      by destruct H.
  - intros Hlim.
    pose proof (serve_banned cfg w uid u r req no_faults Hu Hb) as H.
    unfold wp in H. destruct H as [Hw Hres]. specialize (Hres eq_refl).
    rewrite Hlim in Hres.
    assert (run (serve cfg (Some uid) r req) no_faults w
            = (Some (if wants_json req
                     then Json 401 (Text "Authentication required") NoData
                     else Redirect "/"), w)) as Hrun.
    { unfold run.
      destruct (serve cfg (Some uid) r req no_faults w) as [[res w'] p'].
      simpl in *. by subst. }
    split_and!.
    + done.
    + rewrite Hrun. unfold run, serve, catch, globalLimiter, rateLimit.
      rewrite Hlim.
      change ((mret None ≫= λ u0, dispatch cfg r (with_user u0 req)) no_faults w)
        with (dispatch cfg r (with_user None req) no_faults w).
      by erewrite dispatch_guarded by (by apply isAuthenticated_anonymous).
    + intros Hjson. rewrite Hrun, Hjson. done.
Qed.

Lemma C10_banned_user_refused_witness :
  run (serve sample.cfg (Some "u2") DELETE_api_submissions_id
         (sample.request_for None "s1")) no_faults sample.store
  = (Some (Json 401 (Text "Authentication required") NoData), sample.store).
Proof.
  apply (C10_banned_user_refused sample.cfg sample.store "u2" sample.mallory
           DELETE_api_submissions_id (sample.request_for None "s1"));
    reflexivity.
Defined.

(** ** Deleting a submission *)

Lemma delete_where_true actor s :
  submissionsRouter.delete_where actor s = true ↔
  userId s = id actor ∧ status s = PENDING.
Proof.
  unfold submissionsRouter.delete_where.
  rewrite andb_true_iff, !bool_decide_eq_true. done.
Qed.

Lemma delete_succeeds_only_own_pending actor req p w :
  wp (submissionsRouter.delete_id actor req) p w (fun r w' _ =>
    ∀ a, r = Done a → succeeded a = true →
    ∃ s, submissions w !! params_id req = Some s ∧
         userId s = id actor ∧ status s = PENDING ∧
         submissions w' = delete (params_id req) (submissions w) ∧
         uploads w' = uploads w ∖ {[fileUrl s]}).
Proof.
  unfold submissionsRouter.delete_id. unfold_calls.
  wp_any; intros a Ha Hok; simplify_eq; try done.
  match goal with H : submissionsRouter.delete_where _ _ = true |- _ =>
    apply delete_where_true in H; destruct H end.
  eexists; split_and!; eauto.
Qed.

Lemma delete_refused actor req s p w :
  submissions w !! params_id req = Some s →
  status s ≠ PENDING ∨ userId s ≠ id actor →
  wp (submissionsRouter.delete_id actor req) p w (fun r w' _ =>
    w' = w ∧
    (p = no_faults →
     r = Done (Json 404 (Text "Submission not found or cannot be deleted")
                 NoData))).
Proof.
  intros Hs Hno.
  assert (submissionsRouter.delete_where actor s = false) as Hwhere.
  { apply not_true_iff_false. rewrite delete_where_true.
    intros [Hown Hpending]. by destruct Hno. }
  unfold submissionsRouter.delete_id, prisma.submission_findFirst.
  apply wp_catch, wp_bind. unfold wp, call.
  destruct p as [|[] p]; cbn [fst snd]; rewrite ?Hs, ?Hwhere; done.
Qed.

Lemma delete_own_pending actor req s w :
  submissions w !! params_id req = Some s →
  userId s = id actor → status s = PENDING →
  run (submissionsRouter.delete_id actor req) no_faults w
  = (Some (Json 200 (Text "Submission deleted successfully") NoData),
     set_submissions (delete (params_id req))
       (set_uploads (fun b => b ∖ {[fileUrl s]}) w)).
Proof.
  intros Hs Hown Hpending.
  assert (submissionsRouter.delete_where actor s = true) as Hwhere.
  { by apply delete_where_true. }
  unfold run, submissionsRouter.delete_id, prisma.submission_findFirst,
    prisma.submission_delete, catch, mbind, M_bind, bind, call, unlink.
  cbn [fst snd]. rewrite Hs, Hwhere. simpl. rewrite Hs. done.
Qed.

(** C7, as the code has it. Delete succeeds only when the requesting user
    owns the submission and its status is PENDING, and then removes the
    row and its blob; for a submission in a terminal state, and for a
    PENDING submission of another user, it fails with NotFound (404
    "Submission not found or cannot be deleted"), and in both cases the
    store is left as it was. *)
Theorem C7_delete_own_pending_only actor req w :
  (∀ p r w',
     run (submissionsRouter.delete_id actor req) p w = (Some r, w') →
     succeeded r = true →
     ∃ s, submissions w !! params_id req = Some s ∧
          userId s = id actor ∧ status s = PENDING ∧
          submissions w' !! params_id req = None) ∧
  (∀ s, submissions w !! params_id req = Some s →
        userId s = id actor → status s = PENDING →
        ∃ w', run (submissionsRouter.delete_id actor req) no_faults w
              = (Some (Json 200 (Text "Submission deleted successfully") NoData), w') ∧
              submissions w' = delete (params_id req) (submissions w) ∧
              uploads w' = uploads w ∖ {[fileUrl s]}) ∧
  (∀ s, submissions w !! params_id req = Some s →
        status s ≠ PENDING ∨ userId s ≠ id actor →
        (∀ p, (run (submissionsRouter.delete_id actor req) p w).2 = w) ∧
        ∃ r, run (submissionsRouter.delete_id actor req) no_faults w = (Some r, w) ∧
             classify r = Some NotFound).
Proof.
  split_and!.
  - intros p r w' Hrun Hok.
    pose proof (delete_succeeds_only_own_pending actor req p w) as H.
    unfold wp in H. unfold run in Hrun.
    destruct (submissionsRouter.delete_id actor req p w) as [[[a|e] w1] p1];
      simplify_eq/=.
    destruct (H r eq_refl Hok) as (s & Hs & Hown & Hpending & Hsubs & _).
    exists s. split_and!; try done. rewrite Hsubs. apply lookup_delete_eq.
  - intros s Hs Hown Hpending. eexists. split.
    + by apply delete_own_pending.
    + done.
  - intros s Hs Hno. split.
    + intros p. pose proof (delete_refused actor req s p w Hs Hno) as H.
      unfold wp in H. unfold run.
      destruct (submissionsRouter.delete_id actor req p w) as [[[a|e] w1] p1];
        simpl in *; by destruct H.
    + pose proof (delete_refused actor req s no_faults w Hs Hno) as H.
      unfold wp in H. destruct H as [Hw Hr]. specialize (Hr eq_refl).
      exists (Json 404 (Text "Submission not found or cannot be deleted") NoData).
      split; [|reflexivity]. unfold run.
      destruct (submissionsRouter.delete_id actor req no_faults w)
        as [[res w1] p1]. simpl in *. by subst.
Qed.

Lemma C7_delete_own_pending_only_witness :
  (∃ r, run (submissionsRouter.delete_id sample.alice
               (sample.request_for (Some sample.alice) "s2"))
            no_faults sample.store = (Some r, sample.store) ∧
        classify r = Some NotFound) ∧
  (∃ r, run (submissionsRouter.delete_id sample.maud
               (sample.request_for (Some sample.maud) "s1"))
            no_faults sample.store = (Some r, sample.store) ∧
        classify r = Some NotFound) ∧
  (∃ w', run (submissionsRouter.delete_id sample.alice
                (sample.request_for (Some sample.alice) "s1"))
             no_faults sample.store
         = (Some (Json 200 (Text "Submission deleted successfully") NoData), w') ∧
         submissions w' = delete "s1" (submissions sample.store) ∧
         uploads w' = uploads sample.store ∖ {["/uploads/s1.png"]}).
Proof.
  split_and!.
  - destruct (C7_delete_own_pending_only sample.alice
                (sample.request_for (Some sample.alice) "s2") sample.store)
      as (_ & _ & Hrefused).
    apply (Hrefused (sample.clip "s2" APPROVED)).
    + reflexivity.
    + left. vm_compute. discriminate.
  - destruct (C7_delete_own_pending_only sample.maud
                (sample.request_for (Some sample.maud) "s1") sample.store)
      as (_ & _ & Hrefused).
    apply (Hrefused (sample.clip "s1" PENDING)).
    + reflexivity.
    + right. vm_compute. discriminate.
  - destruct (C7_delete_own_pending_only sample.alice
                (sample.request_for (Some sample.alice) "s1") sample.store)
      as (_ & Hown & _).
    apply (Hown (sample.clip "s1" PENDING)); reflexivity.
Defined.

(** C7 as stated fails: deleting one's own APPROVED submission is
    answered with NotFound, not with InvalidStateError. *)
Lemma C7_terminal_delete_is_not_found :
  run (submissionsRouter.delete_id sample.alice
         (sample.request_for (Some sample.alice) "s2"))
      no_faults sample.store
  = (Some (Json 404 (Text "Submission not found or cannot be deleted") NoData),
     sample.store) ∧
  classify (Json 404 (Text "Submission not found or cannot be deleted") NoData)
  ≠ Some InvalidStateError.
Proof. split; [reflexivity | vm_compute; discriminate]. Qed.

(** ** Resolving an identity *)

Lemma substring_0_all s m :
  (String.length s ≤ m)%nat → substring 0 m s = s.
Proof.
  revert m. induction s as [|c s IH]; intros [|m] Hm; simpl in *; try done; try lia.
  f_equal. apply IH. lia.
Qed.
Lemma substring_split s : ∀ k, (k ≤ String.length s)%nat →
  ∃ pre, s = pre +:+ substring k (String.length s - k) s.
Proof.
  induction s as [|c s IH]; intros k Hk.
  - exists "". by destruct k.
  - destruct k as [|k].
    + exists "". rewrite Nat.sub_0_r. rewrite substring_0_all by lia. done.
    + simpl in Hk. destruct (IH k) as [pre Hpre]; [lia|].
      exists (String c pre).
      change (String c s = String c (pre +:+ substring k (String.length s - k) s)).
      by rewrite <- Hpre.
Qed.

Lemma length_substring s : ∀ k m,
  (k + m ≤ String.length s)%nat → String.length (substring k m s) = m.
Proof.
  induction s as [|c s IH]; intros k m Hk.
  - simpl in Hk. assert (k = 0 ∧ m = 0) as [-> ->] by lia. done.
  - destruct k as [|k], m as [|m]; simpl in *; try done.
    + f_equal. apply (IH 0). simpl. lia.
    + apply IH. lia.
    + apply IH. lia.
Qed.

Lemma slice_last_spec n s :
  ∃ pre, s = pre +:+ passport.slice_last n s ∧
         String.length (passport.slice_last n s) = n `min` String.length s.
Proof.
  unfold passport.slice_last.
  destruct (decide (n ≤ String.length s)%nat) as [Hle|Hgt].
  - destruct (substring_split s (String.length s - n)) as [pre Hpre]; [lia|].
    replace (String.length s - (String.length s - n)) with n in Hpre by lia.
    exists pre. split; [done|]. rewrite length_substring by lia. lia.
  - replace (String.length s - n) with 0 by lia.
    exists "". rewrite substring_0_all by lia. split; [done|]. lia.
Qed.

Lemma verify_creates cfg req token a epicUser rest w :
  a ≠ "" →
  filter (fun kv => epicId kv.2 = passport.accountId epicUser) (users w) = ∅ →
  users w !! fresh_id req = None →
  passport.verify cfg req token (Some a) (passport.Ok (epicUser :: rest))
    no_faults w
  = (Done (mkUser (fresh_id req) (passport.accountId epicUser)
             (passport.new_user_nickname epicUser) 0
             (passport.new_user_role cfg epicUser) false None token),
     set_users
       <[fresh_id req :=
           mkUser (fresh_id req) (passport.accountId epicUser)
             (passport.new_user_nickname epicUser) 0
             (passport.new_user_role cfg epicUser) false None token]> w,
     no_faults).
Proof.
  intros Ha Hnone Hfresh.
  unfold passport.verify, truthy. rewrite bool_decide_eq_false_2 by done.
  unfold prisma.user_findUnique_epicId, prisma.user_create, mbind, M_bind,
    bind, call, no_faults. cbn [fst snd negb].
  rewrite Hnone, map_to_list_empty. cbn [head fmap option_fmap option_map].
  cbn [id epicId]. rewrite Hfresh, Hnone. by rewrite decide_True.
Qed.

(** C8, as the code has it. On an external account id that no user has
    yet, the verify callback creates a user whose role is ADMIN iff the
    id is in the configured allow-list and USER otherwise, and whose
    nickname is the provider's display name when it is present and not
    empty, else [User_] followed by the last 8 characters of the id, that
    is by the whole id when it has fewer than 8; for the id [abc123]
    outside the allow-list and without a display name the user created
    is {role: USER, nickname: User_abc123}. *)
Theorem C8_new_identity cfg req token a epicUser rest w :
  a ≠ "" →
  filter (fun kv => epicId kv.2 = passport.accountId epicUser) (users w) = ∅ →
  users w !! fresh_id req = None →
  ∃ u,
    passport.verify cfg req token (Some a) (passport.Ok (epicUser :: rest))
      no_faults w
    = (Done u, set_users <[fresh_id req := u]> w, no_faults) ∧
    epicId u = passport.accountId epicUser ∧
    (role u = ADMIN ↔ passport.accountId epicUser ∈ passport.adminIds cfg) ∧
    (role u = USER ↔ passport.accountId epicUser ∉ passport.adminIds cfg) ∧
    (∀ name, passport.displayName epicUser = Some name → name ≠ "" →
             nickname u = name) ∧
    (passport.displayName epicUser = None ∨
     passport.displayName epicUser = Some "" →
     ∃ pre suffix,
       nickname u = "User_" +:+ suffix ∧
       passport.accountId epicUser = pre +:+ suffix ∧
       String.length suffix = 8 `min` String.length (passport.accountId epicUser)) ∧
    (passport.accountId epicUser = "abc123" →
     passport.displayName epicUser = None →
     nickname u = "User_abc123").
Proof.
  intros Ha Hnone Hfresh. eexists. split.
  { by apply verify_creates. }
  cbn [epicId role nickname]. split_and!.
  - done.
  - unfold passport.new_user_role. case_bool_decide; naive_solver.
  - unfold passport.new_user_role. case_bool_decide; naive_solver.
  - intros name Hname Hne. unfold passport.new_user_nickname, truthy.
    rewrite Hname. by rewrite bool_decide_eq_false_2.
  - intros Hno.
    destruct (slice_last_spec 8 (passport.accountId epicUser)) as (pre & Hpre & Hlen).
    exists pre, (passport.slice_last 8 (passport.accountId epicUser)).
    split_and!; try done.
    unfold passport.new_user_nickname, truthy.
    by destruct Hno as [-> | ->].
  - intros Hid Hname. unfold passport.new_user_nickname, truthy.
    by rewrite Hname, Hid.
Qed.

Lemma C8_new_identity_witness :
  ∃ u,
    passport.verify sample.cfg (sample.request_for None "") (Some "token")
      (Some "abc123") (passport.Ok [passport.mkEpicUser "abc123" None])
      no_faults sample.store
    = (Done u, set_users <["fresh" := u]> sample.store, no_faults) ∧
    role u = USER ∧ nickname u = "User_abc123".
Proof.
  destruct (C8_new_identity sample.cfg (sample.request_for None "")
              (Some "token") "abc123" (passport.mkEpicUser "abc123" None) []
              sample.store)
    as (u & Hrun & _ & _ & Huser & _ & _ & Hnick).
  - vm_compute. discriminate.
  - vm_compute. reflexivity.
  - vm_compute. reflexivity.
  - exists u. split_and!.
    + exact Hrun.
    + apply Huser. vm_compute. intros H. apply list_elem_of_In in H.
      simpl in H. intuition discriminate.
    + apply Hnick; reflexivity.
Defined.

(** C8 as stated fails: for the external id [abc123] the nickname is
    [User_abc123], the six characters of the id, not [User_abc123ab]. *)
Lemma C8_abc123_nickname :
  ∃ u w',
    passport.verify sample.cfg (sample.request_for None "") (Some "token")
      (Some "abc123") (passport.Ok [passport.mkEpicUser "abc123" None])
      no_faults sample.store = (Done u, w', no_faults) ∧
    role u = USER ∧ nickname u = "User_abc123" ∧ nickname u ≠ "User_abc123ab".
Proof.
  eexists _, _. split; [vm_compute; reflexivity|].
  split_and!; [reflexivity | reflexivity | vm_compute; discriminate].
Qed.

(** ** One request changes a row of [submissions] by a step of its life cycle *)

Lemma subs_step_refl m : subs_step m m.
Proof. intros i. constructor. Qed.

Lemma subs_step_insert m i s' :
  row_step (m !! i) (Some s') → subs_step m (<[i := s']> m).
Proof.
  intros Hrow j. destruct (decide (i = j)) as [<-|Hne].
  - by rewrite lookup_insert_eq.
  - rewrite lookup_insert_ne by done. constructor.
Qed.

Lemma subs_step_delete m i :
  row_step (m !! i) None → subs_step m (delete i m).
Proof.
  intros Hrow j. destruct (decide (i = j)) as [<-|Hne].
  - by rewrite lookup_delete_eq.
  - rewrite lookup_delete_ne by done. constructor.
Qed.

Lemma lookup_updateMany (P : string → Submission → bool) f
    (m : gmap string Submission) i :
  ((f <$> filter (fun kv => P kv.1 kv.2 = true) m) ∪ m) !! i
  = match m !! i with
    | Some s => if P i s then Some (f s) else Some s
    | None => None
    end.
Proof.
  rewrite lookup_union, lookup_fmap, map_lookup_filter.
  destruct (m !! i) as [s|] eqn:Hs; simpl; [|done].
  destruct (P i s) eqn:HP.
  - rewrite option_guard_True by done. done.
  - rewrite option_guard_False by (simpl; congruence). done.
Qed.

Lemma subs_step_updateMany (P : string → Submission → bool) f m :
  (∀ i s, m !! i = Some s → P i s = true → row_step (Some s) (Some (f s))) →
  subs_step m ((f <$> filter (fun kv => P kv.1 kv.2 = true) m) ∪ m).
Proof.
  intros Hrow i. rewrite lookup_updateMany.
  destruct (m !! i) as [s|] eqn:Hs; [|constructor].
  destruct (P i s) eqn:HP; [by apply (Hrow i) | constructor].
Qed.

Lemma status_rule_valid o st :
  status_rule o = Valid st → st = APPROVED ∨ st = REJECTED.
Proof.
  unfold status_rule. destruct o; [|done].
  repeat case_decide; naive_solver.
Qed.

Lemma reviewSubmissionSchema_valid body value :
  reviewSubmissionSchema body = Valid value →
  status_rule (rb_status body) = Valid (v_status value) ∧
  v_rejectReason value = rb_rejectReason body ∧
  v_bonusAmount value = rb_bonusAmount body ∧
  (v_status value = REJECTED → truthy (rb_rejectReason body) = true) ∧
  rb_rejectReason body ≠ Some "" ∧
  (∀ n, rb_bonusAmount body = Some n → (0 <= n)%Q ∧ (n <= 1000 # 1)%Q).
Proof.
  unfold reviewSubmissionSchema, rejectReason_rule, bonusAmount_rule, truthy.
  intros H.
  destruct (status_rule (rb_status body)) as [st|]; [|done].
  destruct (rb_rejectReason body) as [r|], (rb_bonusAmount body) as [n|];
    repeat case_decide; repeat case_match; simplify_eq/=;
    split_and!; try done; try congruence;
    try (by rewrite bool_decide_eq_false_2).
  all: intros n' ?; simplify_eq.
  all: unfold Qlt_bool in *; bool_hyps.
  all: split; by apply Qle_bool_iff.
Qed.

Lemma review_data_row_step body value actor req s :
  reviewSubmissionSchema body = Valid value → status s = PENDING →
  row_step (Some s) (Some (admin.review_data value actor req s)).
Proof.
  intros Hv Hpending.
  destruct (reviewSubmissionSchema_valid _ _ Hv) as (Hst & Hr & _ & Hrej & _).
  apply status_rule_valid in Hst.
  apply row_reviewed; simpl; try done; eauto.
  intros Hrejected. unfold or_null. rewrite Hr, Hrej by done.
  specialize (Hrej Hrejected). unfold truthy in Hrej.
  destruct (rb_rejectReason body); eauto. done.
Qed.

Lemma review_subs_step actor req body p w :
  wp (admin.patch_submissions_review actor req body) p w (fun _ w' _ =>
    subs_step (submissions w) (submissions w')).
Proof.
  unfold admin.patch_submissions_review. unfold_calls.
  wp_any; simpl; try apply subs_step_refl.
  all: bool_hyps; simplify_eq.
  all: apply subs_step_insert.
  all: match goal with H : submissions _ !! _ = Some _ |- _ => rewrite H end.
  all: by eapply review_data_row_step.
Qed.

Lemma bulk_data_row_step st why actor req s :
  st = APPROVED ∨ st = REJECTED → (st = REJECTED → truthy why = true) →
  status s = PENDING →
  row_step (Some s) (Some (admin.bulk_data st why actor req s)).
Proof.
  intros Hst Hwhy Hpending.
  apply row_reviewed; simpl; try done; eauto.
  intros ->. rewrite decide_True by done.
  specialize (Hwhy eq_refl). unfold truthy in Hwhy. destruct why; eauto. done.
Qed.

Lemma bulk_review_subs_step actor req body p w :
  wp (admin.patch_submissions_bulk_review actor req body) p w (fun _ w' _ =>
    subs_step (submissions w) (submissions w')).
Proof.
  unfold admin.patch_submissions_bulk_review. unfold_calls.
  wp_any; simpl; try apply subs_step_refl.
  all: apply subs_step_updateMany; intros i row Hrow Hwhere.
  all: unfold admin.bulk_where in Hwhere; bool_hyps.
  all: apply bulk_data_row_step; try done.
  all: by eapply status_rule_valid.
Qed.

Lemma patch_users_keeps_submissions actor req body p w :
  wp (admin.patch_users actor req body) p w (fun _ w' _ =>
    submissions w' = submissions w).
Proof. unfold admin.patch_users. unfold_calls. wp_any; done. Qed.

Lemma add_balance_keeps_submissions actor req body p w :
  wp (admin.post_users_add_balance actor req body) p w (fun _ w' _ =>
    submissions w' = submissions w).
Proof. unfold admin.post_users_add_balance. unfold_calls. wp_any; done. Qed.

Lemma read_only_keeps_world n failure p w :
  wp (read_only n failure) p w (fun _ w' _ => w' = w).
Proof.
  unfold read_only. apply wp_catch, wp_bind.
  revert p. induction n as [|n IH]; intros p; simpl.
  - by apply wp_ret.
  - apply wp_bind, wp_call; intros p'; simpl; [by apply wp_ret|].
    eapply wp_mono; [|apply IH]. intros [[]|e] w' p''; simpl; auto.
Qed.

Lemma get_id_keeps_world actor req p w :
  wp (submissionsRouter.get_id actor req) p w (fun _ w' _ => w' = w).
Proof. unfold submissionsRouter.get_id. unfold_calls. wp_any; done. Qed.

Lemma delete_subs_step actor req p w :
  wp (submissionsRouter.delete_id actor req) p w (fun _ w' _ =>
    subs_step (submissions w) (submissions w')).
Proof.
  unfold submissionsRouter.delete_id. unfold_calls.
  wp_any; simpl; try apply subs_step_refl.
  all: simplify_eq.
  all: match goal with H : submissionsRouter.delete_where _ _ = true |- _ =>
         apply delete_where_true in H; destruct H end.
  all: apply subs_step_delete.
  all: match goal with H : submissions _ !! _ = Some _ |- _ => rewrite H end.
  all: by constructor.
Qed.

Lemma post_root_subs_step actor req body file p w :
  wp (submissionsRouter.post_root actor req body file) p w (fun _ w' _ =>
    subs_step (submissions w) (submissions w')).
Proof.
  unfold submissionsRouter.post_root. unfold_calls.
  wp_any; simpl; try apply subs_step_refl.
  all: apply subs_step_insert; simpl in *.
  all: match goal with H : submissions _ !! _ = None |- _ => rewrite H end.
  all: by constructor.
Qed.

Lemma chain_wp ms req h p w (Q : outcome response → world → plan → Prop) :
  (∀ r, Q (Done r) w p) → wp h p w Q → wp (chain ms req h) p w Q.
Proof.
  intros Hanswer Hh. induction ms as [|m ms IH]; simpl; [done|].
  destruct (m req); [done|]. by apply wp_ret.
Qed.

Lemma as_user_wp req h p w (Q : outcome response → world → plan → Prop) :
  (∀ e, Q (Thrown e) w p) → (∀ u, wp (h u) p w Q) → wp (as_user req h) p w Q.
Proof.
  intros Hthrow Hh. unfold as_user. destruct (user req); [done|].
  by apply wp_throw.
Qed.

Lemma upload_single_keeps_submissions cfg part p w :
  wp (submissionsRouter.upload_single cfg part) p w (fun _ w' p' =>
    submissions w' = submissions w ∧ users w' = users w ∧
    payouts w' = payouts w ∧ adminLogs w' = adminLogs w ∧ p' = p).
Proof.
  unfold submissionsRouter.upload_single.
  destruct part as [file|]; [|by apply wp_ret].
  destruct (submissionsRouter.fileFilter file); [|by apply wp_throw].
  destruct (_ <? _)%Z; [by apply wp_throw|]. done.
Qed.

Lemma dispatch_subs_step cfg r req p w :
  wp (dispatch cfg r req) p w (fun _ w' _ =>
    subs_step (submissions w) (submissions w')).
Proof.
  assert (∀ n failure p,
    wp (read_only n failure) p w (fun _ w' _ =>
      subs_step (submissions w) (submissions w'))) as Hread.
  { intros n failure p0. eapply wp_mono; [|apply read_only_keeps_world].
    intros ? ? ? ->. apply subs_step_refl. }
  destruct r; unfold dispatch, submissions_route, admin_route;
    (apply chain_wp; [intros; apply subs_step_refl|]);
    try apply Hread;
    try (apply as_user_wp; [intros; apply subs_step_refl|intros u]);
    try (by apply wp_ret; apply subs_step_refl).
  - eapply wp_mono; [|apply get_id_keeps_world].
    intros ? ? ? ->. apply subs_step_refl.
  - apply wp_bind.
    eapply wp_mono; [|apply upload_single_keeps_submissions].
    intros [file|e] w1 p1 (Hsubs & _); cbn beta iota; rewrite <- Hsubs.
    + apply as_user_wp; [intros; apply subs_step_refl|intros u].
      apply post_root_subs_step.
    + apply subs_step_refl.
  - apply delete_subs_step.
  - apply review_subs_step.
  - apply bulk_review_subs_step.
  - eapply wp_mono; [|apply patch_users_keeps_submissions].
    intros ? ? ? ->. apply subs_step_refl.
  - eapply wp_mono; [|apply add_balance_keeps_submissions].
    intros ? ? ? ->. apply subs_step_refl.
Qed.

Lemma serve_subs_step cfg session r req p w :
  wp (serve cfg session r req) p w (fun _ w' _ =>
    subs_step (submissions w) (submissions w')).
Proof.
  unfold serve. apply wp_catch.
  destruct (globalLimiter req).
  - apply wp_bind. destruct session as [i|].
    + unfold passport.deserializeUser, prisma.user_findUnique.
      apply wp_bind, wp_call; intros p'; cbn beta iota delta [fst snd].
      * apply wp_ret, subs_step_refl.
      * apply wp_ret. eapply wp_mono; [|apply dispatch_subs_step].
        intros [a|e] w' p''; [done|]. intros H. by apply wp_ret.
    + apply wp_ret. eapply wp_mono; [|apply dispatch_subs_step].
      intros [a|e] w' p''; [done|]. intros H. by apply wp_ret.
  - apply wp_ret, subs_step_refl.
Qed.

Lemma verify_keeps_submissions cfg req token account_id answer p w :
  wp (passport.verify cfg req token account_id answer) p w (fun _ w' _ =>
    submissions w' = submissions w).
Proof.
  unfold passport.verify. unfold_calls.
  destruct (negb (truthy account_id)); [by apply wp_throw|].
  destruct answer as [|[|epicUser rest]]; try by apply wp_throw.
  apply wp_bind, wp_call; intros p'; cbn beta iota delta [fst snd]; [done|].
  destruct (snd <$> _) as [u|].
  - apply wp_call; intros p''; [done|]. by destruct (users w !! id u).
  - apply wp_call; intros p''; [done|].
    destruct (users w !! _); [done|]. by case_decide.
Qed.

(** Every move of the system changes each row of [submissions] by one
    step of its life cycle, or not at all. *)
Lemma step_subs_step w w' : step w w' → subs_step (submissions w) (submissions w').
Proof.
  intros [cfg session r req p w0|cfg req token account_id answer p w0].
  - apply serve_subs_step.
  - pose proof (verify_keeps_submissions cfg req token account_id answer p w0) as H.
    unfold wp in H. rewrite H. apply subs_step_refl.
Qed.

(** A row that has left PENDING is frozen: no sequence of requests
    served one after the other changes or removes it. *)
Lemma terminal_row_frozen w w' i s :
  rtc step w w' → submissions w !! i = Some s → status s ≠ PENDING →
  submissions w' !! i = Some s.
Proof.
  induction 1 as [w|w w1 w2 Hstep _ IH]; [done|].
  intros Hs Hterminal. apply IH; [|done].
  pose proof (step_subs_step _ _ Hstep i) as Hrow.
  rewrite Hs in Hrow. inversion Hrow; by simplify_eq.
Qed.

(** ** Reviewing a submission *)

Lemma review_terminal actor req body s p w :
  submissions w !! params_id req = Some s → status s ≠ PENDING →
  wp (admin.patch_submissions_review actor req body) p w (fun r w' _ =>
    w' = w ∧
    (p = no_faults →
     r = Done match reviewSubmissionSchema body with
              | Valid _ => Json 400 (Text "Submission already reviewed") NoData
              | Invalid k t => Json 400 (JoiDetail k t) NoData
              end)).
Proof.
  intros Hs Hterminal.
  unfold admin.patch_submissions_review,
    prisma.submission_findUnique_include_user.
  apply wp_catch.
  destruct (reviewSubmissionSchema body) as [value|k t]; [|by apply wp_ret].
  apply wp_bind. unfold wp, call.
  destruct p as [|[] p]; cbn [fst snd]; rewrite ?Hs; cbn beta iota;
    rewrite ?bool_decide_eq_false_2 by done; done.
Qed.

Lemma review_success_terminal actor req body p w :
  wp (admin.patch_submissions_review actor req body) p w (fun r w' _ =>
    ∀ a, r = Done a → succeeded a = true →
    ∃ s', submissions w' !! params_id req = Some s' ∧ status s' ≠ PENDING).
Proof.
  unfold admin.patch_submissions_review. unfold_calls.
  wp_any; intros a Ha Hok; simplify_eq; try done.
  all: simpl; rewrite lookup_insert_eq; eexists; split; [done|]; simpl.
  all: match goal with H : reviewSubmissionSchema _ = Valid _ |- _ =>
         pose proof (reviewSubmissionSchema_valid _ _ H)
           as (Hst%status_rule_valid & _) end.
  all: destruct Hst as [-> | ->]; discriminate.
Qed.

Lemma run_eq (h : M response) p w :
  run h p w
  = (match (h p w).1.1 with Done r => Some r | Thrown _ => None end,
     (h p w).1.2).
Proof. unfold run. by destruct (h p w) as [[[r|e] w'] p']. Qed.

(** C2, as the code has it. A Review call that finds the submission in
    a status that is not PENDING changes nothing, under every fault plan;
    it fails with InvalidStateError when its body passes validation, and
    with the ValidationError of the body otherwise, because the body is
    validated before the submission is looked up. In particular, once a
    successful Review call has been answered, a Review of the same id
    with a valid body always fails with InvalidStateError. This is about
    one call at a time: what two Review calls in flight together do is
    not part of the statement. *)
Theorem C2_reviewed_submission_is_refused :
  (∀ actor req body w s,
     submissions w !! params_id req = Some s → status s ≠ PENDING →
     (∀ p, (run (admin.patch_submissions_review actor req body) p w).2 = w) ∧
     ∃ r, run (admin.patch_submissions_review actor req body) no_faults w
          = (Some r, w) ∧
          match reviewSubmissionSchema body with
          | Valid _ => classify r = Some InvalidStateError
          | Invalid k t => r = Json 400 (JoiDetail k t) NoData
          end) ∧
  (∀ actor req body p w r w',
     run (admin.patch_submissions_review actor req body) p w = (Some r, w') →
     succeeded r = true →
     ∀ actor2 req2 body2 value2,
       params_id req2 = params_id req →
       reviewSubmissionSchema body2 = Valid value2 →
       ∃ r2, run (admin.patch_submissions_review actor2 req2 body2) no_faults w'
             = (Some r2, w') ∧
             classify r2 = Some InvalidStateError).
Proof.
  assert (∀ actor req body w s,
     submissions w !! params_id req = Some s → status s ≠ PENDING →
     run (admin.patch_submissions_review actor req body) no_faults w
     = (Some match reviewSubmissionSchema body with
             | Valid _ => Json 400 (Text "Submission already reviewed") NoData
             | Invalid k t => Json 400 (JoiDetail k t) NoData
             end, w)) as Hterminal.
  { intros actor req body w s Hs Hst. rewrite run_eq.
    pose proof (review_terminal actor req body s no_faults w Hs Hst) as H.
    unfold wp in H. destruct H as [-> Hr]. by rewrite Hr. }
  split_and!.
  - intros actor req body w s Hs Hst. split.
    + intros p. rewrite run_eq.
      pose proof (review_terminal actor req body s p w Hs Hst) as H.
      unfold wp in H. by destruct H as [-> _].
    + eexists. split; [by eapply Hterminal|].
      by destruct (reviewSubmissionSchema body).
  - intros actor req body p w r w' Hrun Hok actor2 req2 body2 value2 Hid Hv2.
    pose proof (review_success_terminal actor req body p w) as H.
    unfold wp in H. rewrite run_eq in Hrun.
    destruct (admin.patch_submissions_review actor req body p w)
      as [[[a|e] w1] p1]; simplify_eq/=.
    destruct (H r eq_refl Hok) as (s' & Hs' & Hst').
    eexists. split.
    + eapply Hterminal; [by rewrite Hid|done].
    + by rewrite Hv2.
Qed.

Lemma C2_reviewed_submission_is_refused_witness :
  (∃ r, run (admin.patch_submissions_review sample.root
               (sample.request_for (Some sample.root) "s2")
               (mkReviewBody (Some "REJECTED") (Some "late") None))
            no_faults sample.store = (Some r, sample.store) ∧
        classify r = Some InvalidStateError) ∧
  (∃ r w' r2,
     run (admin.patch_submissions_review sample.root
            (sample.request_for (Some sample.root) "s1")
            (mkReviewBody (Some "APPROVED") None None))
         no_faults sample.store = (Some r, w') ∧
     run (admin.patch_submissions_review sample.maud
            (sample.request_for (Some sample.maud) "s1")
            (mkReviewBody (Some "REJECTED") (Some "late") None))
         no_faults w' = (Some r2, w') ∧
     classify r2 = Some InvalidStateError).
Proof.
  destruct C2_reviewed_submission_is_refused as (Hterminal & Hsecond).
  split.
  - destruct (Hterminal sample.root (sample.request_for (Some sample.root) "s2")
                (mkReviewBody (Some "REJECTED") (Some "late") None)
                sample.store (sample.clip "s2" APPROVED))
      as (_ & r & Hrun & Hkind).
    + reflexivity.
    + vm_compute. discriminate.
    + exists r. split; [exact Hrun | exact Hkind].
  - assert (∃ r w',
        run (admin.patch_submissions_review sample.root
               (sample.request_for (Some sample.root) "s1")
               (mkReviewBody (Some "APPROVED") None None))
            no_faults sample.store = (Some r, w') ∧ succeeded r = true)
      as (r & w' & Hrun & Hok).
    { eexists _, _. split; vm_compute; reflexivity. }
    destruct (Hsecond _ _ _ _ _ r w' Hrun Hok sample.maud
                (sample.request_for (Some sample.maud) "s1")
                (mkReviewBody (Some "REJECTED") (Some "late") None)
                (mkReviewValue REJECTED (Some "late") None)
                eq_refl eq_refl) as (r2 & Hrun2 & Hkind).
    exists r, w', r2. split_and!; [exact Hrun | exact Hrun2 | exact Hkind].
Defined.

(** C2 as stated fails: a Review of an APPROVED submission that asks to
    reject it without a reason fails with the ValidationError of its
    body, not with InvalidStateError. *)
Lemma C2_invalid_body_on_reviewed_submission :
  status <$> submissions sample.store !! "s2" = Some APPROVED ∧
  run (admin.patch_submissions_review sample.root
         (sample.request_for (Some sample.root) "s2")
         (mkReviewBody (Some "REJECTED") None None))
      no_faults sample.store
  = (Some (Json 400 (JoiDetail "rejectReason" "any.required") NoData),
     sample.store) ∧
  classify (Json 400 (JoiDetail "rejectReason" "any.required") NoData)
  = Some ValidationError ∧
  classify (Json 400 (JoiDetail "rejectReason" "any.required") NoData)
  ≠ Some InvalidStateError.
Proof.
  split_and!; [reflexivity | reflexivity | reflexivity | vm_compute; discriminate].
Qed.

Lemma review_invalid_body actor req body k t p w :
  reviewSubmissionSchema body = Invalid k t →
  run (admin.patch_submissions_review actor req body) p w
  = (Some (Json 400 (JoiDetail k t) NoData), w).
Proof.
  intros Hv. unfold run, admin.patch_submissions_review, catch.
  by rewrite Hv.
Qed.

Lemma reviewSubmissionSchema_rejected body :
  rb_status body = Some "REJECTED" →
  (∃ value, reviewSubmissionSchema body = Valid value) ↔
  (∃ r, rb_rejectReason body = Some r ∧ r ≠ "") ∧
  (∀ n, rb_bonusAmount body = Some n → (0 <= n)%Q ∧ (n <= 1000 # 1)%Q).
Proof.
  intros Hst. split.
  - intros [value Hv].
    destruct (reviewSubmissionSchema_valid _ _ Hv) as (Hs & _ & _ & Hr & _ & Hn).
    split; [|done].
    rewrite Hst in Hs. unfold status_rule in Hs.
    rewrite decide_False, decide_True in Hs by done.
    assert (v_status value = REJECTED) as Hrejected by congruence.
    specialize (Hr Hrejected). unfold truthy in Hr.
    destruct (rb_rejectReason body) as [r|]; [|done].
    exists r. split; [done|]. by bool_hyps.
  - intros [(r & Hr & Hne) Hn].
    unfold reviewSubmissionSchema, status_rule, rejectReason_rule,
      bonusAmount_rule.
    rewrite Hst, Hr. rewrite decide_False, decide_True by done.
    rewrite (decide_False (P := r = "")) by done.
    destruct (rb_bonusAmount body) as [n|]; [|eauto].
    destruct (Hn n eq_refl) as [Hlo Hhi]. unfold Qlt_bool.
    apply Qle_bool_iff in Hlo, Hhi. rewrite Hlo, Hhi. simpl. eauto.
Qed.

(** C5, as the code has it. A Review call with decision REJECTED passes
    validation exactly when it carries a non-empty reject reason (of any
    length: the schema sets no upper bound) and its bonus, if any, lies
    between 0 and 1000; with the reason absent or empty it fails with
    ValidationError and leaves the store, submission and audit log
    included, as it was. *)
Theorem C5_reject_reason_required body :
  rb_status body = Some "REJECTED" →
  ((∃ value, reviewSubmissionSchema body = Valid value) ↔
   (∃ r, rb_rejectReason body = Some r ∧ r ≠ "") ∧
   (∀ n, rb_bonusAmount body = Some n → (0 <= n)%Q ∧ (n <= 1000 # 1)%Q)) ∧
  (truthy (rb_rejectReason body) = false →
   ∀ actor req p w,
     ∃ r, run (admin.patch_submissions_review actor req body) p w = (Some r, w) ∧
          classify r = Some ValidationError).
Proof.
  intros Hst. split; [by apply reviewSubmissionSchema_rejected|].
  intros Hfalsy actor req p w.
  destruct (reviewSubmissionSchema body) as [value|k t] eqn:Hv.
  - exfalso.
    assert (∃ value, reviewSubmissionSchema body = Valid value) as Hvalid by eauto.
    apply reviewSubmissionSchema_rejected in Hvalid as [(r & Hr & Hne) _]; [|done].
    rewrite Hr in Hfalsy. simpl in Hfalsy. by bool_hyps.
  - eexists. split; [by apply review_invalid_body|done].
Qed.

Lemma C5_reject_reason_required_witness :
  ∃ r, run (admin.patch_submissions_review sample.root
              (sample.request_for (Some sample.root) "s1")
              (mkReviewBody (Some "REJECTED") (Some "") None))
           no_faults sample.store = (Some r, sample.store) ∧
       classify r = Some ValidationError.
Proof.
  destruct (C5_reject_reason_required
              (mkReviewBody (Some "REJECTED") (Some "") None) eq_refl)
    as [_ Hempty].
  apply Hempty. reflexivity.
Defined.

(** C5 as stated fails: a reject reason of 201 characters is accepted
    and stored. *)
Lemma C5_long_reason_accepted :
  String.length sample.long_reason = 201 ∧
  ∃ r w',
    run (admin.patch_submissions_review sample.root
           (sample.request_for (Some sample.root) "s1")
           (mkReviewBody (Some "REJECTED") (Some sample.long_reason) None))
        no_faults sample.store = (Some r, w') ∧
    succeeded r = true ∧
    submissions w' !! "s1"
    = Some (mkSubmission "s1" "u1" "/uploads/s1.png" "clip.png" IMAGE 2048
              "Epic Kill" None REJECTED (Some sample.long_reason)
              (Some "a1") (Some 7)).
Proof.
  split; [reflexivity|]. eexists _, _. split; [vm_compute; reflexivity|].
  split; vm_compute; reflexivity.
Qed.

(** ** The review fields of a submission *)

Lemma row_step_review_fields o s' :
  row_step o (Some s') → (∀ s, o = Some s → review_fields_ok s) →
  review_fields_ok s'.
Proof.
  intros Hrow Hold. inversion Hrow as [| |?|s ? Hp Hst Hby Hat Hwhy Hsame];
    simplify_eq.
  - by apply Hold.
  - split_and!; try done; intros; congruence.
  - split_and!; try done. intros; destruct Hst; congruence.
Qed.

(** The review fields stay well formed along every run of the system:
    absent while PENDING, reviewer and time set once the row has left
    PENDING, and a reject reason on every REJECTED row. *)
Lemma step_review_fields w w' :
  rtc step w w' →
  (∀ i s, submissions w !! i = Some s → review_fields_ok s) →
  ∀ i s, submissions w' !! i = Some s → review_fields_ok s.
Proof.
  induction 1 as [w|w w1 w2 Hstep _ IH]; [done|].
  intros Hinv. apply IH. intros i s' Hs'.
  pose proof (step_subs_step _ _ Hstep i) as Hrow. rewrite Hs' in Hrow.
  eapply row_step_review_fields; [done|]. intros s Hs. by eapply Hinv.
Qed.

(** C3. The code breaks the claim on one point: the single review stores
    the reject reason of the request whatever the decision, so approving
    the PENDING submission [s1] with the body
    {status: APPROVED, rejectReason: spam} leaves it APPROVED with reject
    reason [spam]; the bulk review of the same submission with the same
    decision and reason stores no reason. *)
Theorem C3_approved_review_keeps_reject_reason :
  (∃ r w',
     run (admin.patch_submissions_review sample.root
            (sample.request_for (Some sample.root) "s1")
            (mkReviewBody (Some "APPROVED") (Some "spam") None))
         no_faults sample.store = (Some r, w') ∧
     succeeded r = true ∧
     status <$> submissions w' !! "s1" = Some APPROVED ∧
     rejectReason <$> submissions w' !! "s1" = Some (Some "spam")) ∧
  (∃ r w',
     run (admin.patch_submissions_bulk_review sample.root
            (sample.request_for (Some sample.root) "")
            (admin.mkBulkReviewBody (Some ["s1"]) (Some "APPROVED") (Some "spam")))
         no_faults sample.store = (Some r, w') ∧
     succeeded r = true ∧
     status <$> submissions w' !! "s1" = Some APPROVED ∧
     rejectReason <$> submissions w' !! "s1" = Some None).
Proof.
  split; eexists _, _; (split; [vm_compute; reflexivity|]);
    split_and!; vm_compute; reflexivity.
Qed.

(** ** Bulk review *)

Lemma bulk_where_true ids i s :
  admin.bulk_where ids i s = true ↔ i ∈ ids ∧ status s = PENDING.
Proof.
  unfold admin.bulk_where. by rewrite andb_true_iff, !bool_decide_eq_true.
Qed.

(** The rows matched by the bulk update are exactly the rows it changes. *)
Lemma changed_rows_updateMany ids st why actor req (m : gmap string Submission) :
  st ≠ PENDING →
  changed_rows m
    ((admin.bulk_data st why actor req
        <$> filter (fun kv => admin.bulk_where ids kv.1 kv.2 = true) m) ∪ m)
  = filter (fun kv => admin.bulk_where ids kv.1 kv.2 = true) m.
Proof.
  intros Hst. unfold changed_rows. apply map_filter_ext. intros i s Hs. simpl.
  rewrite lookup_updateMany, Hs.
  destruct (admin.bulk_where ids i s) eqn:Hwhere; [|naive_solver].
  apply bulk_where_true in Hwhere as [_ Hpending].
  split; [done|]. intros _ Heq. simplify_eq.
  assert (status (admin.bulk_data st why actor req s) = status s) as Hsame
    by congruence.
  simpl in Hsame. congruence.
Qed.

Lemma bulk_review_no_faults actor req body ids st w :
  admin.bb_submissionIds body = Some ids → ids ≠ [] →
  status_rule (admin.bb_status body) = Valid st →
  (st = REJECTED → truthy (admin.bb_rejectReason body) = true) →
  let hit := filter (fun kv => admin.bulk_where ids kv.1 kv.2 = true)
               (submissions w) in
  run (admin.patch_submissions_bulk_review actor req body) no_faults w
  = (Some (Json 200
             (Text (pretty (size hit) +:+ " submissions "
                    +:+ status_toLowerCase st +:+ " successfully"))
             (Count (size hit))),
     set_adminLogs
       (fun ls => (ls ++ [mkAdminLog (id actor) "BULK_REVIEW_SUBMISSIONS"
                            (BulkReviewDetails st (size hit))
                            (ip req) (user_agent req)])%list)
       (set_submissions
          (fun m => (admin.bulk_data st (admin.bb_rejectReason body) actor req
                       <$> hit) ∪ m) w)).
Proof.
  intros Hids Hne Hst Hwhy hit.
  unfold run, admin.patch_submissions_bulk_review, catch. rewrite Hids, Hst.
  destruct ids as [|i ids]; [done|].
  assert (bool_decide (st = REJECTED)
          && negb (truthy (admin.bb_rejectReason body)) = false) as ->.
  { destruct (decide (st = REJECTED)) as [Hr|Hr].
    - rewrite Hwhy by done. apply andb_false_r.
    - by rewrite bool_decide_eq_false_2. }
  reflexivity.
Qed.

Lemma bulk_review_any_plan actor req body p w :
  wp (admin.patch_submissions_bulk_review actor req body) p w (fun r w' _ =>
    users w' = users w ∧ payouts w' = payouts w ∧ uploads w' = uploads w ∧
    (∀ ids i s, admin.bb_submissionIds body = Some ids →
       submissions w !! i = Some s → i ∉ ids ∨ status s ≠ PENDING →
       submissions w' !! i = Some s) ∧
    (∀ a n, r = Done a → returned_count a = Some n →
       n = size (changed_rows (submissions w) (submissions w')))).
Proof.
  unfold admin.patch_submissions_bulk_review. unfold_calls.
  wp_any; simpl; split_and!; try done.
  all: try (intros a n Ha Hn; by simplify_eq).
  all: try (intros ids i row Hids Hrow Hskip; simplify_eq;
            rewrite lookup_updateMany, Hrow;
            destruct (admin.bulk_where _ i row) eqn:Hwhere; [|done];
            apply bulk_where_true in Hwhere as [? ?]; by destruct Hskip).
  all: intros a n Ha Hn; simplify_eq/=.
  all: rewrite changed_rows_updateMany; [done|].
  all: match goal with H : status_rule _ = Valid _ |- _ =>
         apply status_rule_valid in H; destruct H; by subst end.
Qed.

(** C4, as the code has it. Under any behaviour of the store, BulkReview
    leaves every submission that is not both among the given ids and
    PENDING as it was (terminal ones are skipped without an error),
    touches no balance and creates no payout, and a count it returns is
    the number of submissions it changed. For a non-empty list of ids and
    a decision APPROVED or REJECTED (with a non-empty reason when
    REJECTED), and no store failure, it succeeds, puts every PENDING
    submission among the ids into the decided state, appends one audit
    entry and returns that count. An empty list is refused with
    "No submissions selected": no count is returned and nothing changes. *)
Theorem C4_bulk_review_pending_only actor req body w :
  (∀ p r w',
     run (admin.patch_submissions_bulk_review actor req body) p w = (r, w') →
     users w' = users w ∧ payouts w' = payouts w ∧
     (∀ ids i s, admin.bb_submissionIds body = Some ids →
        submissions w !! i = Some s → i ∉ ids ∨ status s ≠ PENDING →
        submissions w' !! i = Some s) ∧
     (∀ a n, r = Some a → returned_count a = Some n →
        n = size (changed_rows (submissions w) (submissions w')))) ∧
  (∀ ids st,
     admin.bb_submissionIds body = Some ids → ids ≠ [] →
     status_rule (admin.bb_status body) = Valid st →
     (st = REJECTED → truthy (admin.bb_rejectReason body) = true) →
     ∃ r w',
       run (admin.patch_submissions_bulk_review actor req body) no_faults w
       = (Some r, w') ∧
       succeeded r = true ∧
       returned_count r
       = Some (size (changed_rows (submissions w) (submissions w'))) ∧
       (∀ i s, submissions w !! i = Some s → i ∈ ids → status s = PENDING →
          submissions w' !! i
          = Some (admin.bulk_data st (admin.bb_rejectReason body) actor req s)) ∧
       length (adminLogs w') = S (length (adminLogs w))) ∧
  (admin.bb_submissionIds body = Some [] →
   ∀ p, run (admin.patch_submissions_bulk_review actor req body) p w
        = (Some (Json 400 (Text "No submissions selected") NoData), w)).
Proof.
  split_and!.
  - intros p r w' Hrun. rewrite run_eq in Hrun.
    pose proof (bulk_review_any_plan actor req body p w) as H. unfold wp in H.
    destruct (admin.patch_submissions_bulk_review actor req body p w)
      as [[res w1] p1]; simplify_eq/=.
    destruct H as (Hu & Hp & _ & Hskip & Hcount). split_and!; try done.
    intros a n Hres. destruct res; simplify_eq. by apply Hcount.
  - intros ids st Hids Hne Hst Hwhy. eexists _, _. split.
    { by apply bulk_review_no_faults. }
    simpl. split_and!.
    + done.
    + rewrite changed_rows_updateMany; [done|].
      apply status_rule_valid in Hst. destruct Hst; by subst.
    + intros i s Hs Hi Hpending. rewrite lookup_updateMany, Hs.
      by rewrite (proj2 (bulk_where_true ids i s)).
    + rewrite length_app. simpl. lia.
  - intros Hids p. unfold run, admin.patch_submissions_bulk_review, catch.
    by rewrite Hids.
Qed.

Lemma C4_bulk_review_pending_only_witness :
  ∃ r w',
    run (admin.patch_submissions_bulk_review sample.root
           (sample.request_for (Some sample.root) "")
           (admin.mkBulkReviewBody (Some ["s1"; "s2"; "s1"; "nope"])
              (Some "REJECTED") (Some "blurry")))
        no_faults sample.store = (Some r, w') ∧
    succeeded r = true ∧
    returned_count r
    = Some (size (changed_rows (submissions sample.store) (submissions w'))).
Proof.
  destruct (C4_bulk_review_pending_only sample.root
              (sample.request_for (Some sample.root) "")
              (admin.mkBulkReviewBody (Some ["s1"; "s2"; "s1"; "nope"])
                 (Some "REJECTED") (Some "blurry"))
              sample.store) as (_ & Hrun & _).
  destruct (Hrun ["s1"; "s2"; "s1"; "nope"] REJECTED)
    as (r & w' & Hr & Hok & Hcount & _).
  - reflexivity.
  - discriminate.
  - reflexivity.
  - intros _. reflexivity.
  - exists r, w'. split_and!; [exact Hr | exact Hok | exact Hcount].
Defined.

(** C4 as stated fails on the empty list of ids: nothing is changed, so
    the number of submissions changed is 0, but the call is refused and
    returns no count. *)
Lemma C4_empty_list_returns_no_count :
  ∃ r,
    run (admin.patch_submissions_bulk_review sample.root
           (sample.request_for (Some sample.root) "")
           (admin.mkBulkReviewBody (Some []) (Some "APPROVED") None))
        no_faults sample.store = (Some r, sample.store) ∧
    size (changed_rows (submissions sample.store) (submissions sample.store)) = 0 ∧
    returned_count r ≠ Some 0 ∧
    classify r = Some ValidationError.
Proof.
  eexists. split; [reflexivity|].
  split_and!; [vm_compute; reflexivity | discriminate | reflexivity].
Qed.

(** ** Crediting a balance *)

Lemma review_success_credit actor req body value bonus p w :
  reviewSubmissionSchema body = Valid value →
  v_status value = APPROVED → v_bonusAmount value = Some bonus →
  Qlt_bool 0 bonus = true →
  wp (admin.patch_submissions_review actor req body) p w (fun r w' _ =>
    (payouts w' ≠ payouts w ∨ (∃ a, r = Done a ∧ succeeded a = true)) →
    bonus_credited actor req value bonus w w').
Proof.
  intros Hv Hst Hbonus Hpos.
  unfold admin.patch_submissions_review. rewrite Hv. unfold_calls.
  wp_any; simpl; intros [Hpay|(a & Ha & Hok)]; simplify_eq/=; try done.
  all: try (exfalso; bool_hyps; congruence).
  all: unfold bonus_credited; eexists _, _; split_and!; eauto.
  all: by bool_hyps.
Qed.

Lemma review_credit_no_faults actor req body value bonus s u w :
  reviewSubmissionSchema body = Valid value →
  v_status value = APPROVED → v_bonusAmount value = Some bonus →
  Qlt_bool 0 bonus = true →
  submissions w !! params_id req = Some s → status s = PENDING →
  users w !! userId s = Some u →
  ∃ r w',
    run (admin.patch_submissions_review actor req body) no_faults w
    = (Some r, w') ∧ succeeded r = true.
Proof.
  intros Hv Hst Hbonus Hpos Hs Hpending Hu.
  unfold run, admin.patch_submissions_review. rewrite Hv. unfold_calls.
  unfold catch, mbind, M_bind, bind, call, no_faults. cbn [fst snd].
  rewrite Hs, Hu. cbn beta iota. rewrite bool_decide_eq_true_2 by done.
  cbn [negb]. rewrite Hs. cbn beta iota. rewrite Hbonus, Hst, Hpos.
  rewrite bool_decide_eq_true_2 by done. cbn [andb].
  cbn [users set_submissions set_users set_payouts]. rewrite Hu.
  cbn beta iota. eexists _, _. split; [reflexivity|]. reflexivity.
Qed.

Lemma add_balance_success_credit actor req body value p w :
  addBalanceSchema body = Valid value →
  wp (admin.post_users_add_balance actor req body) p w (fun r w' _ =>
    (∃ a, r = Done a ∧ succeeded a = true) →
    grant_credited actor req value w w').
Proof.
  intros Hv. unfold admin.post_users_add_balance. rewrite Hv. unfold_calls.
  wp_any; simpl; intros (a & Ha & Hok); simplify_eq/=; try done.
  all: unfold grant_credited; eexists; split_and!; eauto.
Qed.

Lemma add_balance_no_faults actor req body value u w :
  addBalanceSchema body = Valid value →
  id actor ≠ params_id req → users w !! params_id req = Some u →
  ∃ r w',
    run (admin.post_users_add_balance actor req body) no_faults w
    = (Some r, w') ∧ succeeded r = true.
Proof.
  intros Hv Hother Hu.
  unfold run, admin.post_users_add_balance. rewrite Hv.
  rewrite canModifyUser_other by done. unfold_calls.
  unfold catch, mbind, M_bind, bind, promise_all, call, no_faults.
  cbn [fst snd negb]. rewrite Hu. cbn beta iota. rewrite Hu.
  eexists _, _. split; reflexivity.
Qed.

(** C1, as the code has it. A balance credit is a sequence of separate
    store calls with no transaction around them. Whenever the approval of
    a submission with a bonus answers with success, or has inserted a
    payout row at all, the submission is APPROVED, the owner's balance has
    been incremented by the bonus and exactly one COMPLETED payout row
    naming the acting admin has been appended; whenever add-balance
    answers with success, the balance has been incremented by the amount
    and exactly one such payout row appended; and when no store call
    fails, both handlers answer with success on a valid request. Nothing
    is promised about the store after a call that failed part-way. *)
Theorem C1_credit_complete_on_success actor req w :
  (∀ body value bonus,
     reviewSubmissionSchema body = Valid value →
     v_status value = APPROVED → v_bonusAmount value = Some bonus →
     Qlt_bool 0 bonus = true →
     (∀ p r w',
        run (admin.patch_submissions_review actor req body) p w = (r, w') →
        payouts w' ≠ payouts w ∨ (∃ a, r = Some a ∧ succeeded a = true) →
        bonus_credited actor req value bonus w w') ∧
     (∀ s u,
        submissions w !! params_id req = Some s → status s = PENDING →
        users w !! userId s = Some u →
        ∃ r w',
          run (admin.patch_submissions_review actor req body) no_faults w
          = (Some r, w') ∧
          succeeded r = true ∧ bonus_credited actor req value bonus w w')) ∧
  (∀ body value,
     addBalanceSchema body = Valid value →
     (∀ p r w',
        run (admin.post_users_add_balance actor req body) p w = (Some r, w') →
        succeeded r = true → grant_credited actor req value w w') ∧
     (∀ u,
        id actor ≠ params_id req → users w !! params_id req = Some u →
        ∃ r w',
          run (admin.post_users_add_balance actor req body) no_faults w
          = (Some r, w') ∧
          succeeded r = true ∧ grant_credited actor req value w w')).
Proof.
  split.
  - intros body value bonus Hv Hst Hbonus Hpos.
    assert (∀ p r w',
      run (admin.patch_submissions_review actor req body) p w = (r, w') →
      payouts w' ≠ payouts w ∨ (∃ a, r = Some a ∧ succeeded a = true) →
      bonus_credited actor req value bonus w w') as Hany.
    { intros p r w' Hrun Hdone. rewrite run_eq in Hrun.
      pose proof (review_success_credit actor req body value bonus p w
                    Hv Hst Hbonus Hpos) as H.
      unfold wp in H.
      destruct (admin.patch_submissions_review actor req body p w)
        as [[res w1] p1]; simplify_eq/=.
      apply H. destruct Hdone as [Hpay|(a & Ha & Hok)]; [by left|right].
      destruct res; simplify_eq. eauto. }
    split; [done|]. intros s u Hs Hpending Hu.
    destruct (review_credit_no_faults actor req body value bonus s u w)
      as (r & w' & Hrun & Hok); try done.
    exists r, w'. split_and!; try done. eapply Hany; eauto.
  - intros body value Hv.
    assert (∀ p r w',
      run (admin.post_users_add_balance actor req body) p w = (Some r, w') →
      succeeded r = true → grant_credited actor req value w w') as Hany.
    { intros p r w' Hrun Hok. rewrite run_eq in Hrun.
      pose proof (add_balance_success_credit actor req body value p w Hv) as H.
      unfold wp in H.
      destruct (admin.post_users_add_balance actor req body p w)
        as [[res w1] p1]; simplify_eq/=.
      apply H. destruct res; simplify_eq. eauto. }
    split; [done|]. intros u Hother Hu.
    destruct (add_balance_no_faults actor req body value u w)
      as (r & w' & Hrun & Hok); try done.
    exists r, w'. split_and!; try done. eapply Hany; eauto.
Qed.

Lemma C1_credit_complete_on_success_witness :
  (∃ r w',
     run (admin.patch_submissions_review sample.root
            (sample.request_for (Some sample.root) "s1")
            (mkReviewBody (Some "APPROVED") None (Some (50 # 1))))
         no_faults sample.store = (Some r, w') ∧
     succeeded r = true ∧
     bonus_credited sample.root (sample.request_for (Some sample.root) "s1")
       (mkReviewValue APPROVED None (Some (50 # 1))) (50 # 1) sample.store w') ∧
  (∃ r w',
     run (admin.post_users_add_balance sample.root
            (sample.request_for (Some sample.root) "u1")
            (mkAddBalanceBody (Some (50 # 1)) (Some "bonus")))
         no_faults sample.store = (Some r, w') ∧
     succeeded r = true ∧
     grant_credited sample.root (sample.request_for (Some sample.root) "u1")
       (mkAddBalanceValue (50 # 1) "bonus") sample.store w').
Proof.
  split.
  - destruct (C1_credit_complete_on_success sample.root
                (sample.request_for (Some sample.root) "s1") sample.store)
      as [Hbonus _].
    destruct (Hbonus (mkReviewBody (Some "APPROVED") None (Some (50 # 1)))
                (mkReviewValue APPROVED None (Some (50 # 1))) (50 # 1)
                eq_refl eq_refl eq_refl eq_refl) as [_ Hrun].
    apply (Hrun (sample.clip "s1" PENDING) sample.alice); reflexivity.
  - destruct (C1_credit_complete_on_success sample.root
                (sample.request_for (Some sample.root) "u1") sample.store)
      as [_ Hgrant].
    destruct (Hgrant (mkAddBalanceBody (Some (50 # 1)) (Some "bonus"))
                (mkAddBalanceValue (50 # 1) "bonus") eq_refl) as [_ Hrun].
    apply (Hrun sample.alice); [vm_compute; discriminate | reflexivity].
Defined.

(** C1 as stated fails: when the store fails between the writes, the
    writes already made stay. A review whose balance update fails leaves
    the submission APPROVED with the bonus uncredited and no payout row;
    an add-balance whose balance update fails leaves a payout row without
    a balance change, and one whose payout insertion fails leaves a
    balance change without a payout row. *)
Lemma C1_store_failure_leaves_partial_credit :
  (∃ w',
     run (admin.patch_submissions_review sample.root
            (sample.request_for (Some sample.root) "s1")
            (mkReviewBody (Some "APPROVED") None (Some (50 # 1))))
         [false; false; true] sample.store
     = (Some (Json 500 (Text "Failed to review submission") NoData), w') ∧
     status <$> submissions w' !! "s1" = Some APPROVED ∧
     users w' = users sample.store ∧ payouts w' = []) ∧
  (∃ w',
     run (admin.post_users_add_balance sample.root
            (sample.request_for (Some sample.root) "u1")
            (mkAddBalanceBody (Some (50 # 1)) (Some "bonus")))
         [false; true; false] sample.store
     = (Some (Json 500 (Text "Failed to add balance") NoData), w') ∧
     users w' = users sample.store ∧
     payouts w' = [mkPayout "u1" (50 # 1) "bonus" COMPLETED "a1" (Some 7)]) ∧
  (∃ w',
     run (admin.post_users_add_balance sample.root
            (sample.request_for (Some sample.root) "u1")
            (mkAddBalanceBody (Some (50 # 1)) (Some "bonus")))
         [false; false; true] sample.store
     = (Some (Json 500 (Text "Failed to add balance") NoData), w') ∧
     balance <$> users w' !! "u1" = Some (0 + (50 # 1))%Q ∧
     payouts w' = []).
Proof.
  split_and!; eexists; (split; [vm_compute; reflexivity|]);
    split_and!; vm_compute; reflexivity.
Qed.

(** ** Creating a submission *)

(** C9. The code breaks the claim: [upload.single] has written the blob
    before the handler validates the body, and the handler removes it only
    in its catch block. A Create by a user who is not banned, with an
    allowed image of 2048 bytes and the one-character category [x], is
    refused with a ValidationError and creates no record, but the staged
    blob stays in the upload directory; when instead the body is valid and
    the insertion of the record throws, the catch block does remove the
    blob. *)
Theorem C9_rejected_create_leaves_blob :
  let part := submissionsRouter.mkUpload "clip.png" "image/png" 2048 "9f1c.png" in
  let req := sample.request_for (Some sample.alice) "" in
  (∃ r w',
     run (dispatch sample.cfg
            (POST_api_submissions
               (submissionsRouter.mkCreateBody (Some "x") None) (Some part)) req)
         no_faults sample.store = (Some r, w') ∧
     r = Json 400 (JoiDetail "category" "string.min") NoData ∧
     classify r = Some ValidationError ∧
     submissions w' = submissions sample.store ∧
     ("/uploads/9f1c.png" ∉ uploads sample.store) ∧
     ("/uploads/9f1c.png" ∈ uploads w')) ∧
  (∃ r w',
     run (dispatch sample.cfg
            (POST_api_submissions
               (submissionsRouter.mkCreateBody (Some "Epic Kill") None)
               (Some part)) req)
         [true] sample.store = (Some r, w') ∧
     r = Json 500 (Text "Failed to create submission") NoData ∧
     submissions w' = submissions sample.store ∧
     ("/uploads/9f1c.png" ∉ uploads w')).
Proof.
  split; eexists _, _; (split; [vm_compute; reflexivity|]); split_and!;
    try reflexivity; try (vm_compute; reflexivity).
  all: try (apply bool_decide_unpack; vm_compute; exact I).
  all: apply (bool_decide_unpack _); vm_compute; exact I.
Qed.

(** ** The ledger along a request *)

Lemma Qlt_bool_iff a b : Qlt_bool a b = true ↔ (a < b)%Q.
Proof.
  unfold Qlt_bool. rewrite negb_true_iff. split.
  - intros H. apply Qnot_le_lt. intros Hle. apply Qle_bool_iff in Hle. congruence.
  - intros H. apply not_true_iff_false. intros Hle. apply Qle_bool_iff in Hle.
    by apply Qlt_not_le in H.
Qed.

Lemma Qlt_bool_false a b : Qlt_bool a b = false ↔ (b <= a)%Q.
Proof.
  unfold Qlt_bool. rewrite negb_false_iff. apply Qle_bool_iff.
Qed.

Lemma addBalanceSchema_valid body value :
  addBalanceSchema body = Valid value →
  ab_amount body = Some (v_amount value) ∧ ab_reason body = Some (v_reason value) ∧
  (1 # 100 <= v_amount value)%Q ∧ (v_amount value <= 10000 # 1)%Q ∧
  (3 ≤ String.length (v_reason value) ≤ 200)%nat.
Proof.
  unfold addBalanceSchema. intros H.
  destruct (ab_amount body) as [a|]; [|done].
  destruct (Qlt_bool a (1 # 100)) eqn:Hlo; [done|].
  destruct (Qlt_bool (10000 # 1) a) eqn:Hhi; [done|].
  destruct (ab_reason body) as [r|]; [|done].
  destruct (decide (r = "")); [done|].
  destruct (Nat.ltb (String.length r) 3) eqn:Hmin; [done|].
  destruct (Nat.ltb 200 (String.length r)) eqn:Hmax; [done|].
  simplify_eq/=. apply Qlt_bool_false in Hlo, Hhi.
  apply Nat.ltb_ge in Hmin, Hmax. split_and!; done.
Qed.

Lemma updateUserSchema_valid body value :
  updateUserSchema body = Valid value →
  v_isBanned value = ub_isBanned body ∧ v_balance value = ub_balance body ∧
  (is_Some (v_role value) ↔ is_Some (ub_role body)) ∧
  (∀ b, v_balance value = Some b → (0 <= b)%Q ∧ (b <= 100000 # 1)%Q).
Proof.
  unfold updateUserSchema. intros H.
  destruct (ub_role body) as [name|]; simpl in H.
  - destruct (parse_role name) as [r|]; simpl in H; [|done].
    destruct (ub_balance body) as [n|].
    + destruct (Qlt_bool n 0) eqn:Hlo; [done|].
      destruct (Qlt_bool (100000 # 1) n) eqn:Hhi; [done|].
      simplify_eq/=. apply Qlt_bool_false in Hlo, Hhi.
      split_and!; try done. intros b ?; by simplify_eq.
    + simplify_eq/=. split_and!; done.
  - destruct (ub_balance body) as [n|].
    + destruct (Qlt_bool n 0) eqn:Hlo; [done|].
      destruct (Qlt_bool (100000 # 1) n) eqn:Hhi; [done|].
      simplify_eq/=. apply Qlt_bool_false in Hlo, Hhi.
      split_and!; try done. intros b ?; by simplify_eq.
    + simplify_eq/=. split_and!; done.
Qed.

Lemma ledger_step_refl w : ledger_step w w.
Proof.
  split_and!; [constructor | exists []; by rewrite app_nil_r
              | exists []; by rewrite app_nil_r].
Qed.

(** The leaves of a symbolic execution: the store the handler leaves is
    the one it started from with some of its writes applied. *)
Ltac ledger_goal :=
  lazymatch goal with
  | |- users_change ?m ?m => apply users_same
  | |- users_change _ (<[_ := _]> _) => eapply users_edited; [eassumption|]
  | |- ∃ ps, ?l = (?l ++ ps)%list ∧ _ =>
      exists []; split; [by rewrite app_nil_r | constructor]
  | |- ∃ ps, (?l ++ [?p])%list = (?l ++ ps)%list ∧ _ =>
      exists [p]; split;
      [reflexivity | constructor; [|constructor];
                     split_and!; simpl; eauto]
  | |- ∃ ls, ?l = (?l ++ ls)%list => exists []; by rewrite app_nil_r
  | |- ∃ ls, (?l ++ [?x])%list = (?l ++ ls)%list => by exists [x]
  end.

Ltac ledger_leaf :=
  unfold ledger_step; simpl in *; simplify_eq; split_and!; ledger_goal.

Lemma review_ledger_step actor req body p w :
  wp (admin.patch_submissions_review actor req body) p w (fun _ w' _ =>
    ledger_step w w').
Proof.
  unfold admin.patch_submissions_review. unfold_calls.
  wp_any; try apply ledger_step_refl; bool_hyps; ledger_leaf.
  all: try (by apply edit_credit, Qlt_bool_iff).
  all: by apply Qlt_bool_iff.
Qed.

Lemma bulk_review_ledger_step actor req body p w :
  wp (admin.patch_submissions_bulk_review actor req body) p w (fun _ w' _ =>
    ledger_step w w').
Proof.
  unfold admin.patch_submissions_bulk_review. unfold_calls.
  wp_any; try apply ledger_step_refl; ledger_leaf.
Qed.

Lemma patch_users_ledger_step actor req body p w :
  wp (admin.patch_users actor req body) p w (fun _ w' _ => ledger_step w w').
Proof.
  unfold admin.patch_users.
  destruct (updateUserSchema body) as [value|k t] eqn:Hv;
    [|by apply wp_catch, wp_ret, ledger_step_refl].
  apply updateUserSchema_valid in Hv as (_ & _ & _ & Hrange).
  unfold_calls.
  wp_any; try apply ledger_step_refl; ledger_leaf.
  all: by apply edit_admin.
Qed.

Lemma add_balance_ledger_step actor req body p w :
  wp (admin.post_users_add_balance actor req body) p w (fun _ w' _ =>
    ledger_step w w').
Proof.
  unfold admin.post_users_add_balance.
  destruct (addBalanceSchema body) as [value|k t] eqn:Hv;
    [|by apply wp_catch, wp_ret, ledger_step_refl].
  apply addBalanceSchema_valid in Hv as (_ & _ & Hlo & _).
  assert (0 < v_amount value)%Q as Hpos by lra.
  unfold_calls.
  wp_any; try apply ledger_step_refl; ledger_leaf.
  all: try by apply edit_credit.
Qed.

Lemma post_root_ledger_step actor req body file p w :
  wp (submissionsRouter.post_root actor req body file) p w (fun _ w' _ =>
    ledger_step w w').
Proof.
  unfold submissionsRouter.post_root. unfold_calls.
  wp_any; try apply ledger_step_refl; ledger_leaf.
  all: apply edit_touch.
Qed.

Lemma delete_ledger_step actor req p w :
  wp (submissionsRouter.delete_id actor req) p w (fun _ w' _ =>
    ledger_step w w').
Proof.
  unfold submissionsRouter.delete_id. unfold_calls.
  wp_any; try apply ledger_step_refl; ledger_leaf.
Qed.

Lemma upload_single_ledger_step cfg part p w :
  wp (submissionsRouter.upload_single cfg part) p w (fun _ w' _ =>
    ledger_step w w').
Proof.
  eapply wp_mono; [|apply upload_single_keeps_submissions].
  intros r w' p' (_ & Hu & Hp & Hl & _).
  unfold ledger_step. rewrite Hu, Hp, Hl. apply ledger_step_refl.
Qed.

Lemma dispatch_ledger_step cfg r req p w :
  wp (dispatch cfg r req) p w (fun _ w' _ => ledger_step w w').
Proof.
  assert (∀ n failure p,
    wp (read_only n failure) p w (fun _ w' _ => ledger_step w w')) as Hread.
  { intros n failure p0. eapply wp_mono; [|apply read_only_keeps_world].
    intros ? ? ? ->. apply ledger_step_refl. }
  destruct r; unfold dispatch, submissions_route, admin_route;
    (apply chain_wp; [intros; apply ledger_step_refl|]);
    try apply Hread;
    try (apply as_user_wp; [intros; apply ledger_step_refl|intros u]);
    try (by apply wp_ret; apply ledger_step_refl).
  - eapply wp_mono; [|apply get_id_keeps_world].
    intros ? ? ? ->. apply ledger_step_refl.
  - apply wp_bind.
    eapply wp_mono; [|apply upload_single_keeps_submissions].
    intros [file|e] w1 p1 (_ & Hu & Hp & Hl & _); cbn beta iota.
    + apply as_user_wp.
      * intros _. unfold ledger_step. rewrite Hu, Hp, Hl. apply ledger_step_refl.
      * intros u. eapply wp_mono; [|apply post_root_ledger_step].
        intros ? w2 ?. unfold ledger_step. by rewrite Hu, Hp, Hl.
    + unfold ledger_step. rewrite Hu, Hp, Hl. apply ledger_step_refl.
  - apply delete_ledger_step.
  - apply review_ledger_step.
  - apply bulk_review_ledger_step.
  - apply patch_users_ledger_step.
  - apply add_balance_ledger_step.
Qed.

Lemma serve_ledger_step cfg session r req p w :
  wp (serve cfg session r req) p w (fun _ w' _ => ledger_step w w').
Proof.
  unfold serve. apply wp_catch.
  destruct (globalLimiter req).
  - apply wp_bind. destruct session as [i|].
    + unfold passport.deserializeUser, prisma.user_findUnique.
      apply wp_bind, wp_call; intros p'; cbn beta iota delta [fst snd].
      * apply wp_ret, ledger_step_refl.
      * apply wp_ret. eapply wp_mono; [|apply dispatch_ledger_step].
        intros [a|e] w' p''; [done|]. intros H. by apply wp_ret.
    + apply wp_ret. eapply wp_mono; [|apply dispatch_ledger_step].
      intros [a|e] w' p''; [done|]. intros H. by apply wp_ret.
  - apply wp_ret, ledger_step_refl.
Qed.

Lemma head_map_to_list_lookup {A} (m : gmap string A) i x :
  head (map_to_list m) = Some (i, x) → m !! i = Some x.
Proof.
  intros H. apply elem_of_map_to_list.
  destruct (map_to_list m) as [|[j y] l]; simplify_eq/=. left.
Qed.

Lemma verify_ledger_step cfg req token account_id answer p w :
  wp (passport.verify cfg req token account_id answer) p w (fun _ w' _ =>
    ledger_step w w').
Proof.
  unfold passport.verify. unfold_calls.
  destruct (negb (truthy account_id)); [by apply wp_throw, ledger_step_refl|].
  destruct answer as [|[|epicUser rest]];
    try by apply wp_throw, ledger_step_refl.
  apply wp_bind, wp_call; intros p'; cbn beta iota delta [fst snd];
    [apply ledger_step_refl|].
  destruct (head (map_to_list _)) as [[j u]|] eqn:Hhead; simpl.
  - apply wp_call; intros p''; [apply ledger_step_refl|].
    destruct (users w !! id u) as [v|] eqn:Hv; [|apply ledger_step_refl].
    ledger_leaf. apply edit_refresh.
  - apply wp_call; intros p''; [apply ledger_step_refl|].
    simpl. destruct (users w !! fresh_id req) eqn:Hfresh;
      [apply ledger_step_refl|].
    case_decide as Hnone; [|apply ledger_step_refl].
    unfold ledger_step. simpl. split_and!.
    + apply (users_created _
               (mkUser (fresh_id req) (passport.accountId epicUser)
                  (passport.new_user_nickname epicUser) 0
                  (passport.new_user_role cfg epicUser) false None token));
        try done.
      intros j v Hj Heq.
      assert (filter (λ kv : string * User,
                epicId kv.2 = passport.accountId epicUser) (users w) !! j
              = Some v) as Hin by (by apply map_lookup_filter_Some).
      rewrite Hnone in Hin. by rewrite lookup_empty in Hin.
    + exists []. split; [by rewrite app_nil_r|constructor].
    + exists []. by rewrite app_nil_r.
Qed.

(** Every move of the system changes at most one row of [users], by
    one of the edits above or by creating it with a zero balance, and only
    appends to [payouts] and [adminLogs]. *)
Lemma step_ledger_step w w' : step w w' → ledger_step w w'.
Proof.
  intros [cfg session r req p w0|cfg req token account_id answer p w0].
  - apply serve_ledger_step.
  - apply verify_ledger_step.
Qed.

(** ** Invariants of the ledger *)

Lemma user_edit_keeps_identity u u' :
  user_edit u u' → id u' = id u ∧ epicId u' = epicId u.
Proof. by intros []. Qed.

Lemma user_edit_nonneg u u' :
  user_edit u u' → (0 <= balance u)%Q → (0 <= balance u')%Q.
Proof.
  intros [n Hn|value Hrange|t|name token] Hu; simpl; try done.
  - lra.
  - destruct (v_balance value) as [b|] eqn:Hb; simpl; [|done].
    by destruct (Hrange b eq_refl).
Qed.

Lemma users_change_nonneg m m' :
  users_change m m' → balances_nonneg m → balances_nonneg m'.
Proof.
  intros [|u Hfresh _ Hzero _|i u u' Hu Hedit] Hinv; [done| |].
  - intros j v [[<- <-]|[_ Hv]]%lookup_insert_Some; [|by eapply Hinv].
    rewrite Hzero. lra.
  - intros j v [[<- <-]|[_ Hv]]%lookup_insert_Some; [|by eapply Hinv].
    eapply user_edit_nonneg; [done|]. by eapply Hinv.
Qed.

Lemma users_change_wf m m' : users_change m m' → users_wf m → users_wf m'.
Proof.
  intros [|u Hfresh Hepic _ _|i u u' Hu Hedit] [Hkey Hinj]; [done| |].
  - split.
    + intros j v [[<- <-]|[_ Hv]]%lookup_insert_Some; [done|by apply Hkey].
    + intros j v [[<- <-]|[Hj Hv]]%lookup_insert_Some
        k x [[<- <-]|[Hk Hx]]%lookup_insert_Some Heq; try done.
      * by destruct (Hepic k x Hx).
      * by destruct (Hepic j v Hv).
      * by eapply Hinj.
  - destruct (user_edit_keeps_identity _ _ Hedit) as [Hid Hep]. split.
    + intros j v [[<- <-]|[_ Hv]]%lookup_insert_Some; [|by apply Hkey].
      rewrite Hid. by apply Hkey.
    + intros j v [[<- <-]|[Hj Hv]]%lookup_insert_Some
        k x [[<- <-]|[Hk Hx]]%lookup_insert_Some Heq; try done.
      * eapply Hinj; [exact Hu|exact Hx|congruence].
      * eapply Hinj; [exact Hv|exact Hu|congruence].
      * by eapply Hinj.
Qed.

(** X1. No run of the system makes a balance negative: a user is created
    with balance 0, a credit adds a positive amount, and the
    administrative edit accepts only a balance between 0 and 100000. *)
Theorem balances_never_negative w w' :
  rtc step w w' → balances_nonneg (users w) → balances_nonneg (users w').
Proof.
  induction 1 as [w|w w1 w2 Hstep _ IH]; [done|].
  intros Hinv. apply IH. eapply users_change_nonneg; [|done].
  by destruct (step_ledger_step _ _ Hstep).
Qed.

Lemma balances_never_negative_witness :
  balances_nonneg
    (users (serve sample.cfg (Some "a1")
              (POST_api_admin_users_id_add_balance
                 (mkAddBalanceBody (Some (50 # 1)) (Some "bonus")))
              (sample.request_for None "u1") no_faults sample.store).1.2).
Proof.
  apply (balances_never_negative sample.store).
  - apply rtc_once, step_request.
  - apply (bool_decide_unpack _). vm_compute. exact I.
Defined.

(** X2. Along every run of the system each row of [users] stays under its
    own id and no external account id comes to name two users. *)
Theorem users_stay_well_formed w w' :
  rtc step w w' → users_wf (users w) → users_wf (users w').
Proof.
  induction 1 as [w|w w1 w2 Hstep _ IH]; [done|].
  intros Hinv. apply IH. eapply users_change_wf; [|done].
  by destruct (step_ledger_step _ _ Hstep).
Qed.

Lemma users_stay_well_formed_witness :
  users_wf
    (users (passport.verify sample.cfg (sample.request_for None "")
              (Some "token") (Some "epic-new")
              (passport.Ok [passport.mkEpicUser "epic-new" (Some "Newcomer")])
              no_faults sample.store).1.2).
Proof.
  apply (users_stay_well_formed sample.store).
  - apply rtc_once, step_login.
  - apply (bool_decide_unpack _). vm_compute. exact I.
Defined.

(** X3. [payouts] and [adminLogs] are append-only: after any run of the
    system the old rows are still there, unchanged and in the same order,
    and every payout appended is COMPLETED, has a positive amount and
    carries its completion time. *)
Theorem ledger_tables_append_only w w' :
  rtc step w w' →
  (∃ ps, payouts w' = (payouts w ++ ps)%list ∧ Forall payout_ok ps) ∧
  (∃ ls, adminLogs w' = (adminLogs w ++ ls)%list).
Proof.
  induction 1 as [w|w w1 w2 Hstep _ IH].
  - split; [exists []; split; [by rewrite app_nil_r|constructor]
           |exists []; by rewrite app_nil_r].
  - destruct (step_ledger_step _ _ Hstep) as (_ & (ps & Hps & Hok) & (ls & Hls)).
    destruct IH as [(ps' & Hps' & Hok') (ls' & Hls')]. split.
    + exists (ps ++ ps')%list. rewrite Hps', Hps, app_assoc. split; [done|].
      by apply Forall_app.
    + exists (ls ++ ls')%list. by rewrite Hls', Hls, app_assoc.
Qed.

Lemma ledger_tables_append_only_witness :
  let w' := (serve sample.cfg (Some "a1")
               (POST_api_admin_users_id_add_balance
                  (mkAddBalanceBody (Some (50 # 1)) (Some "bonus")))
               (sample.request_for None "u1") no_faults sample.store).1.2 in
  (∃ ps, payouts w' = (payouts sample.store ++ ps)%list ∧ Forall payout_ok ps) ∧
  (∃ ls, adminLogs w' = (adminLogs sample.store ++ ls)%list).
Proof.
  apply (ledger_tables_append_only sample.store).
  apply rtc_once, step_request.
Defined.

(** ** The guards of the admin area *)

Lemma serve_answer cfg uid u r req answer p w :
  users w !! uid = Some u →
  dispatch cfg r (with_user (Some (passport.selected u)) req) = mret answer →
  wp (serve cfg (Some uid) r req) p w (fun res w' _ =>
    w' = w ∧
    (p = no_faults → within_limit req "global" = true → res = Done answer)).
Proof.
  intros Hu Hd. unfold serve, globalLimiter, rateLimit,
    passport.deserializeUser, prisma.user_findUnique.
  destruct (within_limit req "global") eqn:Hlim.
  - apply wp_catch, wp_bind, wp_bind. unfold wp, call.
    destruct p as [|[] p]; cbn [fst snd]; rewrite ?Hu; simpl; rewrite ?Hd;
      done.
  - apply wp_catch, wp_ret. done.
Qed.

Lemma serve_answer_anonymous cfg session r req answer p w :
  match session with Some uid => users w !! uid = None | None => True end →
  dispatch cfg r (with_user None req) = mret answer →
  wp (serve cfg session r req) p w (fun res w' _ =>
    w' = w ∧
    (p = no_faults → within_limit req "global" = true → res = Done answer)).
Proof.
  intros Hu Hd. unfold serve, globalLimiter, rateLimit,
    passport.deserializeUser, prisma.user_findUnique.
  destruct (within_limit req "global") eqn:Hlim.
  - apply wp_catch, wp_bind. destruct session as [uid|].
    + apply wp_bind. unfold wp, call.
      destruct p as [|[] p]; cbn [fst snd]; rewrite ?Hu; simpl; rewrite ?Hd;
        done.
    + apply wp_ret. rewrite Hd. done.
  - apply wp_catch, wp_ret. done.
Qed.

Lemma dispatch_admin_guarded cfg r req answer :
  admin_area r = true → isAuthenticated req = Next →
  isAdmin req = Respond answer → dispatch cfg r req = mret answer.
Proof.
  intros Harea Hauth Hadmin.
  destruct r; try discriminate;
    unfold dispatch, admin_route, chain; by rewrite Hauth, Hadmin.
Qed.

Lemma run_of_wp (h : M response) p w (Q : option response → world → Prop) :
  wp h p w (fun r w' _ =>
    Q match r with Done a => Some a | Thrown _ => None end w') →
  Q (run h p w).1 (run h p w).2.
Proof. rewrite run_eq. done. Qed.

(** X4. A user whose role is USER is stopped by [isAdmin] on every route
    of the admin area: the store is left as it was under every fault
    plan, and, once past the global limiter, the answer is 403 "Admin
    access required" for a JSON client and a redirect to the landing page
    otherwise. *)
Theorem user_role_refused_in_admin_area cfg w uid u r req :
  users w !! uid = Some u → isBanned u = false → role u = USER →
  admin_area r = true →
  (∀ p, (run (serve cfg (Some uid) r req) p w).2 = w) ∧
  (within_limit req "global" = true →
   run (serve cfg (Some uid) r req) no_faults w
   = (Some (if wants_json req
            then Json 403 (Text "Admin access required") NoData
            else Redirect "/"), w)).
Proof.
  intros Hu Hb Hrole Harea.
  assert (dispatch cfg r (with_user (Some (passport.selected u)) req)
          = mret (if wants_json req
                  then Json 403 (Text "Admin access required") NoData
                  else Redirect "/")) as Hd.
  { apply dispatch_admin_guarded; [done| |].
    - unfold isAuthenticated. simpl. by rewrite Hb.
    - unfold isAdmin. simpl. by rewrite Hrole. }
  split.
  - intros p. apply (run_of_wp _ _ _ (fun _ w' => w' = w)).
    eapply wp_mono; [|by eapply serve_answer]. by intros ? ? ? [-> _].
  - intros Hlim. rewrite run_eq.
    pose proof (serve_answer cfg uid u r req _ no_faults w Hu Hd) as H.
    unfold wp in H. destruct H as [-> Hres]. by rewrite Hres.
Qed.

Lemma user_role_refused_in_admin_area_witness :
  run (serve sample.cfg (Some "u1")
         (PATCH_api_admin_submissions_id_review
            (mkReviewBody (Some "APPROVED") None (Some (50 # 1))))
         (sample.request_for None "s1")) no_faults sample.store
  = (Some (Json 403 (Text "Admin access required") NoData), sample.store).
Proof.
  apply (user_role_refused_in_admin_area sample.cfg sample.store "u1"
           sample.alice); reflexivity.
Defined.

(** X5. The audit log can be read by an ADMIN only: a MODERATOR passes
    [isAdmin] but is stopped by [isSuperAdmin] on GET /api/admin/logs with
    403 "Super admin access required", the store being left as it was,
    while an ADMIN is served. *)
Theorem logs_need_super_admin cfg w uid u req :
  users w !! uid = Some u → isBanned u = false →
  within_limit req "global" = true → within_limit req "admin" = true →
  wants_json req = true →
  (role u = MODERATOR →
   (∀ p, (run (serve cfg (Some uid) GET_api_admin_logs req) p w).2 = w) ∧
   run (serve cfg (Some uid) GET_api_admin_logs req) no_faults w
   = (Some (Json 403 (Text "Super admin access required") NoData), w)) ∧
  (role u = ADMIN →
   run (serve cfg (Some uid) GET_api_admin_logs req) no_faults w
   = (Some (Json 200 (Text "") Unspecified), w)).
Proof.
  intros Hu Hb Hglobal Hadmin Hjson. split; intros Hrole.
  - assert (dispatch cfg GET_api_admin_logs
              (with_user (Some (passport.selected u)) req)
            = mret (Json 403 (Text "Super admin access required") NoData))
      as Hd.
    { unfold dispatch, chain, isAuthenticated, isAdmin, adminLimiter,
        rateLimit, isSuperAdmin, refuse. simpl.
      rewrite Hb, Hrole, Hadmin. simpl.
      change (wants_json (with_user (Some (passport.selected u)) req))
        with (wants_json req). by rewrite Hjson. }
    split.
    + intros p. apply (run_of_wp _ _ _ (fun _ w' => w' = w)).
      eapply wp_mono; [|by eapply serve_answer]. by intros ? ? ? [-> _].
    + rewrite run_eq.
      pose proof (serve_answer cfg uid u _ req _ no_faults w Hu Hd) as H.
      unfold wp in H. destruct H as [-> Hres]. by rewrite Hres.
  - unfold run, serve, catch, globalLimiter, rateLimit. rewrite Hglobal.
    unfold passport.deserializeUser, prisma.user_findUnique, mbind, M_bind,
      bind, call, no_faults. cbn [fst snd]. rewrite Hu. simpl.
    unfold dispatch, chain, isAuthenticated, isAdmin, adminLimiter,
      rateLimit, isSuperAdmin. simpl. rewrite Hb, Hrole, Hadmin. simpl.
    reflexivity.
Qed.

Lemma logs_need_super_admin_witness :
  run (serve sample.cfg (Some "m1") GET_api_admin_logs
         (sample.request_for None "")) no_faults sample.store
  = (Some (Json 403 (Text "Super admin access required") NoData), sample.store) ∧
  run (serve sample.cfg (Some "a1") GET_api_admin_logs
         (sample.request_for None "")) no_faults sample.store
  = (Some (Json 200 (Text "") Unspecified), sample.store).
Proof.
  split.
  - apply (logs_need_super_admin sample.cfg sample.store "m1" sample.maud
             (sample.request_for None "")); reflexivity.
  - apply (logs_need_super_admin sample.cfg sample.store "a1" sample.root
             (sample.request_for None "")); reflexivity.
Defined.

(** X6. A request without a session, or whose session names a user that
    is no longer in the store, is refused by [isAuthenticated] on every
    route behind the guard, and the store is left as it was under every
    fault plan. *)
Theorem no_user_no_access cfg w session r req :
  match session with Some uid => users w !! uid = None | None => True end →
  (∀ p, (run (serve cfg session r req) p w).2 = w) ∧
  (within_limit req "global" = true →
   run (serve cfg session r req) no_faults w
   = (Some (if wants_json req
            then Json 401 (Text "Authentication required") NoData
            else Redirect "/"), w)).
Proof.
  intros Hnone.
  assert (dispatch cfg r (with_user None req)
          = mret (if wants_json req
                  then Json 401 (Text "Authentication required") NoData
                  else Redirect "/")) as Hd.
  { apply dispatch_guarded. by rewrite isAuthenticated_anonymous. }
  split.
  - intros p. apply (run_of_wp _ _ _ (fun _ w' => w' = w)).
    eapply wp_mono; [|by eapply serve_answer_anonymous]. by intros ? ? ? [-> _].
  - intros Hlim. rewrite run_eq.
    pose proof (serve_answer_anonymous cfg session r req _ no_faults w Hnone Hd)
      as H.
    unfold wp in H. destruct H as [-> Hres]. by rewrite Hres.
Qed.

Lemma no_user_no_access_witness :
  run (serve sample.cfg (Some "gone") DELETE_api_submissions_id
         (sample.request_for None "s1")) no_faults sample.store
  = (Some (Json 401 (Text "Authentication required") NoData), sample.store).
Proof.
  apply (no_user_no_access sample.cfg sample.store (Some "gone")
           DELETE_api_submissions_id (sample.request_for None "s1"));
    reflexivity.
Defined.

(** ** Uploading and creating a submission *)

Lemma serve_no_faults cfg uid u r req w :
  users w !! uid = Some u → within_limit req "global" = true →
  serve cfg (Some uid) r req no_faults w
  = catch (dispatch cfg r (with_user (Some (passport.selected u)) req))
      (fun e => mret (errorHandler e)) no_faults w.
Proof.
  intros Hu Hlim. unfold serve, globalLimiter, rateLimit. rewrite Hlim.
  unfold catch at 1 2, passport.deserializeUser, prisma.user_findUnique, mbind,
    M_bind, bind, call, no_faults. cbn [fst snd]. rewrite Hu. reflexivity.
Qed.

Lemma dispatch_post_admitted cfg body part req u :
  user req = Some u → isBanned u = false →
  (role u = ADMIN ∨ role u = MODERATOR ∨ within_limit req "submission" = true) →
  dispatch cfg (POST_api_submissions body part) req
  = (file ← submissionsRouter.upload_single cfg part;
     submissionsRouter.post_root u req body file).
Proof.
  intros Hu Hb Hlim.
  unfold dispatch, chain, isAuthenticated, submissionLimiter, rateLimit,
    as_user. rewrite Hu, Hb. cbn [negb].
  destruct (bool_decide (role u = ADMIN) || bool_decide (role u = MODERATOR))
    eqn:Hskip; [done|].
  destruct Hlim as [Hr|[Hr|Hr]]; [| |by rewrite Hr].
  - rewrite Hr in Hskip. done.
  - rewrite Hr in Hskip. done.
Qed.

(** X7. A file of a type outside the allowed list, or larger than a
    size limit that is positive, never reaches the handler: nothing is
    written to the upload directory or to the store, and the error
    handler answers 500 "Internal server error" for the type
    ([fileFilter]'s error carries no code) and 400 "File too large" for
    the size. *)
Theorem rejected_upload_leaves_nothing cfg w uid u req body file :
  users w !! uid = Some u → isBanned u = false →
  within_limit req "global" = true → within_limit req "submission" = true →
  (submissionsRouter.fileFilter file = false →
   run (serve cfg (Some uid) (POST_api_submissions body (Some file)) req)
     no_faults w
   = (Some (Json 500 (Text "Internal server error") NoData), w)) ∧
  (submissionsRouter.fileFilter file = true →
   (0 < submissionsRouter.fileSize_limit cfg)%Z →
   (submissionsRouter.fileSize_limit cfg < submissionsRouter.size file)%Z →
   run (serve cfg (Some uid) (POST_api_submissions body (Some file)) req)
     no_faults w
   = (Some (Json 400 (Text "File too large") NoData), w)).
Proof.
  intros Hu Hb Hglobal Hlim.
  split; [intros Hfilter|intros Hfilter _ Hsize].
  - unfold run. rewrite (serve_no_faults _ _ u) by done.
    rewrite (dispatch_post_admitted _ _ _ _ (passport.selected u)); try done;
      [|by right; right].
    unfold catch, mbind, M_bind, bind, submissionsRouter.upload_single.
    by rewrite Hfilter.
  - unfold run. rewrite (serve_no_faults _ _ u) by done.
    rewrite (dispatch_post_admitted _ _ _ _ (passport.selected u)); try done;
      [|by right; right].
    unfold catch, mbind, M_bind, bind, submissionsRouter.upload_single.
    rewrite Hfilter. apply Z.ltb_lt in Hsize. by rewrite Hsize.
Qed.

Lemma rejected_upload_leaves_nothing_witness :
  run (serve sample.cfg (Some "u1")
         (POST_api_submissions
            (submissionsRouter.mkCreateBody (Some "Epic Kill") None)
            (Some (submissionsRouter.mkUpload "notes.pdf" "application/pdf"
                     2048 "9f1c.pdf")))
         (sample.request_for None ""))
    no_faults sample.store
  = (Some (Json 500 (Text "Internal server error") NoData), sample.store) ∧
  run (serve sample.cfg (Some "u1")
         (POST_api_submissions
            (submissionsRouter.mkCreateBody (Some "Epic Kill") None)
            (Some (submissionsRouter.mkUpload "long.mp4" "video/mp4"
                     (200 * 1024 * 1024) "9f1c.mp4")))
         (sample.request_for None ""))
    no_faults sample.store
  = (Some (Json 400 (Text "File too large") NoData), sample.store).
Proof.
  split.
  - apply (rejected_upload_leaves_nothing sample.cfg sample.store "u1"
             sample.alice); reflexivity.
  - apply (rejected_upload_leaves_nothing sample.cfg sample.store "u1"
             sample.alice); reflexivity.
Defined.

(** The row a Create inserts. *)
Lemma create_success cfg w u req body value file :
  user req = Some u → isBanned u = false →
  (role u = ADMIN ∨ role u = MODERATOR ∨ within_limit req "submission" = true) →
  ∀ owner, users w !! id u = Some owner →
  submissionsRouter.createSubmissionSchema body = Valid value →
  submissionsRouter.fileFilter file = true →
  (submissionsRouter.size file ≤ submissionsRouter.fileSize_limit cfg)%Z →
  submissions w !! fresh_id req = None →
  let row :=
    mkSubmission (fresh_id req) (id u) (submissionsRouter.blob_url file)
      (submissionsRouter.originalname file)
      (if String.prefix "image/" (submissionsRouter.mimetype file)
       then IMAGE else VIDEO)
      (submissionsRouter.size file) (submissionsRouter.v_category value)
      (or_null (submissionsRouter.v_description value))
      PENDING None None None in
  dispatch cfg (POST_api_submissions body (Some file)) req no_faults w
  = (Done (Json 201 (Text "Submission created successfully")
             (SubmissionData row)),
     set_users
       <[id u := submissionsRouter.touch_lastSubmission (clock req) owner]>
       (set_submissions <[fresh_id req := row]>
          (set_uploads (fun b => {[submissionsRouter.blob_url file]} ∪ b) w)),
     no_faults).
Proof.
  intros Hu Hb Hlim owner Howner Hv Hfilter Hsize Hfresh row.
  rewrite (dispatch_post_admitted _ _ _ _ u) by done.
  unfold mbind, M_bind, bind, submissionsRouter.upload_single.
  rewrite Hfilter. apply Z.ltb_ge in Hsize. rewrite Hsize.
  unfold submissionsRouter.post_root, catch. rewrite Hb, Hv.
  unfold_calls. unfold mbind, M_bind, bind, call, no_faults. cbn [fst snd].
  cbn [sub_id submissions set_uploads]. rewrite Hfresh.
  cbn [users set_submissions set_uploads]. rewrite Howner. reflexivity.
Qed.

Lemma allowed_type_is_image_or_video file :
  submissionsRouter.fileFilter file = true →
  String.prefix "image/" (submissionsRouter.mimetype file) = true ∧
  String.prefix "video/" (submissionsRouter.mimetype file) = false ∨
  String.prefix "video/" (submissionsRouter.mimetype file) = true ∧
  String.prefix "image/" (submissionsRouter.mimetype file) = false.
Proof.
  unfold submissionsRouter.fileFilter, submissionsRouter.allowedTypes.
  intros H. apply bool_decide_eq_true in H.
  repeat (apply elem_of_cons in H as [->|H]; [vm_compute; tauto|]).
  by apply elem_of_nil in H.
Qed.

(** X8. A Create that passes the guard, the limiter, the upload filter
    and the schema, with an id the store has not used, answers 201 and
    adds exactly one row: PENDING, owned by the caller, without review
    fields, of type IMAGE for an allowed image type and VIDEO for an
    allowed video type; its blob is in the upload directory under the
    row's fileUrl, the caller's lastSubmission is set to the time of the
    request, and nothing else changes. *)
Theorem create_adds_one_pending_row cfg w u req body value file owner :
  user req = Some u → isBanned u = false →
  (role u = ADMIN ∨ role u = MODERATOR ∨ within_limit req "submission" = true) →
  users w !! id u = Some owner →
  submissionsRouter.createSubmissionSchema body = Valid value →
  submissionsRouter.fileFilter file = true →
  (submissionsRouter.size file ≤ submissionsRouter.fileSize_limit cfg)%Z →
  submissions w !! fresh_id req = None →
  ∃ row w',
    run (dispatch cfg (POST_api_submissions body (Some file)) req) no_faults w
    = (Some (Json 201 (Text "Submission created successfully")
               (SubmissionData row)), w') ∧
    submissions w' = <[fresh_id req := row]> (submissions w) ∧
    userId row = id u ∧ status row = PENDING ∧ review_fields_ok row ∧
    category row = submissionsRouter.v_category value ∧
    (fileType row = IMAGE ↔
     String.prefix "image/" (submissionsRouter.mimetype file) = true) ∧
    (fileType row = VIDEO ↔
     String.prefix "video/" (submissionsRouter.mimetype file) = true) ∧
    fileUrl row ∈ uploads w' ∧
    uploads w' = {[fileUrl row]} ∪ uploads w ∧
    users w'
    = <[id u := submissionsRouter.touch_lastSubmission (clock req) owner]>
        (users w) ∧
    payouts w' = payouts w ∧ adminLogs w' = adminLogs w.
Proof.
  intros Hu Hb Hlim Howner Hv Hfilter Hsize Hfresh.
  eexists _, _. split.
  { unfold run. by erewrite create_success. }
  simpl. split_and!; try done.
  - destruct (String.prefix "image/" _); split; done.
  - destruct (allowed_type_is_image_or_video _ Hfilter) as [[Hi Hvid]|[Hvid Hi]];
      rewrite Hi, Hvid; split; done.
  - apply elem_of_union. left. by apply elem_of_singleton.
Qed.

Lemma create_adds_one_pending_row_witness :
  ∃ row w',
    run (dispatch sample.cfg
           (POST_api_submissions
              (submissionsRouter.mkCreateBody (Some "Epic Kill") None)
              (Some (submissionsRouter.mkUpload "win.mp4" "video/mp4" 4096
                       "9f1c.mp4")))
           (sample.request_for (Some sample.alice) ""))
        no_faults sample.store
    = (Some (Json 201 (Text "Submission created successfully")
               (SubmissionData row)), w') ∧
    submissions w' = <["fresh" := row]> (submissions sample.store) ∧
    status row = PENDING ∧ fileType row = VIDEO.
Proof.
  destruct (create_adds_one_pending_row sample.cfg sample.store sample.alice
              (sample.request_for (Some sample.alice) "")
              (submissionsRouter.mkCreateBody (Some "Epic Kill") None)
              (submissionsRouter.mkCreateValue "Epic Kill" None)
              (submissionsRouter.mkUpload "win.mp4" "video/mp4" 4096 "9f1c.mp4")
              sample.alice)
    as (row & w' & Hrun & Hsubs & _ & Hst & _ & _ & _ & Hvideo & _);
    try reflexivity.
  - right. right. reflexivity.
  - vm_compute. discriminate.
  - exists row, w'. split_and!; try done. by apply Hvideo.
Defined.

(** X9. The daily submission limiter stops a USER who has used up the
    limit before anything is staged or stored, with 429; an ADMIN or a
    MODERATOR in the same situation is not limited and the Create goes
    through. *)
Theorem submission_limit_spares_staff cfg w uid u req body value file :
  users w !! uid = Some u → id u = uid → isBanned u = false →
  within_limit req "global" = true → within_limit req "submission" = false →
  submissionsRouter.createSubmissionSchema body = Valid value →
  submissionsRouter.fileFilter file = true →
  (submissionsRouter.size file ≤ submissionsRouter.fileSize_limit cfg)%Z →
  submissions w !! fresh_id req = None →
  (role u = USER →
   (∀ p, (run (serve cfg (Some uid) (POST_api_submissions body (Some file)) req)
            p w).2 = w) ∧
   run (serve cfg (Some uid) (POST_api_submissions body (Some file)) req)
     no_faults w
   = (Some (Json 429
              (Text "Daily submission limit exceeded. Try again tomorrow.")
              NoData), w)) ∧
  (role u = ADMIN ∨ role u = MODERATOR →
   ∃ r w',
     run (serve cfg (Some uid) (POST_api_submissions body (Some file)) req)
       no_faults w = (Some r, w') ∧
     succeeded r = true ∧ is_Some (submissions w' !! fresh_id req)).
Proof.
  intros Hu Hid Hb Hglobal Hlim Hv Hfilter Hsize Hfresh. split.
  - intros Hrole.
    assert (dispatch cfg (POST_api_submissions body (Some file))
              (with_user (Some (passport.selected u)) req)
            = mret (Json 429
                      (Text "Daily submission limit exceeded. Try again tomorrow.")
                      NoData)) as Hd.
    { unfold dispatch, chain, isAuthenticated, submissionLimiter, rateLimit.
      simpl. by rewrite Hb, Hrole, Hlim. }
    split.
    + intros p. apply (run_of_wp _ _ _ (fun _ w' => w' = w)).
      eapply wp_mono; [|by eapply serve_answer]. by intros ? ? ? [-> _].
    + rewrite run_eq.
      pose proof (serve_answer cfg uid u _ req _ no_faults w Hu Hd) as H.
      unfold wp in H. destruct H as [-> Hres]. by rewrite Hres.
  - intros Hrole. unfold run. rewrite (serve_no_faults _ _ u) by done.
    unfold catch.
    erewrite (create_success cfg w (passport.selected u)
                (with_user (Some (passport.selected u)) req)
                body value file); try done.
    + eexists _, _. split; [reflexivity|]. split; [done|].
      simpl. rewrite lookup_insert_eq. eauto.
    + destruct Hrole; [by left|by right; left].
    + simpl. by rewrite Hid.
Qed.

Lemma submission_limit_spares_staff_witness :
  let req :=
    mkRequest None "" true None None None 7 "fresh"
      (fun name => negb (bool_decide (name = "submission"))) in
  let post :=
    POST_api_submissions
      (submissionsRouter.mkCreateBody (Some "Epic Kill") None)
      (Some (submissionsRouter.mkUpload "win.mp4" "video/mp4" 4096 "9f1c.mp4")) in
  run (serve sample.cfg (Some "u1") post req) no_faults sample.store
  = (Some (Json 429
             (Text "Daily submission limit exceeded. Try again tomorrow.")
             NoData), sample.store) ∧
  ∃ r w',
    run (serve sample.cfg (Some "m1") post req) no_faults sample.store
    = (Some r, w') ∧
    succeeded r = true ∧ is_Some (submissions w' !! "fresh").
Proof.
  intros req post. split.
  - apply (submission_limit_spares_staff sample.cfg sample.store "u1"
             sample.alice req
             (submissionsRouter.mkCreateBody (Some "Epic Kill") None)
             (submissionsRouter.mkCreateValue "Epic Kill" None)
             (submissionsRouter.mkUpload "win.mp4" "video/mp4" 4096 "9f1c.mp4"));
      try reflexivity.
    vm_compute. discriminate.
  - apply (submission_limit_spares_staff sample.cfg sample.store "m1"
             sample.maud req
             (submissionsRouter.mkCreateBody (Some "Epic Kill") None)
             (submissionsRouter.mkCreateValue "Epic Kill" None)
             (submissionsRouter.mkUpload "win.mp4" "video/mp4" 4096 "9f1c.mp4"));
      try reflexivity.
    + vm_compute. discriminate.
    + right. reflexivity.
Defined.

(** ** What a store failure leaves behind *)

Lemma staged_then_removed (x : string) (X : gset string) :
  x ∉ X → ({[x]} ∪ X) ∖ {[x]} = X.
Proof.
  intros Hx. apply set_eq. intros y.
  rewrite elem_of_difference, elem_of_union, elem_of_singleton.
  split.
  - intros [[->|Hy] Hne]; done.
  - intros Hy. split; [by right|]. intros ->. done.
Qed.

(** X10. The two writes of a Create are not one unit. If the store fails
    on the insertion, the answer is 500, the staged blob is removed and
    the store is as before. If the insertion succeeds and the store
    fails on the update of lastSubmission, the answer is 500 as well and
    the blob is removed, but the new row stays: a PENDING submission
    whose fileUrl names no blob. *)
Theorem failed_create_removes_blob cfg w u req body value file owner p :
  user req = Some u → isBanned u = false →
  (role u = ADMIN ∨ role u = MODERATOR ∨ within_limit req "submission" = true) →
  users w !! id u = Some owner →
  submissionsRouter.createSubmissionSchema body = Valid value →
  submissionsRouter.fileFilter file = true →
  (submissionsRouter.size file ≤ submissionsRouter.fileSize_limit cfg)%Z →
  submissions w !! fresh_id req = None →
  (submissionsRouter.blob_url file ∉ uploads w) →
  run (dispatch cfg (POST_api_submissions body (Some file)) req) (true :: p) w
  = (Some (Json 500 (Text "Failed to create submission") NoData), w) ∧
  ∃ row w',
    run (dispatch cfg (POST_api_submissions body (Some file)) req)
      (false :: true :: p) w
    = (Some (Json 500 (Text "Failed to create submission") NoData), w') ∧
    submissions w' = <[fresh_id req := row]> (submissions w) ∧
    status row = PENDING ∧ userId row = id u ∧
    fileUrl row = submissionsRouter.blob_url file ∧
    (fileUrl row ∉ uploads w') ∧
    uploads w' = uploads w ∧ users w' = users w ∧
    payouts w' = payouts w ∧ adminLogs w' = adminLogs w.
Proof.
  intros Hu Hb Hlim Howner Hv Hfilter Hsize Hfresh Hblob.
  unfold run. rewrite (dispatch_post_admitted _ _ _ _ u) by done.
  unfold mbind, M_bind, bind, submissionsRouter.upload_single.
  rewrite Hfilter. apply Z.ltb_ge in Hsize. rewrite Hsize.
  unfold submissionsRouter.post_root, catch. rewrite Hb, Hv.
  unfold_calls. unfold mbind, M_bind, bind, call, unlink. cbn [fst snd].
  cbn [sub_id submissions set_uploads]. rewrite Hfresh.
  split.
  - f_equal. destruct w as [us ss ps ls bs]. unfold set_uploads. simpl in *.
    f_equal. by apply staged_then_removed.
  - eexists _, _. split; [reflexivity|]. simpl.
    split_and!; try done.
    + rewrite staged_then_removed by done. done.
    + by apply staged_then_removed.
Qed.

Lemma failed_create_removes_blob_witness :
  ∃ row w',
    run (dispatch sample.cfg
           (POST_api_submissions
              (submissionsRouter.mkCreateBody (Some "Epic Kill") None)
              (Some (submissionsRouter.mkUpload "win.mp4" "video/mp4" 4096
                       "9f1c.mp4")))
           (sample.request_for (Some sample.alice) ""))
      [false; true] sample.store
    = (Some (Json 500 (Text "Failed to create submission") NoData), w') ∧
    submissions w' !! "fresh" = Some row ∧ (fileUrl row ∉ uploads w').
Proof.
  destruct (failed_create_removes_blob sample.cfg sample.store sample.alice
              (sample.request_for (Some sample.alice) "")
              (submissionsRouter.mkCreateBody (Some "Epic Kill") None)
              (submissionsRouter.mkCreateValue "Epic Kill" None)
              (submissionsRouter.mkUpload "win.mp4" "video/mp4" 4096 "9f1c.mp4")
              sample.alice [])
    as (_ & row & w' & Hrun & Hsubs & _ & _ & _ & Hgone & _);
    try reflexivity.
  - right. right. reflexivity.
  - vm_compute. discriminate.
  - apply (bool_decide_unpack _). vm_compute. exact I.
  - exists row, w'. split_and!; try done.
    rewrite Hsubs. apply lookup_insert_eq.
Defined.

(** X11. Delete removes the blob before it removes the row: when the
    store fails on the deletion of the row, the answer is 500 and the
    row is still in the store, PENDING and owned by the caller, but its
    blob is gone. *)
Theorem failed_delete_loses_blob cfg w u req s p :
  user req = Some u → isBanned u = false →
  submissions w !! params_id req = Some s →
  userId s = id u → status s = PENDING →
  ∃ w',
    run (dispatch cfg DELETE_api_submissions_id req) (false :: true :: p) w
    = (Some (Json 500 (Text "Failed to delete submission") NoData), w') ∧
    submissions w' = submissions w ∧
    uploads w' = uploads w ∖ {[fileUrl s]} ∧
    users w' = users w ∧ payouts w' = payouts w ∧ adminLogs w' = adminLogs w.
Proof.
  intros Hu Hb Hs Hown Hst.
  unfold run, dispatch, submissions_route, chain, isAuthenticated, as_user.
  rewrite Hu, Hb. cbn [negb].
  unfold submissionsRouter.delete_id, catch. unfold_calls.
  unfold mbind, M_bind, bind, call, unlink. cbn [fst snd]. rewrite Hs.
  assert (submissionsRouter.delete_where u s = true) as ->
    by (by apply delete_where_true).
  eexists. split; [reflexivity|]. done.
Qed.

Lemma failed_delete_loses_blob_witness :
  ∃ w',
    run (dispatch sample.cfg DELETE_api_submissions_id
           (sample.request_for (Some sample.alice) "s1"))
      [false; true] sample.store
    = (Some (Json 500 (Text "Failed to delete submission") NoData), w') ∧
    submissions w' = submissions sample.store ∧
    uploads w' = uploads sample.store ∖ {["/uploads/s1.png"]}.
Proof.
  destruct (failed_delete_loses_blob sample.cfg sample.store sample.alice
              (sample.request_for (Some sample.alice) "s1")
              (sample.clip "s1" PENDING) [])
    as (w' & Hrun & Hsubs & Hup & _); try reflexivity.
  exists w'. done.
Defined.

(** ** Requests outside the admin area *)

Lemma serve_wp cfg uid u r req p w (Q : outcome response → world → Prop) :
  users w !! uid = Some u →
  (∀ a, globalLimiter req = Respond a → Q (Done a) w) →
  Q (Done (errorHandler StoreUnavailable)) w →
  (∀ p', wp (dispatch cfg r (with_user (Some (passport.selected u)) req)) p' w
           (fun res w' _ =>
              match res with
              | Done a => Q (Done a) w'
              | Thrown e => Q (Done (errorHandler e)) w'
              end)) →
  wp (serve cfg (Some uid) r req) p w (fun res w' _ => Q res w').
Proof.
  intros Hu Hanswer Hfail Hd. unfold serve. apply wp_catch.
  destruct (globalLimiter req); [|by apply wp_ret, Hanswer].
  apply wp_bind. unfold passport.deserializeUser, prisma.user_findUnique.
  apply wp_bind, wp_call; intros p'; cbn beta iota delta [fst snd].
  - by apply wp_ret.
  - apply wp_ret. rewrite Hu. simpl.
    eapply wp_mono; [|apply Hd].
    intros [a|e] w' p''; [done|]. intros H. by apply wp_ret.
Qed.

Lemma own_rows_only_refl uid m : own_rows_only uid m m.
Proof. intros i. by left. Qed.

Lemma dispatch_user_area cfg r req u p w :
  user req = Some u → admin_area r = false →
  wp (dispatch cfg r req) p w (fun res w' _ =>
    payouts w' = payouts w ∧ adminLogs w' = adminLogs w ∧
    (users w' = users w ∨
     ∃ owner, users w !! id u = Some owner ∧
       users w'
       = <[id u := submissionsRouter.touch_lastSubmission (clock req) owner]>
           (users w)) ∧
    own_rows_only (id u) (submissions w) (submissions w') ∧
    (∀ c m s, res = Done (Json c m (SubmissionData s)) → userId s = id u)).
Proof.
  intros Hu Harea.
  assert (∀ n failure p,
    wp (read_only n failure) p w (fun res w' _ =>
      payouts w' = payouts w ∧ adminLogs w' = adminLogs w ∧
      (users w' = users w ∨
       ∃ owner, users w !! id u = Some owner ∧
         users w'
         = <[id u := submissionsRouter.touch_lastSubmission (clock req) owner]>
             (users w)) ∧
      own_rows_only (id u) (submissions w) (submissions w') ∧
      (∀ c m s, res = Done (Json c m (SubmissionData s)) → userId s = id u)))
    as Hread.
  { intros n failure p0. unfold read_only. apply wp_catch, wp_bind.
    revert p0. induction n as [|n IH]; intros p0; simpl.
    - apply wp_ret, wp_ret. split_and!; auto using own_rows_only_refl.
      intros; discriminate.
    - apply wp_bind, wp_call; intros p'; simpl.
      + apply wp_ret. split_and!; auto using own_rows_only_refl.
        intros; discriminate.
      + apply IH. }
  destruct r; try discriminate;
    unfold dispatch, submissions_route, chain, isAuthenticated;
    rewrite Hu; destruct (negb (isBanned u)); cbn iota;
    try (apply wp_ret; split_and!; auto using own_rows_only_refl;
         intros; unfold refuse in *; destruct (wants_json req); discriminate);
    try apply Hread; unfold as_user; rewrite ?Hu.
  - (* GET /:id *)
    unfold submissionsRouter.get_id. unfold_calls.
    wp_any; simpl; split_and!; auto using own_rows_only_refl;
      intros; simplify_eq; bool_hyps; done.
  - (* POST / *)
    unfold submissionLimiter, rateLimit. rewrite Hu.
    destruct (if bool_decide (role u = ADMIN) || bool_decide (role u = MODERATOR)
              then Next
              else if within_limit req "submission" then Next
                   else Respond
                          (Json 429
                             (Text "Daily submission limit exceeded. Try again tomorrow.")
                             NoData)) eqn:Hlimiter;
      [|apply wp_ret; split_and!; auto using own_rows_only_refl;
        intros; destruct (_ || _), (within_limit req "submission");
        simplify_eq].
    simpl. apply wp_bind.
    eapply wp_mono; [|apply upload_single_keeps_submissions].
    intros [file|e] w1 p1 (Hsubs & Husers & Hpay & Hlogs & _); cbn beta iota;
      rewrite <- Hsubs, <- Husers, <- Hpay, <- Hlogs.
    2:{ split_and!; auto using own_rows_only_refl. intros; discriminate. }
    unfold submissionsRouter.post_root. unfold_calls.
    wp_any; simpl in *; split_and!; auto using own_rows_only_refl;
      try (intros; simplify_eq; done); try (right; eauto; fail).
    all: intros i; destruct (decide (i = fresh_id req)) as [->|Hne];
      [right; rewrite lookup_insert_eq;
       match goal with H : submissions _ !! _ = None |- _ => rewrite H end;
       done
      |left; by rewrite lookup_insert_ne].
  - (* DELETE /:id *)
    unfold submissionsRouter.delete_id. unfold_calls.
    wp_any; simpl in *; split_and!; auto using own_rows_only_refl;
      try (intros; simplify_eq; done).
    all: simplify_eq.
    all: match goal with H : submissionsRouter.delete_where _ _ = true |- _ =>
           apply delete_where_true in H; destruct H end.
    all: intros i; destruct (decide (i = params_id req)) as [->|Hne];
      [right; rewrite lookup_delete_eq;
       match goal with H : submissions _ !! _ = Some _ |- _ => rewrite H end;
       done
      |left; by rewrite lookup_delete_ne].
Qed.

(** X12. Outside the admin area a request acts for its sender alone,
    whatever the sender's role and under every fault plan: no payout and
    no audit entry is written, no row of [users] changes except that the
    sender's own lastSubmission may be set to the time of the request,
    and every row of [submissions] that is created, changed or removed
    belongs to the sender. *)
Theorem user_area_acts_for_sender_only cfg w uid u r req p :
  users w !! uid = Some u → id u = uid → admin_area r = false →
  let w' := (run (serve cfg (Some uid) r req) p w).2 in
  payouts w' = payouts w ∧ adminLogs w' = adminLogs w ∧
  (users w' = users w ∨
   users w' = <[uid := submissionsRouter.touch_lastSubmission (clock req) u]>
                (users w)) ∧
  own_rows_only uid (submissions w) (submissions w').
Proof.
  intros Hu Hid Harea.
  apply (run_of_wp _ _ _ (fun _ w' =>
    payouts w' = payouts w ∧ adminLogs w' = adminLogs w ∧
    (users w' = users w ∨
     users w' = <[uid := submissionsRouter.touch_lastSubmission (clock req) u]>
                  (users w)) ∧
    own_rows_only uid (submissions w) (submissions w'))).
  apply (serve_wp cfg uid u r req p w (fun _ w' =>
    payouts w' = payouts w ∧ adminLogs w' = adminLogs w ∧
    (users w' = users w ∨
     users w' = <[uid := submissionsRouter.touch_lastSubmission (clock req) u]>
                  (users w)) ∧
    own_rows_only uid (submissions w) (submissions w'))); [done| | |].
  - intros _ _. split_and!; auto using own_rows_only_refl.
  - split_and!; auto using own_rows_only_refl.
  - intros p'.
    eapply wp_mono;
      [|apply (dispatch_user_area cfg r _ (passport.selected u)); done].
    simpl. rewrite Hid.
    intros res w' _ (Hpay & Hlogs & Husers & Hsubs & _).
    assert (payouts w' = payouts w ∧ adminLogs w' = adminLogs w ∧
            (users w' = users w ∨
             users w'
             = <[uid := submissionsRouter.touch_lastSubmission (clock req) u]>
                 (users w)) ∧
            own_rows_only uid (submissions w) (submissions w')) as H.
    { split_and!; try done.
      destruct Husers as [Husers|(owner & Howner & Husers)]; [by left|].
      right. by simplify_eq. }
    by destruct res.
Qed.

Lemma user_area_acts_for_sender_only_witness :
  let w' :=
    (run (serve sample.cfg (Some "u1") DELETE_api_submissions_id
            (sample.request_for None "s1")) no_faults sample.store).2 in
  payouts w' = [] ∧ adminLogs w' = [] ∧
  (users w' = users sample.store ∨
   users w' = <["u1" := submissionsRouter.touch_lastSubmission 7 sample.alice]>
                (users sample.store)) ∧
  own_rows_only "u1" (submissions sample.store) (submissions w').
Proof.
  apply (user_area_acts_for_sender_only sample.cfg sample.store "u1"
           sample.alice DELETE_api_submissions_id
           (sample.request_for None "s1") no_faults); reflexivity.
Defined.

(** X13. Nobody is shown a submission of somebody else by GET /:id or
    POST /, the two routes outside the admin area whose answer carries a
    row here (the rows of the list routes are not part of the
    embedding). Under every fault plan, a row in the answer to a signed-in
    user belongs to that user; and GET /:id on a row of somebody else is
    answered as if the row did not exist: the answer is the one the same
    request gets from the store without that row, which is 404
    "Submission not found" when nothing fails. *)
Theorem rows_returned_belong_to_sender cfg w uid u req :
  users w !! uid = Some u → id u = uid →
  (∀ r p c m s w',
     r = GET_api_submissions_id ∨ (∃ body part, r = POST_api_submissions body part) →
     run (serve cfg (Some uid) r req) p w
     = (Some (Json c m (SubmissionData s)), w') →
     userId s = uid) ∧
  (∀ s,
     submissions w !! params_id req = Some s → userId s ≠ uid →
     (∀ p, (run (serve cfg (Some uid) GET_api_submissions_id req) p w).1
           = (run (serve cfg (Some uid) GET_api_submissions_id req) p
                (set_submissions (delete (params_id req)) w)).1) ∧
     (isBanned u = false → within_limit req "global" = true →
      run (serve cfg (Some uid) GET_api_submissions_id req) no_faults w
      = (Some (Json 404 (Text "Submission not found") NoData), w))).
Proof.
  intros Hu Hid. split.
  - intros r p c m s w' Hr Hrun.
    assert (admin_area r = false) as Harea
      by (by destruct Hr as [->|(body & part & ->)]).
    pose proof (run_of_wp (serve cfg (Some uid) r req) p w (fun res _ =>
      ∀ c m s, res = Some (Json c m (SubmissionData s)) → userId s = uid)) as H.
    rewrite Hrun in H. eapply H; [|reflexivity].
    apply (serve_wp cfg uid u r req p w (fun res _ =>
      ∀ c m s,
        match res with Done a => Some a | Thrown _ => None end
        = Some (Json c m (SubmissionData s)) → userId s = uid)); [done| | |].
    + unfold globalLimiter, rateLimit. intros a Ha.
      destruct (within_limit req "global"); simplify_eq. intros; discriminate.
    + intros; discriminate.
    + intros p'.
      eapply wp_mono;
        [|apply (dispatch_user_area cfg r _ (passport.selected u)); done].
      simpl. rewrite Hid.
      intros res w1 _ (_ & _ & _ & _ & Hres).
      destruct res as [a|e].
      * intros c0 m0 s0 Ha. apply (Hres c0 m0 s0). by simplify_eq.
      * destruct e; intros; discriminate.
  - intros s Hs Hforeign.
    assert (∀ p w0,
      users w0 = users w →
      (submissions w0 !! params_id req = Some s ∨
       submissions w0 !! params_id req = None) →
      (run (serve cfg (Some uid) GET_api_submissions_id req) p w0).1
      = (run (serve cfg (Some uid) GET_api_submissions_id req) p w).1 ∧
      (isBanned u = false → within_limit req "global" = true →
       p = no_faults →
       run (serve cfg (Some uid) GET_api_submissions_id req) p w0
       = (Some (Json 404 (Text "Submission not found") NoData), w0))) as Hsame.
    { intros p w0 Husers Hrow.
      unfold run, serve, catch, globalLimiter, rateLimit.
      destruct (within_limit req "global"); [|split; [done|intros; discriminate]].
      unfold passport.deserializeUser, prisma.user_findUnique, mbind, M_bind,
        bind, mret, M_ret, ret, call.
      destruct p as [|[] p]; cbn [fst snd]; rewrite ?Husers, ?Hu;
        cbn [fmap option_fmap option_map];
        try (split; [done|intros; discriminate]).
      all: unfold dispatch, submissions_route, chain, isAuthenticated, as_user;
        cbn [user with_user passport.selected isBanned];
        destruct (isBanned u); cbn [negb];
        try (split; [done|intros; discriminate]).
      all: unfold submissionsRouter.get_id, prisma.submission_findFirst, catch,
             mbind, M_bind, bind, mret, M_ret, ret, call;
        cbn [id passport.selected params_id with_user]; rewrite Hid.
      all: try (destruct p as [|[] p]); cbn [fst snd];
        rewrite ?Hs, ?(bool_decide_eq_false_2 _ Hforeign);
        destruct Hrow as [Hrow|Hrow];
        rewrite ?Hrow, ?(bool_decide_eq_false_2 _ Hforeign);
        (split; [done|intros; try discriminate; done]). }
    split.
    + intros p. symmetry.
      apply (Hsame p (set_submissions (delete (params_id req)) w)); [done|].
      right. apply lookup_delete_eq.
    + intros Hb Hlim. by apply (Hsame no_faults w); [|left| | |].
Qed.

Lemma rows_returned_belong_to_sender_witness :
  run (serve sample.cfg (Some "u1") GET_api_submissions_id
         (sample.request_for None "s1")) no_faults sample.store
  = (Some (Json 200 (Text "") (SubmissionData (sample.clip "s1" PENDING))),
     sample.store) ∧
  userId (sample.clip "s1" PENDING) = "u1" ∧
  run (serve sample.cfg (Some "m1") GET_api_submissions_id
         (sample.request_for None "s1")) no_faults sample.store
  = (Some (Json 404 (Text "Submission not found") NoData), sample.store).
Proof.
  split; [vm_compute; reflexivity|]. split.
  - destruct (rows_returned_belong_to_sender sample.cfg sample.store "u1"
                sample.alice (sample.request_for None "s1")) as [Hown _].
    + vm_compute. reflexivity.
    + reflexivity.
    + apply (Hown GET_api_submissions_id no_faults 200 (Text "")
               (sample.clip "s1" PENDING) sample.store).
      * left. reflexivity.
      * vm_compute. reflexivity.
  - destruct (rows_returned_belong_to_sender sample.cfg sample.store "m1"
                sample.maud (sample.request_for None "s1")) as [_ Hforeign].
    + vm_compute. reflexivity.
    + reflexivity.
    + apply (Hforeign (sample.clip "s1" PENDING)).
      * vm_compute. reflexivity.
      * vm_compute. discriminate.
      * reflexivity.
      * reflexivity.
Defined.

(** X14. Create, read and delete compose. After a Create that succeeds
    its sender reads the new row back under the id the Create answered,
    and deleting it answers 200 and takes the row and its blob away
    again: the submissions and the upload directory are as they were
    before the Create, and the row can no longer be read. *)
Theorem create_get_delete_round_trip cfg w u req req' body value file owner :
  user req = Some u → isBanned u = false →
  (role u = ADMIN ∨ role u = MODERATOR ∨ within_limit req "submission" = true) →
  users w !! id u = Some owner →
  submissionsRouter.createSubmissionSchema body = Valid value →
  submissionsRouter.fileFilter file = true →
  (submissionsRouter.size file ≤ submissionsRouter.fileSize_limit cfg)%Z →
  submissions w !! fresh_id req = None →
  (submissionsRouter.blob_url file ∉ uploads w) →
  user req' = Some u → params_id req' = fresh_id req →
  ∃ row w1 w2,
    run (dispatch cfg (POST_api_submissions body (Some file)) req) no_faults w
    = (Some (Json 201 (Text "Submission created successfully")
               (SubmissionData row)), w1) ∧
    sub_id row = params_id req' ∧
    run (dispatch cfg GET_api_submissions_id req') no_faults w1
    = (Some (Json 200 (Text "") (SubmissionData row)), w1) ∧
    run (dispatch cfg DELETE_api_submissions_id req') no_faults w1
    = (Some (Json 200 (Text "Submission deleted successfully") NoData), w2) ∧
    submissions w2 = submissions w ∧ uploads w2 = uploads w ∧
    run (dispatch cfg GET_api_submissions_id req') no_faults w2
    = (Some (Json 404 (Text "Submission not found") NoData), w2).
Proof.
  intros Hu Hb Hlim Howner Hv Hfilter Hsize Hfresh Hblob Hu' Hid.
  eexists _, _, _. split.
  { unfold run. by erewrite create_success. }
  assert (isAuthenticated req' = Next) as Hauth.
  { unfold isAuthenticated. by rewrite Hu', Hb. }
  split; [by rewrite Hid|].
  split_and!.
  - unfold run, dispatch, submissions_route, chain, as_user.
    rewrite Hauth, Hu'.
    unfold submissionsRouter.get_id, catch. unfold_calls.
    unfold mbind, M_bind, bind, call, no_faults. cbn [fst snd].
    cbn [submissions set_users set_submissions set_uploads].
    rewrite Hid, lookup_insert_eq. cbn [userId].
    by rewrite bool_decide_eq_true_2.
  - unfold run, dispatch, submissions_route, chain, as_user.
    rewrite Hauth, Hu'.
    unfold submissionsRouter.delete_id, catch. unfold_calls.
    unfold mbind, M_bind, bind, call, unlink, no_faults. cbn [fst snd].
    cbn [submissions set_users set_submissions set_uploads].
    rewrite Hid, lookup_insert_eq.
    unfold submissionsRouter.delete_where. cbn [userId status].
    rewrite !bool_decide_eq_true_2 by done. cbn [andb fst snd].
    cbn [submissions set_users set_submissions set_uploads].
    rewrite lookup_insert_eq. reflexivity.
  - simpl. by apply delete_insert_id.
  - simpl. by apply staged_then_removed.
  - unfold run, dispatch, submissions_route, chain, as_user.
    rewrite Hauth, Hu'.
    unfold submissionsRouter.get_id, catch. unfold_calls.
    unfold mbind, M_bind, bind, call, no_faults. cbn [fst snd].
    cbn [submissions set_users set_submissions set_uploads].
    rewrite Hid, lookup_delete_eq. reflexivity.
Qed.

Lemma create_get_delete_round_trip_witness :
  ∃ row w1 w2,
    run (dispatch sample.cfg
           (POST_api_submissions
              (submissionsRouter.mkCreateBody (Some "Epic Kill") None)
              (Some (submissionsRouter.mkUpload "win.mp4" "video/mp4" 4096
                       "9f1c.mp4")))
           (sample.request_for (Some sample.alice) ""))
      no_faults sample.store
    = (Some (Json 201 (Text "Submission created successfully")
               (SubmissionData row)), w1) ∧
    run (dispatch sample.cfg DELETE_api_submissions_id
           (sample.request_for (Some sample.alice) "fresh")) no_faults w1
    = (Some (Json 200 (Text "Submission deleted successfully") NoData), w2) ∧
    submissions w2 = submissions sample.store ∧
    uploads w2 = uploads sample.store.
Proof.
  destruct (create_get_delete_round_trip sample.cfg sample.store sample.alice
              (sample.request_for (Some sample.alice) "")
              (sample.request_for (Some sample.alice) "fresh")
              (submissionsRouter.mkCreateBody (Some "Epic Kill") None)
              (submissionsRouter.mkCreateValue "Epic Kill" None)
              (submissionsRouter.mkUpload "win.mp4" "video/mp4" 4096 "9f1c.mp4")
              sample.alice)
    as (row & w1 & w2 & Hcreate & _ & _ & Hdelete & Hsubs & Hup & _);
    try reflexivity.
  - right. right. reflexivity.
  - vm_compute. discriminate.
  - apply (bool_decide_unpack _). vm_compute. exact I.
  - exists row, w1, w2. done.
Defined.

(** ** Logging in *)

Lemma findUnique_epicId_known (m : gmap string User) i u e :
  users_wf m → m !! i = Some u → epicId u = e →
  head (map_to_list (filter (fun kv : string * User => epicId kv.2 = e) m))
  = Some (i, u).
Proof.
  intros [Hkey Huniq] Hu He.
  assert (filter (fun kv : string * User => epicId kv.2 = e) m = {[i := u]})
    as ->; [|by rewrite map_to_list_singleton].
  apply map_eq. intros j. destruct (decide (j = i)) as [->|Hne].
  - rewrite lookup_singleton_eq. by apply map_lookup_filter_Some.
  - rewrite lookup_singleton_ne by done.
    apply map_lookup_filter_None. right. intros v Hv Hev. simpl in Hev.
    apply Hne. apply (Huniq j v Hv i u Hu). congruence.
Qed.

(** X15. Logging in with an external account that a user already has
    changes nothing but the nickname (when the provider sends one) and
    the refresh token (when the login brings one) of that user: no row
    is added, and the id, the role, the balance and the ban stay as they
    are, so the allow-list of administrators decides the role at the
    first login only. *)
Theorem known_identity_login_keeps_account cfg req token a epicUser rest w i u :
  users_wf (users w) → users w !! i = Some u →
  epicId u = passport.accountId epicUser → a ≠ "" →
  ∃ u' w',
    passport.verify cfg req token (Some a) (passport.Ok (epicUser :: rest))
      no_faults w = (Done u', w', no_faults) ∧
    users w' = <[i := u']> (users w) ∧
    dom (users w') = dom (users w) ∧
    submissions w' = submissions w ∧ payouts w' = payouts w ∧
    adminLogs w' = adminLogs w ∧
    id u' = i ∧ epicId u' = epicId u ∧ role u' = role u ∧
    balance u' = balance u ∧ isBanned u' = isBanned u ∧
    lastSubmission u' = lastSubmission u ∧
    refreshToken u' = from_option Some (refreshToken u) token ∧
    nickname u' = default (nickname u) (passport.displayName epicUser).
Proof.
  intros Hwf Hu He Ha.
  exists (passport.refresh (passport.displayName epicUser) token u).
  eexists. split.
  - unfold passport.verify, truthy. rewrite bool_decide_eq_false_2 by done.
    unfold prisma.user_findUnique_epicId, prisma.user_update, mbind, M_bind,
      bind, call, no_faults. cbn [fst snd negb].
    rewrite (findUnique_epicId_known _ i u) by done.
    cbn [head fmap option_fmap option_map snd].
    rewrite (proj1 Hwf i u Hu), Hu. reflexivity.
  - simpl. split_and!; try done; [|by apply (proj1 Hwf)].
    apply set_eq. intros j. rewrite dom_insert, elem_of_union, elem_of_singleton.
    split; [intros [->|Hj]; [by apply elem_of_dom|done]|by right].
Qed.

Lemma known_identity_login_keeps_account_witness :
  ∃ u' w',
    passport.verify sample.cfg (sample.request_for None "") (Some "token-2")
      (Some "epic-alice")
      (passport.Ok [passport.mkEpicUser "epic-alice" (Some "Alice")])
      no_faults sample.store = (Done u', w', no_faults) ∧
    users w' = <["u1" := u']> (users sample.store) ∧
    role u' = USER ∧ nickname u' = "Alice".
Proof.
  destruct (known_identity_login_keeps_account sample.cfg
              (sample.request_for None "") (Some "token-2") "epic-alice"
              (passport.mkEpicUser "epic-alice" (Some "Alice")) []
              sample.store "u1" sample.alice)
    as (u' & w' & Hrun & Husers & _ & _ & _ & _ & _ & _ & Hrole & _ & _ & _ & _
        & Hnick).
  - apply (bool_decide_unpack _). vm_compute. exact I.
  - reflexivity.
  - reflexivity.
  - discriminate.
  - exists u', w'.
    split; [exact Hrun|]. split; [exact Husers|].
    split; [exact Hrole|exact Hnick].
Defined.

Lemma verify_done_stored cfg req token account_id answer p w :
  users_wf (users w) →
  wp (passport.verify cfg req token account_id answer) p w (fun res w' _ =>
    ∀ u, res = Done u → users w' !! serializeUser u = Some u).
Proof.
  intros [Hkey _]. unfold passport.verify, serializeUser. unfold_calls.
  destruct (negb (truthy account_id)); [by apply wp_throw|].
  destruct answer as [|[|epicUser rest]]; try by apply wp_throw.
  apply wp_bind, wp_call; intros p'; cbn beta iota delta [fst snd]; [done|].
  destruct (head (map_to_list _)) as [[j u]|] eqn:Hhead; simpl.
  - apply head_map_to_list_lookup, map_lookup_filter_Some in Hhead as [Hj _].
    apply wp_call; intros p''; [done|].
    rewrite (Hkey j u Hj), Hj. simpl. intros ? [= <-]. simpl.
    rewrite (Hkey j u Hj). apply lookup_insert_eq.
  - apply wp_call; intros p''; [done|]. simpl.
    destruct (users w !! fresh_id req); [done|].
    case_decide; [|done]. simpl. intros ? [= <-]. apply lookup_insert_eq.
Qed.

(** X16. Login and session agree. Whatever user the verify callback hands
    to passport, new or known and under any fault plan, the id that
    [serializeUser] keeps in the session is the key under which
    [deserializeUser] finds that same user again (with the columns it
    selects), and the authentication guard then lets the request pass
    exactly when the user is not banned. *)
Theorem login_then_session cfg req token account_id answer p w u w' p' req' :
  users_wf (users w) →
  passport.verify cfg req token account_id answer p w = (Done u, w', p') →
  passport.deserializeUser (serializeUser u) no_faults w'
  = (Done (Some (passport.selected u)), w', no_faults) ∧
  (isAuthenticated (with_user (Some (passport.selected u)) req') = Next
   ↔ isBanned u = false).
Proof.
  intros Hwf Hrun.
  pose proof (verify_done_stored cfg req token account_id answer p w Hwf) as H.
  unfold wp in H. rewrite Hrun in H. simpl in H. specialize (H u eq_refl).
  split.
  - unfold passport.deserializeUser, prisma.user_findUnique, mbind, M_bind,
      bind, call, no_faults. cbn [fst snd]. by rewrite H.
  - unfold isAuthenticated, refuse. simpl.
    destruct (isBanned u); simpl; [|done].
    split; [|done]. by destruct (wants_json _).
Qed.

Lemma login_then_session_witness :
  let u := mkUser "fresh" "epic-ops" "Ops" 0 ADMIN false None (Some "t") in
  passport.deserializeUser "fresh" no_faults
    (set_users <["fresh" := u]> sample.store)
  = (Done (Some (passport.selected u)), set_users <["fresh" := u]> sample.store,
     no_faults).
Proof.
  intros u.
  apply (login_then_session sample.cfg (sample.request_for None "")
           (Some "t") (Some "epic-ops")
           (passport.Ok [passport.mkEpicUser "epic-ops" (Some "Ops")])
           no_faults sample.store u (set_users <["fresh" := u]> sample.store)
           no_faults (sample.request_for None "")).
  - apply (bool_decide_unpack _). vm_compute. exact I.
  - vm_compute. reflexivity.
Defined.

(** ** More on the admin handlers *)

Lemma bulk_where_after_bulk ids ids' st why actor req
    (m : gmap string Submission) :
  st ≠ PENDING → ids' ⊆ ids →
  filter (fun kv => admin.bulk_where ids' kv.1 kv.2 = true)
    ((admin.bulk_data st why actor req
        <$> filter (fun kv => admin.bulk_where ids kv.1 kv.2 = true) m) ∪ m)
  = ∅.
Proof.
  intros Hst Hsub. apply map_empty. intros i.
  apply map_lookup_filter_None. right. intros s Hs Hwhere.
  simpl in Hwhere. apply bulk_where_true in Hwhere as [Hin Hpending].
  rewrite lookup_updateMany in Hs.
  destruct (m !! i) as [s0|] eqn:Hs0; [|done].
  destruct (admin.bulk_where ids i s0) eqn:Hw0; simplify_eq.
  apply not_true_iff_false in Hw0. apply Hw0, bulk_where_true. auto.
Qed.

(** X17. The first decision of a bulk review stands. After a bulk review
    of a list of ids has been applied, a second bulk review of ids among
    them, by any moderator and with any decision, matches no row: it
    answers 200 with the count 0 and every submission keeps the status,
    reject reason, reviewer and review time the first one gave it. *)
Theorem bulk_review_twice_changes_nothing
    actor req body ids st actor' req' body' ids' st' w :
  admin.bb_submissionIds body = Some ids → ids ≠ [] →
  status_rule (admin.bb_status body) = Valid st →
  (st = REJECTED → truthy (admin.bb_rejectReason body) = true) →
  admin.bb_submissionIds body' = Some ids' → ids' ≠ [] → ids' ⊆ ids →
  status_rule (admin.bb_status body') = Valid st' →
  (st' = REJECTED → truthy (admin.bb_rejectReason body') = true) →
  let w1 := (run (admin.patch_submissions_bulk_review actor req body)
               no_faults w).2 in
  ∃ w2,
    run (admin.patch_submissions_bulk_review actor' req' body') no_faults w1
    = (Some (Json 200
               (Text ("0 submissions " +:+ status_toLowerCase st'
                      +:+ " successfully"))
               (Count 0)), w2) ∧
    submissions w2 = submissions w1 ∧ users w2 = users w1 ∧
    payouts w2 = payouts w1.
Proof.
  intros Hids Hne Hst Hwhy Hids' Hne' Hsub Hst' Hwhy' w1. subst w1.
  rewrite (bulk_review_no_faults actor req body ids st) by done.
  rewrite (bulk_review_no_faults actor' req' body' ids' st') by done.
  cbn [snd submissions set_adminLogs set_submissions].
  rewrite bulk_where_after_bulk; [|destruct (status_rule_valid _ _ Hst);
                                   congruence|done].
  rewrite map_size_empty, fmap_empty.
  eexists. split; [reflexivity|]. simpl. by rewrite (left_id_L ∅ (∪)).
Qed.

Lemma bulk_review_twice_changes_nothing_witness :
  let first :=
    admin.mkBulkReviewBody (Some ["s1"; "s2"; "s3"]) (Some "APPROVED") None in
  let second :=
    admin.mkBulkReviewBody (Some ["s1"; "s3"]) (Some "REJECTED") (Some "late") in
  let w1 :=
    (run (admin.patch_submissions_bulk_review sample.maud
            (sample.request_for (Some sample.maud) "") first)
       no_faults sample.store).2 in
  ∃ w2,
    run (admin.patch_submissions_bulk_review sample.root
           (sample.request_for (Some sample.root) "") second) no_faults w1
    = (Some (Json 200 (Text "0 submissions rejected successfully") (Count 0)),
       w2) ∧
    submissions w2 = submissions w1.
Proof.
  intros first second w1.
  destruct (bulk_review_twice_changes_nothing sample.maud
              (sample.request_for (Some sample.maud) "") first
              ["s1"; "s2"; "s3"] APPROVED sample.root
              (sample.request_for (Some sample.root) "") second
              ["s1"; "s3"] REJECTED sample.store)
    as (w2 & Hrun & Hsubs & _).
  - reflexivity.
  - discriminate.
  - reflexivity.
  - discriminate.
  - reflexivity.
  - discriminate.
  - intros i Hi. apply (bool_decide_unpack _).
    repeat (apply elem_of_cons in Hi as [->|Hi]; [vm_compute; exact I|]).
    by apply elem_of_nil in Hi.
  - reflexivity.
  - reflexivity.
  - exists w2. split; [exact Hrun|exact Hsubs].
Defined.

(** X18. PATCH /users/:id looks at who the actor is, not at who the
    target is. When the body is valid, the target exists and is not the
    actor, and the body has no role or the actor is an ADMIN, the edit is
    applied whatever the roles of the two are (a MODERATOR can ban an
    ADMIN): the keys present replace the columns of the target, the
    balance included, no payout row is written for a changed balance, and
    one UPDATE_USER entry is appended to the audit log. *)
Theorem patch_users_ignores_target_role actor req body value target w :
  updateUserSchema body = Valid value →
  id actor ≠ params_id req →
  users w !! params_id req = Some target →
  (v_role value = None ∨ role actor = ADMIN) →
  ∃ w',
    run (admin.patch_users actor req body) no_faults w
    = (Some (Json 200 (Text "User updated successfully")
               (UserData (admin.update_user_data value target))), w') ∧
    users w'
    = <[params_id req := admin.update_user_data value target]> (users w) ∧
    payouts w' = payouts w ∧
    adminLogs w'
    = (adminLogs w ++
       [mkAdminLog (id actor) "UPDATE_USER"
          (UpdateUserDetails (nickname target) (v_role value)
             (v_isBanned value) (v_balance value))
          (ip req) (user_agent req)])%list ∧
    submissions w' = submissions w ∧ uploads w' = uploads w.
Proof.
  intros Hv Hother Htarget Hrole.
  unfold run, admin.patch_users. rewrite Hv.
  rewrite canModifyUser_other by done. unfold_calls.
  unfold catch, mbind, M_bind, bind, call, no_faults.
  cbn [fst snd negb]. rewrite Htarget. cbn beta iota.
  assert (bool_decide (is_Some (v_role value))
          && negb (bool_decide (role actor = ADMIN)) = false) as ->.
  { destruct Hrole as [Hnone|Hadmin].
    - rewrite Hnone. rewrite bool_decide_eq_false_2; [done|].
      by intros [? ?].
    - rewrite (bool_decide_eq_true_2 _ Hadmin). apply andb_false_r. }
  rewrite Htarget. eexists. split; [reflexivity|]. done.
Qed.

Lemma patch_users_ignores_target_role_witness :
  ∃ w',
    run (admin.patch_users sample.maud (sample.request_for (Some sample.maud) "a1")
           (mkUpdateUserBody None (Some true) (Some (5 # 1))))
      no_faults sample.store
    = (Some (Json 200 (Text "User updated successfully")
               (UserData (mkUser "a1" "epic-root" "root" (5 # 1) ADMIN true
                            None None))), w') ∧
    payouts w' = [].
Proof.
  destruct (patch_users_ignores_target_role sample.maud
              (sample.request_for (Some sample.maud) "a1")
              (mkUpdateUserBody None (Some true) (Some (5 # 1)))
              (mkUpdateUserValue None (Some true) (Some (5 # 1)))
              sample.root sample.store)
    as (w' & Hrun & _ & Hpay & _).
  - reflexivity.
  - discriminate.
  - vm_compute. reflexivity.
  - left. reflexivity.
  - exists w'. split; [exact Hrun|exact Hpay].
Defined.

(** X19. The review handler does not ask [canModifyUser]: a moderator or
    administrator who approves a PENDING submission of their own with a
    bonus is answered 200, and their own balance is raised by the bonus
    with a COMPLETED payout that names them as user and as admin. *)
Theorem review_bonus_skips_self_check actor req body value bonus s me w :
  reviewSubmissionSchema body = Valid value →
  v_status value = APPROVED → v_bonusAmount value = Some bonus →
  (0 < bonus)%Q →
  submissions w !! params_id req = Some s → status s = PENDING →
  userId s = id actor → users w !! id actor = Some me →
  ∃ row w',
    run (admin.patch_submissions_review actor req body) no_faults w
    = (Some (Json 200 (Text "Submission approved successfully")
               (SubmissionData row)), w') ∧
    users w' = <[id actor := admin.increment_balance bonus me]> (users w) ∧
    payouts w'
    = (payouts w ++
       [mkPayout (id actor) bonus ("Approved submission: " +:+ category s)
          COMPLETED (id actor) (Some (clock req))])%list.
Proof.
  intros Hv Hst Hbonus Hpos Hs Hpending Hown Hme.
  apply Qlt_bool_iff in Hpos. rewrite <- Hown in Hme.
  unfold run, admin.patch_submissions_review. rewrite Hv. unfold_calls.
  unfold catch, mbind, M_bind, bind, call, no_faults. cbn [fst snd].
  rewrite Hs, Hme. cbn beta iota. rewrite bool_decide_eq_true_2 by done.
  cbn [negb]. rewrite Hs. cbn beta iota. rewrite Hbonus, Hst, Hpos.
  rewrite bool_decide_eq_true_2 by done. cbn [andb].
  cbn [users set_submissions set_users set_payouts]. rewrite Hme.
  cbn beta iota. eexists _, _. split; [reflexivity|].
  cbn [users payouts set_payouts set_users set_submissions set_adminLogs].
  rewrite Hown. split; reflexivity.
Qed.

Lemma review_bonus_skips_self_check_witness :
  let mine :=
    mkSubmission "s9" "m1" "/uploads/s9.png" "clip.png" IMAGE 2048 "Solo Win"
      None PENDING None None None in
  ∃ row w',
    run (admin.patch_submissions_review sample.maud
           (sample.request_for (Some sample.maud) "s9")
           (mkReviewBody (Some "APPROVED") None (Some (1000 # 1))))
      no_faults (set_submissions <["s9" := mine]> sample.store)
    = (Some (Json 200 (Text "Submission approved successfully")
               (SubmissionData row)), w') ∧
    users w' !! "m1" = Some (admin.increment_balance (1000 # 1) sample.maud).
Proof.
  intros mine.
  destruct (review_bonus_skips_self_check sample.maud
              (sample.request_for (Some sample.maud) "s9")
              (mkReviewBody (Some "APPROVED") None (Some (1000 # 1)))
              (mkReviewValue APPROVED None (Some (1000 # 1))) (1000 # 1)
              mine sample.maud (set_submissions <["s9" := mine]> sample.store))
    as (row & w' & Hrun & Husers & _).
  - reflexivity.
  - reflexivity.
  - reflexivity.
  - reflexivity.
  - vm_compute. reflexivity.
  - reflexivity.
  - reflexivity.
  - vm_compute. reflexivity.
  - exists row, w'. split; [exact Hrun|].
    rewrite Husers. apply lookup_insert_eq.
Defined.

(** X20. The audit log is written on a best-effort basis.
    [logAdminAction] never throws, whatever the store does; so when the
    store fails on the insertion of the audit entry only, add-balance
    still answers 200 with the balance raised and the payout written, and
    the audit log has no entry for it. *)
Theorem audit_log_is_best_effort actor req body value target w :
  (∀ adminId action details p w0,
     ∃ w1 p1, logAdminAction adminId action details req p w0
              = (Done tt, w1, p1)) ∧
  (addBalanceSchema body = Valid value →
   id actor ≠ params_id req → users w !! params_id req = Some target →
   ∃ r w',
     run (admin.post_users_add_balance actor req body)
       [false; false; false; true] w = (Some r, w') ∧
     succeeded r = true ∧
     users w'
     = <[params_id req := admin.increment_balance (v_amount value) target]>
         (users w) ∧
     payouts w' = (payouts w ++ [grant_payout actor req value])%list ∧
     adminLogs w' = adminLogs w).
Proof.
  split.
  - intros adminId action details p w0.
    unfold logAdminAction, prisma.adminLog_create, catch, mbind, M_bind, bind,
      call.
    destruct p as [|[] p]; eexists _, _; reflexivity.
  - intros Hv Hother Hu.
    unfold run, admin.post_users_add_balance. rewrite Hv.
    rewrite canModifyUser_other by done. unfold_calls.
    unfold catch, mbind, M_bind, bind, promise_all, call.
    cbn [fst snd negb]. rewrite Hu. cbn beta iota. rewrite Hu.
    eexists _, _. split; [reflexivity|]. done.
Qed.

Lemma audit_log_is_best_effort_witness :
  ∃ r w',
    run (admin.post_users_add_balance sample.root
           (sample.request_for (Some sample.root) "u1")
           (mkAddBalanceBody (Some (25 # 1)) (Some "tournament prize")))
      [false; false; false; true] sample.store = (Some r, w') ∧
    succeeded r = true ∧ length (payouts w') = 1%nat ∧ adminLogs w' = [].
Proof.
  destruct (audit_log_is_best_effort sample.root
              (sample.request_for (Some sample.root) "u1")
              (mkAddBalanceBody (Some (25 # 1)) (Some "tournament prize"))
              (mkAddBalanceValue (25 # 1) "tournament prize")
              sample.alice sample.store)
    as (_ & Hgrant).
  destruct Hgrant as (r & w' & Hrun & Hok & _ & Hpay & Hlogs).
  - reflexivity.
  - discriminate.
  - vm_compute. reflexivity.
  - exists r, w'. split; [exact Hrun|]. split; [exact Hok|].
    split; [by rewrite Hpay|exact Hlogs].
Defined.

(** ** Paging *)

(** X21. Paging of the list handlers, for a default [d] and a cap [cap]
    that are positive. The limit is never 0, so the page count is never
    a division by zero, and never above the cap; it is [d] when the
    query has no usable limit, and a negative limit of the query is
    taken as it is. For a positive limit and a row count [total], the
    page count is the least number of pages that hold [total] rows, and
    a page from 1 on starts inside the rows exactly when it is not
    beyond the page count. *)
Theorem paging_bounds d cap q :
  (0 < d)%Z → (0 < cap)%Z →
  paging.limit d cap q ≠ 0%Z ∧ (paging.limit d cap q ≤ cap)%Z ∧
  (q = None ∨ q = Some 0%Z → paging.limit d cap q = Z.min d cap) ∧
  (∀ n, q = Some n → (n < 0)%Z → paging.limit d cap q = n) ∧
  (∀ total,
     (0 ≤ total)%Z → (0 < paging.limit d cap q)%Z →
     let l := paging.limit d cap q in
     (total ≤ paging.pages total l * l)%Z ∧
     (∀ n, (total ≤ n * l)%Z → (paging.pages total l ≤ n)%Z) ∧
     (∀ pq, (1 ≤ paging.page pq)%Z →
        (paging.skip (paging.page pq) l < total)%Z
        ↔ (paging.page pq ≤ paging.pages total l)%Z)).
Proof.
  intros Hd Hcap. unfold paging.limit, paging.or_default.
  split_and!.
  - destruct q as [n|]; [destruct (Z.eqb_spec n 0)|]; lia.
  - lia.
  - intros [->| ->]; reflexivity.
  - intros n -> Hn. destruct (Z.eqb_spec n 0); lia.
  - intros total Htotal.
    generalize (Z.min match q with
                      | Some n => if (n =? 0)%Z then d else n
                      | None => d
                      end cap).
    intros l Hl. cbv zeta. unfold paging.pages, paging.skip.
    pose proof (Z.div_mod (- total) l ltac:(lia)) as Hdm.
    pose proof (Z.mod_pos_bound (- total) l Hl) as Hmod.
    split_and!.
    + nia.
    + intros n Hn. nia.
    + intros pq Hpage. generalize dependent (paging.page pq). intros pg Hpg.
      split; intros H; nia.
Qed.

Lemma paging_bounds_witness :
  paging.limit 10 50 (Some 500%Z) = 50%Z ∧
  paging.pages 101 (paging.limit 10 50 (Some 500%Z)) = 3%Z ∧
  ((paging.skip (paging.page (Some 3%Z)) 50 < 101)%Z
   ↔ (paging.page (Some 3%Z) ≤ paging.pages 101 50)%Z).
Proof.
  destruct (paging_bounds 10 50 (Some 500%Z)) as (_ & _ & _ & _ & H);
    [lia|lia|].
  destruct (H 101%Z) as (_ & _ & Hpage); [lia|reflexivity|].
  split_and!; [reflexivity|reflexivity|].
  apply (Hpage (Some 3%Z)). vm_compute. discriminate.
Defined.

(** ** The category list *)

Lemma elem_of_new_Set x l : x ∈ categories.new_Set l ↔ x ∈ l.
Proof.
  induction l as [|y l IH]; simpl; [done|].
  rewrite !elem_of_cons, list_elem_of_filter, IH.
  destruct (decide (x = y)) as [->|Hne]; [by split; left|].
  split; [intros [?|[_ ?]]; [done|by right]|intros [?|?]; [done|by right]].
Qed.

Lemma NoDup_new_Set l : NoDup (categories.new_Set l).
Proof.
  induction l as [|y l IH]; simpl; [constructor|].
  apply NoDup_cons. split; [|by apply NoDup_filter].
  rewrite list_elem_of_filter. by intros [? _].
Qed.

Lemma length_new_Set l : (length (categories.new_Set l) ≤ length l)%nat.
Proof.
  induction l as [|y l IH]; simpl; [done|].
  pose proof (length_filter (fun x => x ≠ y) (categories.new_Set l)). lia.
Qed.

(** X22. The list [all] of GET /api/submissions/meta/categories, whatever
    the groups the store finds: it has no duplicates and at most 30
    entries; it holds each of the ten default categories and each of the
    (at most 20) popular ones, so the cut at 30 never drops a default;
    and it holds nothing else. *)
Theorem categories_all_keeps_defaults groups :
  NoDup (categories.all groups) ∧
  (length (categories.all groups) ≤ 30)%nat ∧
  (∀ c, c ∈ categories.defaultCategories → c ∈ categories.all groups) ∧
  (∀ c n, (c, n) ∈ categories.popular groups → c ∈ categories.all groups) ∧
  (∀ c, c ∈ categories.all groups →
     c ∈ categories.defaultCategories ∨ ∃ n, (c, n) ∈ categories.popular groups).
Proof.
  assert (categories.all groups
          = categories.new_Set ((categories.popular groups).*1
                                ++ categories.defaultCategories)) as ->.
  { unfold categories.all. apply take_ge.
    etrans; [apply length_new_Set|].
    rewrite length_app, length_fmap. unfold categories.popular.
    rewrite length_take.
    change (length categories.defaultCategories) with 10%nat. lia. }
  split_and!.
  - apply NoDup_new_Set.
  - etrans; [apply length_new_Set|].
    rewrite length_app, length_fmap. unfold categories.popular.
    rewrite length_take.
    change (length categories.defaultCategories) with 10%nat. lia.
  - intros c Hc. apply elem_of_new_Set, elem_of_app. by right.
  - intros c n Hc. apply elem_of_new_Set, elem_of_app. left.
    apply list_elem_of_fmap. by exists (c, n).
  - intros c Hc. apply elem_of_new_Set, elem_of_app in Hc as [Hc|Hc]; [|by left].
    right. apply list_elem_of_fmap in Hc as ([c' n] & -> & Hin). by exists n.
Qed.

(** ** The submission counts of a user *)

Lemma stat_add_stat_eq s st n : userRouter.stat st (userRouter.add_stat s (st, n)) = n.
Proof. by destruct st. Qed.

Lemma stat_add_stat_ne s st k n :
  st ≠ k → userRouter.stat st (userRouter.add_stat s (k, n)) = userRouter.stat st s.
Proof. by destruct st, k. Qed.

Lemma total_add_stat s g :
  userRouter.total (userRouter.add_stat s g) = (userRouter.total s + g.2)%nat.
Proof. by destruct g as [[] n]. Qed.

Lemma stat_fold_other st l s0 :
  st ∉ l.*1 →
  userRouter.stat st (fold_left userRouter.add_stat l s0) = userRouter.stat st s0.
Proof.
  revert s0. induction l as [|[k n] l IH]; intros s0 Hst; simpl; [done|].
  simpl in Hst. apply not_elem_of_cons in Hst as [Hne Hst].
  rewrite IH by done. by apply stat_add_stat_ne.
Qed.

Lemma stat_fold_in st n l s0 :
  NoDup l.*1 → (st, n) ∈ l →
  userRouter.stat st (fold_left userRouter.add_stat l s0) = n.
Proof.
  revert s0. induction l as [|[k m] l IH]; intros s0 Hnd Hin; simpl.
  - by apply elem_of_nil in Hin.
  - simpl in Hnd. apply NoDup_cons in Hnd as [Hk Hnd].
    apply elem_of_cons in Hin as [[= <- <-]|Hin].
    + rewrite stat_fold_other by done. apply stat_add_stat_eq.
    + by apply IH.
Qed.

Lemma total_fold l s0 :
  NoDup l.*1 →
  (∀ st, st ∈ l.*1 → userRouter.stat st s0 = 0%nat) →
  let s := fold_left userRouter.add_stat l s0 in
  (userRouter.total s + (userRouter.pending s0 + userRouter.approved s0
                         + userRouter.rejected s0)
   = userRouter.total s0 + (userRouter.pending s + userRouter.approved s
                            + userRouter.rejected s))%nat.
Proof.
  revert s0. induction l as [|[k n] l IH]; intros s0 Hnd Hzero; simpl; [lia|].
  simpl in Hnd. apply NoDup_cons in Hnd as [Hk Hnd].
  specialize (IH (userRouter.add_stat s0 (k, n)) Hnd).
  simpl in IH. rewrite total_add_stat in IH.
  assert (userRouter.stat k s0 = 0%nat) as Hk0 by (apply Hzero; simpl; left).
  assert (∀ st, st ∈ l.*1 →
            userRouter.stat st (userRouter.add_stat s0 (k, n)) = 0%nat) as Hz.
  { intros st Hst. rewrite stat_add_stat_ne by (by intros ->).
    apply Hzero. simpl. by right. }
  specialize (IH Hz). simpl in IH.
  destruct k; simpl in *; lia.
Qed.

Lemma size_filter_insert {A} (P : string * A → Prop) `{!∀ x, Decision (P x)}
    (m : gmap string A) i x :
  m !! i = None →
  size (filter P (<[i := x]> m))
  = ((if decide (P (i, x)) then 1 else 0) + size (filter P m))%nat.
Proof.
  intros Hi. destruct (decide (P (i, x))) as [HP|HP].
  - rewrite map_filter_insert_True by done.
    rewrite map_size_insert_None; [done|].
    apply map_lookup_filter_None. by left.
  - rewrite map_filter_insert_not' by (done || by rewrite Hi).
    done.
Qed.

Lemma rows_of_user_by_status uid (m : gmap string Submission) :
  size (filter (fun kv : string * Submission => userId kv.2 = uid) m)
  = (size (userRouter.rows_with uid PENDING m)
     + size (userRouter.rows_with uid APPROVED m)
     + size (userRouter.rows_with uid REJECTED m))%nat.
Proof.
  unfold userRouter.rows_with.
  induction m as [|i x m Hi IH] using map_ind.
  - by rewrite !map_filter_empty, !map_size_empty.
  - rewrite !size_filter_insert by done. rewrite IH. simpl.
    destruct (status x) eqn:Hst, (decide (userId x = uid)) as [Hu|Hu];
      repeat case_decide; try lia; exfalso;
      repeat match goal with
             | H : _ ∧ _ |- _ => destruct H
             | H : ¬ (_ ∧ _) |- _ => apply H; split; congruence
             end; congruence.
Qed.

Lemma groupBy_status_spec uid m :
  userRouter.is_groupBy_status uid m (userRouter.groupBy_status uid m).
Proof.
  unfold userRouter.is_groupBy_status, userRouter.groupBy_status.
  cbn [fmap list_fmap]. rewrite !filter_cons, filter_nil. cbn [snd].
  split.
  - repeat case_decide; cbn [fmap list_fmap fst];
      repeat (apply NoDup_cons; split;
              [rewrite ?elem_of_cons, elem_of_nil; intuition discriminate|]);
      apply NoDup_nil_2.
  - intros st n.
    repeat case_decide; rewrite ?elem_of_cons, elem_of_nil;
      (split;
       [intros Hin; repeat (destruct Hin as [Hin|Hin]); try done;
        injection Hin as -> ->; done
       |intros [-> Hn]; destruct st; try done; auto]).
Qed.

(** X23. The counts of GET /api/user/stats and GET /api/user/dashboard.
    Whatever the order in which the store lists the status groups of the
    caller, the [forEach] leaves in [pending], [approved] and [rejected]
    the number of rows the caller has with that status (0 for a status
    without group), and in [total] their sum, which is the number of
    rows the caller has. *)
Theorem submission_stats_count_own_rows uid m groups :
  userRouter.is_groupBy_status uid m groups →
  let s := userRouter.submission_stats groups in
  userRouter.pending s = size (userRouter.rows_with uid PENDING m) ∧
  userRouter.approved s = size (userRouter.rows_with uid APPROVED m) ∧
  userRouter.rejected s = size (userRouter.rows_with uid REJECTED m) ∧
  userRouter.total s
  = (userRouter.pending s + userRouter.approved s + userRouter.rejected s)%nat ∧
  userRouter.total s
  = size (filter (fun kv : string * Submission => userId kv.2 = uid) m).
Proof.
  intros [Hnd Hgroups] s.
  assert (∀ st, userRouter.stat st s = size (userRouter.rows_with uid st m))
    as Hstat.
  { intros st. unfold s, userRouter.submission_stats.
    destruct (decide (size (userRouter.rows_with uid st m) = 0%nat)) as [Hz|Hnz].
    - rewrite stat_fold_other; [by destruct st|].
      intros Hin. apply list_elem_of_fmap in Hin as ([st' n] & -> & Hin).
      apply Hgroups in Hin as [-> Hn]. done.
    - apply stat_fold_in; [done|]. by apply Hgroups. }
  assert (userRouter.total s
          = (userRouter.pending s + userRouter.approved s
             + userRouter.rejected s)%nat) as Htotal.
  { pose proof (total_fold groups (userRouter.mkStats 0 0 0 0) Hnd) as H.
    simpl in H. fold (userRouter.submission_stats groups) in H. fold s in H.
    rewrite <- H; [lia|]. by intros []. }
  pose proof (Hstat PENDING) as Hp. pose proof (Hstat APPROVED) as Ha.
  pose proof (Hstat REJECTED) as Hr. simpl in Hp, Ha, Hr.
  split_and!; try done.
  rewrite Htotal, Hp, Ha, Hr. symmetry. apply rows_of_user_by_status.
Qed.

Lemma submission_stats_count_own_rows_witness :
  let s := userRouter.submission_stats
             (userRouter.groupBy_status "u1" (submissions sample.store)) in
  userRouter.pending s = 2%nat ∧ userRouter.approved s = 1%nat ∧
  userRouter.rejected s = 0%nat ∧ userRouter.total s = 3%nat.
Proof.
  intros s.
  destruct (submission_stats_count_own_rows "u1" (submissions sample.store)
              (userRouter.groupBy_status "u1" (submissions sample.store))
              (groupBy_status_spec "u1" (submissions sample.store)))
    as (Hp & Ha & Hr & Ht & _).
  fold s in Hp, Ha, Hr, Ht.
  assert (userRouter.pending s = 2%nat) as Hp' by (rewrite Hp; vm_compute; reflexivity).
  assert (userRouter.approved s = 1%nat) as Ha' by (rewrite Ha; vm_compute; reflexivity).
  assert (userRouter.rejected s = 0%nat) as Hr' by (rewrite Hr; vm_compute; reflexivity).
  split_and!; [exact Hp'|exact Ha'|exact Hr'|].
  rewrite Ht, Hp', Ha', Hr'. reflexivity.
Defined.

(** ** The allow-list of administrators *)

Lemma split_comma_nonempty s : passport.split_comma s ≠ [].
Proof.
  destruct s as [|c s]; simpl; [done|].
  destruct (Ascii.eqb c ","); [done|]. by destruct (passport.split_comma s).
Qed.

(** X24. [split(',')] on the allow-list ADMIN_EPIC_IDS: joining the
    pieces with commas gives the configured string back, no piece holds a
    comma, and there is one piece more than there are commas; so the
    pieces are not trimmed, and an empty string is one empty piece. *)
Theorem split_comma_pieces s :
  String.concat "," (passport.split_comma s) = s ∧
  Forall (fun piece => ","%char ∉ list_ascii_of_string piece)
    (passport.split_comma s) ∧
  length (passport.split_comma s)
  = S (length (filter (fun c => c = ","%char) (list_ascii_of_string s))).
Proof.
  induction s as [|c s (IHjoin & IHcomma & IHlen)]; simpl.
  - split_and!; [done| |done].
    constructor; [|constructor]. simpl. apply not_elem_of_nil.
  - pose proof (split_comma_nonempty s) as Hne.
    destruct (Ascii.eqb_spec c ",") as [->|Hc].
    + split_and!.
      * destruct (passport.split_comma s) as [|piece pieces] eqn:Hs; [done|].
        simpl. by rewrite <- IHjoin.
      * constructor; [simpl; apply not_elem_of_nil|done].
      * rewrite filter_cons_True by done. simpl. by rewrite IHlen.
    + destruct (passport.split_comma s) as [|piece pieces] eqn:Hs; [done|].
      split_and!.
      * simpl in *. destruct pieces; simpl in *; by rewrite <- IHjoin.
      * apply Forall_cons in IHcomma as [Hpiece Hrest].
        constructor; [|done]. simpl. apply not_elem_of_cons. split; [congruence|done].
      * rewrite filter_cons_False by done. done.
Qed.

(** ** Two reviews in flight *)

(** The review handler is its two halves, one after the other. *)
Lemma review_cut_at_read actor req body p w :
  admin.patch_submissions_review actor req body p w
  = (a ← review_until_read req body; review_from_read actor req a) p w.
Proof.
  unfold admin.patch_submissions_review, review_until_read, review_from_read,
    review_after_findUnique.
  destruct (reviewSubmissionSchema body) as [value|k t]; [|reflexivity].
  unfold prisma.submission_findUnique_include_user, catch, mbind, M_bind, bind,
    call.
  destruct p as [|[] p]; reflexivity.
Qed.

(** X25. Two reviews of one PENDING submission that are in flight
    together are both applied. When both handlers have read the row
    before either goes on, an approval with a bonus followed by a
    rejection are both answered 200: the row ends REJECTED with the
    second reviewer, having been APPROVED in between, while the owner
    keeps the bonus and the payout of the approval. The test of the
    status is made on the row as it was read, and the update names the
    row by id alone. *)
Theorem two_reviews_in_flight_both_apply
    actorA reqA bodyA valueA bonus actorB reqB bodyB valueB s u w :
  reviewSubmissionSchema bodyA = Valid valueA →
  v_status valueA = APPROVED → v_bonusAmount valueA = Some bonus →
  (0 < bonus)%Q →
  reviewSubmissionSchema bodyB = Valid valueB → v_status valueB = REJECTED →
  params_id reqB = params_id reqA →
  submissions w !! params_id reqA = Some s → status s = PENDING →
  users w !! userId s = Some u →
  ∃ w',
    two_reviews_in_flight actorA reqA bodyA actorB reqB bodyB no_faults w
    = (Done (Json 200 (Text "Submission approved successfully")
               (SubmissionData (admin.review_data valueA actorA reqA s)),
             Json 200 (Text "Submission rejected successfully")
               (SubmissionData
                  (admin.review_data valueB actorB reqB
                     (admin.review_data valueA actorA reqA s)))),
       w', no_faults) ∧
    status (admin.review_data valueA actorA reqA s) = APPROVED ∧
    submissions w'
    = <[params_id reqA :=
          admin.review_data valueB actorB reqB
            (admin.review_data valueA actorA reqA s)]> (submissions w) ∧
    (status <$> submissions w' !! params_id reqA) = Some REJECTED ∧
    (reviewedBy <$> submissions w' !! params_id reqA) = Some (Some (id actorB)) ∧
    users w' = <[userId s := admin.increment_balance bonus u]> (users w) ∧
    payouts w' = (payouts w ++ [bonus_payout actorA reqA s bonus])%list.
Proof.
  intros HvA HstA Hbonus Hpos HvB HstB Hid Hs Hpending Hu.
  apply Qlt_bool_iff in Hpos.
  unfold two_reviews_in_flight, review_until_read, review_from_read,
    review_after_findUnique.
  rewrite HvA, HvB, Hid. unfold_calls.
  unfold catch, mbind, M_bind, bind, mret, M_ret, ret, call, no_faults.
  cbn [fst snd].
  rewrite Hs, Hu. cbn beta iota. rewrite bool_decide_eq_true_2 by done.
  cbn [negb]. rewrite Hs. cbn beta iota. rewrite Hbonus, HstA, Hpos.
  rewrite bool_decide_eq_true_2 by done. cbn [andb].
  cbn [users set_submissions set_users set_payouts]. rewrite Hu.
  cbn beta iota.
  cbn [submissions set_submissions set_users set_payouts set_adminLogs].
  rewrite lookup_insert_eq. cbn beta iota. rewrite HstB.
  destruct (v_bonusAmount valueB) as [bonusB|];
    cbn [andb bool_decide decide_rel]; rewrite ?bool_decide_eq_false_2 by done;
    cbn [andb]; cbn beta iota;
    (eexists; split; [reflexivity|]);
    cbn [submissions users payouts set_submissions set_users set_payouts
         set_adminLogs];
    rewrite insert_insert_eq, lookup_insert_eq; simpl;
    rewrite HstA, HstB; done.
Qed.

Lemma two_reviews_in_flight_both_apply_witness :
  ∃ rowA rowB w',
    two_reviews_in_flight
      sample.root (sample.request_for (Some sample.root) "s1")
      (mkReviewBody (Some "APPROVED") None (Some (50 # 1)))
      sample.maud (sample.request_for (Some sample.maud) "s1")
      (mkReviewBody (Some "REJECTED") (Some "late") None)
      no_faults sample.store
    = (Done (Json 200 (Text "Submission approved successfully")
               (SubmissionData rowA),
             Json 200 (Text "Submission rejected successfully")
               (SubmissionData rowB)), w', no_faults) ∧
    (status <$> submissions w' !! "s1") = Some REJECTED ∧
    length (payouts w') = 1%nat.
Proof.
  destruct (two_reviews_in_flight_both_apply
              sample.root (sample.request_for (Some sample.root) "s1")
              (mkReviewBody (Some "APPROVED") None (Some (50 # 1)))
              (mkReviewValue APPROVED None (Some (50 # 1))) (50 # 1)
              sample.maud (sample.request_for (Some sample.maud) "s1")
              (mkReviewBody (Some "REJECTED") (Some "late") None)
              (mkReviewValue REJECTED (Some "late") None)
              (sample.clip "s1" PENDING) sample.alice sample.store)
    as (w' & Hrun & _ & _ & Hst & _ & _ & Hpay).
  - reflexivity.
  - reflexivity.
  - reflexivity.
  - reflexivity.
  - reflexivity.
  - reflexivity.
  - reflexivity.
  - vm_compute. reflexivity.
  - reflexivity.
  - vm_compute. reflexivity.
  - eexists _, _, w'. split; [exact Hrun|]. split; [exact Hst|].
    rewrite Hpay. reflexivity.
Defined.

(** ** The access policy and the review handler *)

(** C6. No actor may change their own balance through the admin path,
    and [canModifyUser] is there to say so, but the review handler does
    not ask it. Moderator m1, for whom [canModifyUser] on her own id is
    false and whose add-balance on herself is refused with 403, approves
    her own PENDING submission with a bonus of 1000 through the
    application: the answer is 200, her balance goes from 0 to 1000, and
    the payout written names her as user and as admin. *)
Theorem C6_review_credits_own_balance :
  let mine :=
    mkSubmission "s9" "m1" "/uploads/s9.png" "clip.png" IMAGE 2048 "Solo Win"
      None PENDING None None None in
  let w := set_submissions <["s9" := mine]> sample.store in
  canModifyUser sample.maud (id sample.maud) = false ∧
  run (serve sample.cfg (Some "m1")
         (POST_api_admin_users_id_add_balance
            (mkAddBalanceBody (Some (1000 # 1)) (Some "for me")))
         (sample.request_for None "m1")) no_faults w
  = (Some (Json 403 (Text "Cannot modify this user") NoData), w) ∧
  ∃ w',
    run (serve sample.cfg (Some "m1")
           (PATCH_api_admin_submissions_id_review
              (mkReviewBody (Some "APPROVED") None (Some (1000 # 1))))
           (sample.request_for None "s9")) no_faults w
    = (Some (Json 200 (Text "Submission approved successfully")
               (SubmissionData
                  (mkSubmission "s9" "m1" "/uploads/s9.png" "clip.png" IMAGE
                     2048 "Solo Win" None APPROVED None (Some "m1") (Some 7)))),
       w') ∧
    (balance <$> users w !! "m1") = Some 0%Q ∧
    (balance <$> users w' !! "m1") = Some (0 + 1000 # 1)%Q ∧
    payouts w'
    = [mkPayout "m1" (1000 # 1) "Approved submission: Solo Win" COMPLETED "m1"
         (Some 7)].
Proof.
  intros mine w. split; [reflexivity|]. split; [vm_compute; reflexivity|].
  eexists. split; [vm_compute; reflexivity|].
  split; [vm_compute; reflexivity|]. split; vm_compute; reflexivity.
Qed.
